(** * Benchmark-result plotting scripts: a shallow embedding

    The repository holds three scripts that read benchmark result files,
    aggregate two measurements per file and draw bar charts:

    - [OLD PLOT/analyze_results.py]  (module [Old])
    - [new_analyze_results.py]       (module [New])
    - [plot.py]                      (module [Plot])

    The Python built-ins the scripts rely on are in module [Py], the
    fragment of regular expressions they use in module [Re], the process
    state (directories, standard output) in module [Sys] and the part of
    pandas they call in module [Pd].

    Modelling scope.  Text is ASCII ([string] of the standard library); the
    content of a file is its text as Python decodes it, line ends already
    translated.  Integers are unbounded ([Z]), so neither the interpreter's
    limit on the number of digits [int] accepts nor the 64-bit range of a
    pandas integer column is represented.  Paths are joined with [/].
    Rendering itself (matplotlib) is opaque: a chart is represented by the
    file [savefig] creates, and the colour of a bar by its position on the
    gradient, an exact rational. *)

From Stdlib Require Import ZArith QArith Qcanon Ascii String DecimalString DecimalPos.
From stdpp Require Import gmap strings list sorting.

Close Scope Q_scope.
Local Open Scope Z_scope.

(** ** Exceptions and results *)

Inductive exn :=
| ValueError
| KeyError (key : string)
| IndexError
| OSError.

Inductive result (A : Type) :=
| Ok (a : A)
| Raise (e : exn).
Arguments Ok {A} a.
Arguments Raise {A} e.

Definition rbind {A B} (r : result A) (k : A → result B) : result B :=
  match r with Ok a => k a | Raise e => Raise e end.

(** ** Python built-ins on [str] *)

Module Py.

Definition isdigit (c : ascii) : bool :=
  match c with
  | "0" | "1" | "2" | "3" | "4" | "5" | "6" | "7" | "8" | "9" => true
  | _ => false
  end%char.

Definition digit_val (c : ascii) : Z := Z.of_N (N_of_ascii c) - 48.

(** Whitespace as [str.strip] sees it (ASCII part). *)
Definition isspace (c : ascii) : bool :=
  match c with
  | "009" | "010" | "011" | "012" | "013"
  | "028" | "029" | "030" | "031" | " " => true
  | _ => false
  end%char.

(** Whitespace as [int] skips it around a literal: tab, line feed,
    vertical tab, form feed, carriage return and blank.  The separators
    28 to 31, which [str.strip] removes, are refused by [int]. *)
Definition isspace_int (c : ascii) : bool :=
  match c with
  | "009" | "010" | "011" | "012" | "013" | " " => true
  | _ => false
  end%char.

Definition upper_char (c : ascii) : ascii :=
  let n := N_of_ascii c in
  if ((97 <=? n) && (n <=? 122))%N then ascii_of_N (n - 32) else c.

Fixpoint upper (s : string) : string :=
  match s with
  | EmptyString => EmptyString
  | String c r => String (upper_char c) (upper r)
  end.

Fixpoint lstrip (s : string) : string :=
  match s with
  | EmptyString => EmptyString
  | String c r => if isspace c then lstrip r else s
  end.

Fixpoint rstrip (s : string) : string :=
  match s with
  | EmptyString => EmptyString
  | String c r =>
      match rstrip r with
      | EmptyString => if isspace c then EmptyString else String c EmptyString
      | r' => String c r'
      end
  end.

Definition strip (s : string) : string := rstrip (lstrip s).

(** The same for the white space of [int]. *)
Fixpoint lskip (s : string) : string :=
  match s with
  | EmptyString => EmptyString
  | String c r => if isspace_int c then lskip r else s
  end.

Fixpoint rskip (s : string) : string :=
  match s with
  | EmptyString => EmptyString
  | String c r =>
      match rskip r with
      | EmptyString => if isspace_int c then EmptyString else String c EmptyString
      | r' => String c r'
      end
  end.

(** [s.startswith(p)] *)
Fixpoint startswith (s p : string) : bool :=
  match p, s with
  | EmptyString, _ => true
  | String a p', String b s' => Ascii.eqb a b && startswith s' p'
  | String _ _, EmptyString => false
  end.

(** [s.endswith(p)]: some suffix of [s] is [p]. *)
Fixpoint endswith (s p : string) : bool :=
  String.eqb s p ||
  match s with
  | EmptyString => false
  | String _ s' => endswith s' p
  end.

(** [sub in s] *)
Fixpoint contains (s sub : string) : bool :=
  startswith s sub ||
  match s with
  | EmptyString => false
  | String _ s' => contains s' sub
  end.

(** [s.replace(old, new)] for a non-empty [old]: left to right, without
    overlap.  [skip] counts the characters of a replaced occurrence that
    are still to be passed over. *)
Fixpoint replace_from (skip : nat) (old new s : string) : string :=
  match s with
  | EmptyString => EmptyString
  | String c s' =>
      match skip with
      | S k => replace_from k old new s'
      | O =>
          if startswith s old
          then new +:+ replace_from (String.length old - 1) old new s'
          else String c (replace_from 0 old new s')
      end
  end.

Definition replace (s old new : string) : string := replace_from 0 old new s.

(** [s.split(sep)] for a one-character separator. *)
Fixpoint split (s : string) (sep : ascii) : list string :=
  match s with
  | EmptyString => [EmptyString]
  | String c r =>
      if Ascii.eqb c sep then EmptyString :: split r sep
      else match split r sep with
           | h :: t => String c h :: t
           | [] => [String c EmptyString]
           end
  end.

(** Iterating over a text file: the lines, each with its terminator. *)
Fixpoint readlines (s : string) : list string :=
  match s with
  | EmptyString => []
  | String c r =>
      if Ascii.eqb c "010" then String c EmptyString :: readlines r
      else match readlines r with
           | h :: t => String c h :: t
           | [] => [String c EmptyString]
           end
  end.

(** The digits of an [int] literal in base 10: at least one digit, single
    underscores allowed between digits.  [seen] tells whether the previous
    character was a digit. *)
Fixpoint digits_from (seen : bool) (acc : Z) (s : string) : option Z :=
  match s with
  | EmptyString => if seen then Some acc else None
  | String c r =>
      if isdigit c then digits_from true (10 * acc + digit_val c) r
      else if Ascii.eqb c "_" && seen then
             match r with
             | String d _ => if isdigit d then digits_from false acc r else None
             | EmptyString => None
             end
      else None
  end.

(** [int(s)] on a [str]: white space around the literal is skipped, a
    sign may precede the digits.  Integers are unbounded, as in Python.
    The interpreter's bound on the number of digits of a literal
    ([sys.int_max_str_digits]: 4300 by default from CPython 3.11 on, none
    before, none when set to 0) is not modelled; a file name is too short
    to reach it, and what is stated about the text of a file is stated
    for numbers within it. *)
Definition int (s : string) : result Z :=
  let t := rskip (lskip s) in
  let '(neg, body) :=
    match t with
    | String "-" r => (true, r)
    | String "+" r => (false, r)
    | _ => (false, t)
    end in
  match digits_from false 0 body with
  | Some n => Ok (if neg then - n else n)
  | None => Raise ValueError
  end.

(** [sum(int(t) for t in l)] *)
Fixpoint sum_int (acc : Z) (l : list string) : result Z :=
  match l with
  | [] => Ok acc
  | t :: l' => rbind (int t) (λ n, sum_int (acc + n) l')
  end.

(** [str(n)] / [f"{n}"] for an integer. *)
Definition str (n : Z) : string := NilZero.string_of_int (Z.to_int n).

End Py.

(** ** The regular expressions of the scripts

    A pattern is a sequence of nodes; matching is Python's: greedy
    repetition with backtracking, leftmost match for [search]. *)

Module Re.

Inductive cls :=
| Lit (c : ascii)        (* the character itself, also an escaped one *)
| NotLit (c : ascii)     (* [^c] *)
| Digit                  (* \d *)
| Dot.                   (* . : anything but a newline *)

Definition cls_match (k : cls) (c : ascii) : bool :=
  match k with
  | Lit a => Ascii.eqb c a
  | NotLit a => negb (Ascii.eqb c a)
  | Digit => Py.isdigit c
  | Dot => negb (Ascii.eqb c "010")
  end.

Inductive node :=
| One (k : cls)          (* k *)
| Many (k : cls)         (* k+ *)
| Any (k : cls)          (* k* *)
| Open                   (* ( *)
| Close                  (* ) *)
| Eol.                   (* $ *)

(** [$] matches at the end and just before a final newline. *)
Definition at_end (s : string) : bool :=
  match s with
  | EmptyString => true
  | String "010" EmptyString => true
  | _ => false
  end.

(** The text a group consumed: what lies between the input at its opening
    parenthesis and the input at its closing one. *)
Definition consumed (opened rest : string) : string :=
  substring 0 (String.length opened - String.length rest) opened.

(** [run ns rest opened caps]: match [ns] at the start of [rest];
    [opened] is the input as it was at the last [Open], [caps] the groups
    closed so far (latest first).  Returns the groups and the input left. *)
Fixpoint run (ns : list node) : string → string → list string →
                                option (list string * string) :=
  match ns with
  | [] => λ rest _ caps, Some (rev caps, rest)
  | One k :: ns' => λ rest opened caps,
      match rest with
      | String c r => if cls_match k c then run ns' r opened caps else None
      | EmptyString => None
      end
  | Many k :: ns' => λ rest opened caps,
      (fix many (rest : string) :=
         match rest with
         | String c r =>
             if cls_match k c then
               match many r with
               | Some m => Some m
               | None => run ns' r opened caps
               end
             else None
         | EmptyString => None
         end) rest
  | Any k :: ns' => λ rest opened caps,
      (fix any (rest : string) :=
         match rest with
         | String c r =>
             if cls_match k c then
               match any r with
               | Some m => Some m
               | None => run ns' rest opened caps
               end
             else run ns' rest opened caps
         | EmptyString => run ns' rest opened caps
         end) rest
  | Open :: ns' => λ rest _ caps, run ns' rest rest caps
  | Close :: ns' => λ rest opened caps,
      run ns' rest opened (consumed opened rest :: caps)
  | Eol :: ns' => λ rest opened caps,
      if at_end rest then run ns' rest opened caps else None
  end.

(** [re.match]: anchored at the start. *)
Definition match_ (ns : list node) (s : string) : option (list string) :=
  fst <$> run ns s EmptyString [].

(** [re.search]: the first position at which the pattern matches. *)
Fixpoint search (ns : list node) (s : string) : option (list string) :=
  match match_ ns s with
  | Some g => Some g
  | None =>
      match s with
      | EmptyString => None
      | String _ s' => search ns s'
      end
  end.

(** [re.findall] for a pattern with one group: the group of every
    non-overlapping match, left to right.  [skip] counts the characters of
    the last match still to be passed over. *)
Fixpoint findall_from (ns : list node) (skip : nat) (s : string) : list string :=
  match skip with
  | S k =>
      match s with
      | EmptyString => []
      | String _ s' => findall_from ns k s'
      end
  | O =>
      match run ns s EmptyString [] with
      | Some (caps, rest) =>
          default EmptyString (head caps) ::
          match s with
          | EmptyString => []
          | String _ s' =>
              findall_from ns (String.length s - String.length rest - 1) s'
          end
      | None =>
          match s with
          | EmptyString => []
          | String _ s' => findall_from ns 0 s'
          end
      end
  end.

Definition findall (ns : list node) (s : string) : list string :=
  findall_from ns 0 s.

(** A literal piece of a pattern. *)
Fixpoint lits (s : string) : list node :=
  match s with
  | EmptyString => []
  | String c r => One (Lit c) :: lits r
  end.

End Re.

(** ** Records and the part of pandas the scripts call *)

Inductive value :=
| VInt (n : Z)
| VStr (s : string).

Global Instance value_eq_dec : EqDecision value.
Proof. solve_decision. Defined.

(** A Python [dict] with [str] keys. *)
Abbreviation dict := (gmap string value).

(** Truth value of a [dict]: non-empty. *)
Definition truthy (d : dict) : bool := bool_decide (d ≠ ∅).

Global Instance result_ret : MRet result := λ _ a, Ok a.
Global Instance result_bind : MBind result := λ _ _ k r, rbind r k.

(** [for x in l: acc = f(acc, x)] where [f] may raise. *)
Fixpoint foldM {A B} (f : B → A → result B) (l : list A) (b : B) : result B :=
  match l with
  | [] => Ok b
  | a :: l' => b' ← f b a; foldM f l' b'
  end.

Module Pd.

(** A frame built from records: the column labels and the rows.  A label
    a row does not bind is a missing cell (NaN) of that row. *)
Record DataFrame := {
  columns : gset string;
  rows : list dict
}.

(** [pd.DataFrame(records)]: the columns are the keys that occur. *)
Definition from_records (records : list dict) : DataFrame :=
  {| columns := ⋃ (dom <$> records); rows := records |}.

(** [pd.to_numeric(_, errors='coerce')] on one cell: a number stays, text
    that is no number becomes missing.  (Text cells are read as integer
    literals here; pandas also reads float literals.  The columns the
    scripts coerce never hold text.) *)
Definition to_numeric_cell (v : value) : option value :=
  match v with
  | VInt n => Some (VInt n)
  | VStr s => match Py.int s with Ok n => Some (VInt n) | Raise _ => None end
  end.

(** [df[col] = pd.to_numeric(df[col], errors='coerce')];
    [df[col]] raises [KeyError] for a label that is no column. *)
Definition to_numeric (df : DataFrame) (col : string) : result DataFrame :=
  if decide (col ∈ columns df) then
    Ok {| columns := columns df;
          rows := partial_alter (λ o, o ≫= to_numeric_cell) col <$> rows df |}
  else Raise (KeyError col).

Definition notna (subset : list string) (r : dict) : bool :=
  forallb (λ c, bool_decide (is_Some (r !! c))) subset.

(** [df.dropna(subset=cols, inplace=True)] *)
Definition dropna (subset : list string) (df : DataFrame) : result DataFrame :=
  match List.find (λ c, bool_decide (c ∉ columns df)) subset with
  | Some c => Raise (KeyError c)
  | None => Ok {| columns := columns df;
                  rows := List.filter (notna subset) (rows df) |}
  end.

Definition astype_int_cell (col : string) (r : dict) : result dict :=
  match r !! col with
  | Some (VInt n) => Ok r
  | Some (VStr s) => n ← Py.int s; Ok (<[col := VInt n]> r)
  | None => Raise ValueError
  end.

Fixpoint astype_int_rows (col : string) (l : list dict) : result (list dict) :=
  match l with
  | [] => Ok []
  | r :: l' =>
      r' ← astype_int_cell col r;
      l'' ← astype_int_rows col l';
      Ok (r' :: l'')
  end.

(** [df[col] = df[col].astype(int)] *)
Definition astype_int (df : DataFrame) (col : string) : result DataFrame :=
  if decide (col ∈ columns df) then
    l ← astype_int_rows col (rows df);
    Ok {| columns := columns df; rows := l |}
  else Raise (KeyError col).

Definition int_cell (col : string) (r : dict) : option Z :=
  match r !! col with
  | Some (VInt n) => Some n
  | _ => None
  end.

(** The values of a column, top to bottom (missing cells left out). *)
Definition column (col : string) (df : DataFrame) : list Z :=
  omap (int_cell col) (rows df).

(** [drop_duplicates] / [unique]: the first occurrence of each value, in
    order of appearance. *)
Fixpoint unique_from {A} `{EqDecision A} (seen l : list A) : list A :=
  match l with
  | [] => []
  | x :: l' =>
      if decide (x ∈ seen) then unique_from seen l'
      else x :: unique_from (x :: seen) l'
  end.

Definition unique {A} `{EqDecision A} (l : list A) : list A := unique_from [] l.

(** [df[df[col] == n]] *)
Definition where_eq (col : string) (n : Z) (l : list dict) : list dict :=
  List.filter (λ r, bool_decide (int_cell col r = Some n)) l.

(** The cells of [pivot_table(index=idx, columns=cols, values=vals)] that
    hold a value, as their (index, column) labels. *)
Definition pivot_table (idx cols vals : string) (l : list dict) : list (Z * Z) :=
  unique (omap (λ r, i ← int_cell idx r; c ← int_cell cols r;
                     _ ← int_cell vals r; Some (i, c)) l).

End Pd.

(** ** The process state: directories and standard output *)

Module Sys.

(** What [open(path)] finds.  A text file is read in pieces, so reading
    can fail after a part of the file was delivered. *)
Inductive file :=
| Text (content : string)
| Broken (head : string) (e : exn)
    (* reading delivers the lines of [head], then fails with [e]
       (an undecodable byte further on, an input/output error) *)
| Unreadable.                (* a directory, a permission error, ... *)

(** A line printed on standard output. *)
Inductive line :=
| Msg (s : string)
| ErrorReading (filepath : string) (e : exn)   (* "Error reading {filepath}: {e}" *)
| Table (df : Pd.DataFrame).                   (* df.to_string() *)

Record world := {
  results_dir : option (list (string * file));
    (* the directory [results]: its entries in [os.listdir] order,
       [None] when there is no such directory *)
  outdirs : gmap string (gset string);
    (* the output directories that exist, each with its file names *)
  stdout : list line
}.

(** Commands: state passing; an exception leaves the state as it was
    when it was raised. *)
Definition io (A : Type) : Type := world → result A * world.

Definition ret {A} (a : A) : io A := λ w, (Ok a, w).
Definition bind {A B} (m : io A) (k : A → io B) : io B :=
  λ w, match m w with
       | (Ok a, w') => k a w'
       | (Raise e, w') => (Raise e, w')
       end.
Definition lift {A} (r : result A) : io A := λ w, (r, w).

(** The state after one more line on standard output. *)
Definition log (l : line) (w : world) : world :=
  {| results_dir := results_dir w; outdirs := outdirs w;
     stdout := stdout w ++ [l] |}.

Definition print (l : line) : io unit := λ w, (Ok tt, log l w).

Definition path_exists (dir : string) : io bool :=
  λ w, (Ok (bool_decide (is_Some (outdirs w !! dir))), w).

(** [shutil.rmtree(dir)] *)
Definition rmtree (dir : string) : io unit :=
  λ w, (Ok tt, {| results_dir := results_dir w; outdirs := delete dir (outdirs w);
                  stdout := stdout w |}).

(** [os.makedirs(dir, exist_ok=True)] *)
Definition makedirs (dir : string) : io unit :=
  λ w, (Ok tt,
        {| results_dir := results_dir w;
           outdirs := match outdirs w !! dir with
                      | Some _ => outdirs w
                      | None => <[dir := ∅]> (outdirs w)
                      end;
           stdout := stdout w |}).

(** [os.path.isdir("results")] *)
Definition results_isdir : io bool :=
  λ w, (Ok (bool_decide (is_Some (results_dir w))), w).

(** [os.listdir("results")] *)
Definition listdir : io (list string) :=
  λ w, match results_dir w with
       | Some l => (Ok l.*1, w)
       | None => (Raise OSError, w)
       end.

(** [os.path.join(dir, name)] *)
Definition path_join (dir name : string) : string := dir +:+ "/" +:+ name.

Fixpoint lookup_entry (name : string) (l : list (string * file)) : option file :=
  match l with
  | [] => None
  | (n, f) :: l' => if String.eqb n name then Some f else lookup_entry name l'
  end.

(** [open(filepath, 'r')] for a path under [results]. *)
Definition open_ (filepath : string) (w : world) : result file :=
  match results_dir w with
  | Some l =>
      if Py.startswith filepath "results/" then
        match lookup_entry (substring 8 (String.length filepath - 8) filepath) l with
        | Some Unreadable | None => Raise OSError
        | Some f => Ok f
        end
      else Raise OSError
  | None => Raise OSError
  end.

(** [open(filepath, 'r').read()]: the whole content, or the failure. *)
Definition read_text (filepath : string) : io string :=
  λ w, match open_ filepath w with
       | Ok (Text c) => (Ok c, w)
       | Ok (Broken _ e) => (Raise e, w)
       | Ok Unreadable => (Raise OSError, w)
       | Raise e => (Raise e, w)
       end.

(** [for line in open(filepath, 'r')]: the lines the iteration delivers,
    and the exception that ends it when reading fails on the way. *)
Definition read_lines (filepath : string) : io (list string * option exn) :=
  λ w, match open_ filepath w with
       | Ok (Text c) => (Ok (Py.readlines c, None), w)
       | Ok (Broken head e) => (Ok (Py.readlines head, Some e), w)
       | Ok Unreadable => (Raise OSError, w)
       | Raise e => (Raise e, w)
       end.

(** [plt.savefig(os.path.join(dir, name))]: the file is created or
    overwritten. *)
Definition savefig (dir name : string) : io unit :=
  λ w, match outdirs w !! dir with
       | Some files =>
           (Ok tt, {| results_dir := results_dir w;
                      outdirs := <[dir := {[name]} ∪ files]> (outdirs w);
                      stdout := stdout w |})
       | None => (Raise OSError, w)
       end.

(** [for x in l: body(x)] *)
Fixpoint for_each {A} (l : list A) (body : A → io unit) : io unit :=
  match l with
  | [] => ret tt
  | x :: l' => bind (body x) (λ _, for_each l' body)
  end.

End Sys.

Global Instance io_ret : MRet Sys.io := @Sys.ret.
Global Instance io_bind : MBind Sys.io := λ _ _ k m, Sys.bind m k.

Definition numeric_cols : list string :=
  ["dataset_size"; "threads_or_buffer"; "table_size";
   "ExecutionTime_ms"; "NumberOfHandledCollision"].

Definition integer_cols : list string :=
  ["dataset_size"; "threads_or_buffer"; "table_size"; "NumberOfHandledCollision"].

(** Lines 81-88 of [new_analyze_results.py], 77-85 of
    [OLD PLOT/analyze_results.py]: build the frame, coerce the five columns,
    drop the rows with a missing cell, cast the integer columns.
    Cells hold integers as such.  pandas stores a column as 64-bit integers,
    or as 64-bit floats when a record lacks it, so it keeps a number exactly
    when its absolute value is at most 2^53; what is stated about the values
    of the cleaned cells is stated for such numbers. *)
Definition clean (all_data : list dict) : result Pd.DataFrame :=
  df ← foldM Pd.to_numeric numeric_cols (Pd.from_records all_data);
  df ← Pd.dropna numeric_cols df;
  foldM Pd.astype_int integer_cols df.

(** [m.group(i)] *)
Definition group (m : list string) (i : nat) : string :=
  default EmptyString (m !! pred i).

(** ** new_analyze_results.py *)

Module New.
Import Re.

Definition plots_dir : string := "new_plots".

Definition parse_size (size_str : string) : result Z :=
  let size_str := Py.upper size_str in
  if Py.contains size_str "K" then
    n ← Py.int (Py.replace size_str "K" ""); Ok (n * 1000)
  else if Py.contains size_str "M" then
    n ← Py.int (Py.replace size_str "M" ""); Ok (n * 1000000)
  else Py.int size_str.

(** The raw string [_([^_]+)_(\d+)_([^_]+)_[^_]+\\.txt$]: in it [\\] is
    an escaped backslash and the [.] after it is the wildcard. *)
Definition FILENAME_RE : list node :=
  [One (Lit "_"); Open; Many (NotLit "_"); Close;
   One (Lit "_"); Open; Many Digit; Close;
   One (Lit "_"); Open; Many (NotLit "_"); Close;
   One (Lit "_"); Many (NotLit "_");
   One (Lit "\"); One Dot] ++ lits "txt" ++ [Eol].

Definition parse_filename (filename : string) : result dict :=
  match search FILENAME_RE filename with
  | Some m =>
      ds ← parse_size (group m 1);
      th ← Py.int (group m 2);
      ts ← parse_size (group m 3);
      Ok (<["table_size" := VInt ts]>
            (<["threads_or_buffer" := VInt th]>
               (<["dataset_size" := VInt ds]> ∅)))
  | None => Ok ∅
  end.

(** The raw strings [ExecutionTime: (\\d+) ms] and
    [NumberOfHandledCollision: (\\d+)]: the group is a backslash followed
    by one or more letters d. *)
Definition EXEC_RE : list node :=
  lits "ExecutionTime: " ++
  [Open; One (Lit "\"); Many (Lit "d"); Close] ++ lits " ms".

Definition COLL_RE : list node :=
  lits "NumberOfHandledCollision: " ++
  [Open; One (Lit "\"); Many (Lit "d"); Close].

(** The statements under [try] once the content is read, on the local
    [data]: the outcome, and [data] as it stands then. *)
Definition fill (content : string) (data : dict) : result unit * dict :=
  let exec_times := findall EXEC_RE content in
  let collisions := findall COLL_RE content in
  let '(r, data) :=
    match exec_times with
    | [] => (Ok tt, data)
    | _ => match Py.sum_int 0 exec_times with
           | Ok n => (Ok tt, <["ExecutionTime_ms" := VInt n]> data)
           | Raise e => (Raise e, data)
           end
    end in
  match r with
  | Raise e => (Raise e, data)
  | Ok _ =>
      match collisions with
      | [] => (Ok tt, data)
      | _ => match Py.sum_int 0 collisions with
             | Ok n => (Ok tt, <["NumberOfHandledCollision" := VInt n]> data)
             | Raise e => (Raise e, data)
             end
      end
  end.

(** The [try] block: its outcome, and [data] as it stands then. *)
Definition attempt (filepath : string) (w : Sys.world) : result unit * dict :=
  match Sys.read_text filepath w with
  | (Ok content, _) => fill content ∅
  | (Raise e, _) => (Raise e, ∅)
  end.

Definition read_result_file (filepath : string) : Sys.io dict :=
  λ w,
    match attempt filepath w with
    | (Ok _, data) => (Ok data, w)
    | (Raise e, data) => (Ok data, Sys.log (Sys.ErrorReading filepath e) w)
    end.

(** The body of the loop over [os.listdir(results_dir)]: what it appends
    to [all_data]. *)
Definition visit (filename : string) : Sys.io (list dict) :=
  if Py.startswith filename "Results_HW2_MCC_" && Py.endswith filename ".txt"
  then
    let filepath := Sys.path_join "results" filename in
    file_params ← Sys.lift (parse_filename filename);
    file_content_data ← read_result_file filepath;
    if truthy file_params && truthy file_content_data
    then mret [<["filename" := VStr filename]> (file_content_data ∪ file_params)]
    else mret []
  else mret [].

(** The loop; its value is [all_data]. *)
Fixpoint collect (names : list string) : Sys.io (list dict) :=
  match names with
  | [] => mret []
  | filename :: names' =>
      found ← visit filename;
      more ← collect names';
      mret (found ++ more)
  end.

Definition generated (name : string) : Sys.line :=
  Sys.Msg ("Generated: " +:+ Sys.path_join plots_dir name).

Definition collisions_png (ds : Z) : string :=
  "collisions_dataset_" +:+ Py.str ds +:+ ".png".
Definition exectime_png (ds ts : Z) : string :=
  "exectime_dataset_" +:+ Py.str ds +:+ "_tsize_" +:+ Py.str ts +:+ ".png".
Definition exectime_grouped_png (ds : Z) : string :=
  "exectime_grouped_dataset_" +:+ Py.str ds +:+ ".png".

(** [sorted(df["dataset_size"].unique())] *)
Definition unique_dataset_sizes (df : Pd.DataFrame) : list Z :=
  merge_sort Z.le (Pd.unique (Pd.column "dataset_size" df)).

(** [df[["dataset_size", "table_size"]].drop_duplicates().values] *)
Definition unique_combinations (df : Pd.DataFrame) : list (Z * Z) :=
  Pd.unique (omap (λ r, ds ← Pd.int_cell "dataset_size" r;
                        ts ← Pd.int_cell "table_size" r; Some (ds, ts))
                  (Pd.rows df)).

(** One pass of a per-dataset chart loop (collisions, grouped times). *)
Definition pivot_chart (df : Pd.DataFrame) (vals : string)
                       (png : Z → string) (ds_size : Z) : Sys.io unit :=
  let subset_df := Pd.where_eq "dataset_size" ds_size (Pd.rows df) in
  match subset_df with
  | [] => mret tt
  | _ =>
      match Pd.pivot_table "threads_or_buffer" "table_size" vals subset_df with
      | [] => mret tt
      | _ => Sys.savefig plots_dir (png ds_size);;
             Sys.print (generated (png ds_size))
      end
  end.

(** One pass of the per-(dataset, table size) chart loop. *)
Definition exectime_chart (df : Pd.DataFrame) (key : Z * Z) : Sys.io unit :=
  let '(ds_size, ts_size) := key in
  let subset_df :=
    Pd.where_eq "table_size" ts_size
      (Pd.where_eq "dataset_size" ds_size (Pd.rows df)) in
  match subset_df with
  | [] => mret tt
  | _ => Sys.savefig plots_dir (exectime_png ds_size ts_size);;
         Sys.print (generated (exectime_png ds_size ts_size))
  end.

(** Lines 93-198: the three chart loops. *)
Definition render (df : Pd.DataFrame) : Sys.io unit :=
  Sys.for_each (unique_dataset_sizes df)
    (pivot_chart df "NumberOfHandledCollision" collisions_png);;
  Sys.for_each (unique_combinations df) (exectime_chart df);;
  Sys.for_each (unique_dataset_sizes df)
    (pivot_chart df "ExecutionTime_ms" exectime_grouped_png).

(** Lines 58-60. *)
Definition prepare_output : Sys.io unit :=
  present ← Sys.path_exists plots_dir;
  (if present : bool then Sys.rmtree plots_dir else mret tt);;
  Sys.makedirs plots_dir.

Definition main : Sys.io unit :=
  prepare_output;;
  isdir ← Sys.results_isdir;
  if negb isdir then Sys.print (Sys.Msg "Directory not found: results")
  else
    names ← Sys.listdir;
    all_data ← collect names;
    match all_data with
    | [] => Sys.print (Sys.Msg "No data processed. Check filenames or file contents.")
    | _ =>
        df ← Sys.lift (clean all_data);
        Sys.print (Sys.Msg "Collected and Processed Data:");;
        Sys.print (Sys.Table df);;
        render df
    end.

End New.

(** ** OLD PLOT/analyze_results.py *)

Module Old.
Import Re.

Definition plots_dir : string := "plots".

(** The raw string [_(\d+)_(\d+)_(\d+)\.txt$]. *)
Definition FILENAME_RE : list node :=
  [One (Lit "_"); Open; Many Digit; Close;
   One (Lit "_"); Open; Many Digit; Close;
   One (Lit "_"); Open; Many Digit; Close;
   One (Lit ".")] ++ lits "txt" ++ [Eol].

Definition parse_filename (filename : string) : result dict :=
  match search FILENAME_RE filename with
  | Some m =>
      ds ← Py.int (group m 1);
      th ← Py.int (group m 2);
      ts ← Py.int (group m 3);
      Ok (<["table_size" := VInt ts]>
            (<["threads_or_buffer" := VInt th]>
               (<["dataset_size" := VInt ds]> ∅)))
  | None => Ok ∅
  end.

(** [line.split(":")[1]] *)
Definition after_colon (line : string) : result string :=
  match Py.split line ":" !! 1%nat with
  | Some s => Ok s
  | None => Raise IndexError
  end.

(** The body of [for line in f], on the local [data]. *)
Definition fill_line (line : string) (data : dict) : result unit * dict :=
  if Py.contains line "ExecutionTime:" then
    match s ← after_colon line; Py.int (Py.replace (Py.strip s) "ms" "") with
    | Ok n => (Ok tt, <["ExecutionTime_ms" := VInt n]> data)
    | Raise e => (Raise e, data)
    end
  else if Py.contains line "NumberOfHandledCollision:" then
    match s ← after_colon line; Py.int (Py.strip s) with
    | Ok n => (Ok tt, <["NumberOfHandledCollision" := VInt n]> data)
    | Raise e => (Raise e, data)
    end
  else (Ok tt, data).

(** The loop [for line in f]: it stops at the first exception, with
    [data] as the lines before left it. *)
Fixpoint fill (lines : list string) (data : dict) : result unit * dict :=
  match lines with
  | [] => (Ok tt, data)
  | line :: lines' =>
      match fill_line line data with
      | (Ok _, data') => fill lines' data'
      | (Raise e, data') => (Raise e, data')
      end
  end.

(** The [try] block: its outcome, and [data] as it stands then.  The
    file is iterated as it is read: when reading fails on the way, the
    lines delivered before have been processed. *)
Definition attempt (filepath : string) (w : Sys.world) : result unit * dict :=
  match Sys.read_lines filepath w with
  | (Ok (lines, failure), _) =>
      match fill lines ∅ with
      | (Ok _, data) =>
          match failure with
          | Some e => (Raise e, data)
          | None => (Ok tt, data)
          end
      | (Raise e, data) => (Raise e, data)
      end
  | (Raise e, _) => (Raise e, ∅)
  end.

Definition read_result_file (filepath : string) : Sys.io dict :=
  λ w,
    match attempt filepath w with
    | (Ok _, data) => (Ok data, w)
    | (Raise e, data) => (Ok data, Sys.log (Sys.ErrorReading filepath e) w)
    end.

(** The body of the loop over [os.listdir(results_dir)]: what it appends
    to [all_data]. *)
Definition visit (filename : string) : Sys.io (list dict) :=
  if Py.startswith filename "Results_MCC_" && Py.endswith filename ".txt"
  then
    let filepath := Sys.path_join "results" filename in
    file_params ← Sys.lift (parse_filename filename);
    file_content_data ← read_result_file filepath;
    if truthy file_content_data
    then mret [<["filename" := VStr filename]> (file_content_data ∪ file_params)]
    else mret []
  else mret [].

(** The loop; its value is [all_data]. *)
Fixpoint collect (names : list string) : Sys.io (list dict) :=
  match names with
  | [] => mret []
  | filename :: names' =>
      found ← visit filename;
      more ← collect names';
      mret (found ++ more)
  end.

Definition generated (name : string) : Sys.line :=
  Sys.Msg ("Generated: " +:+ Sys.path_join plots_dir name).

(** One pass of a per-dataset chart loop; [what] and [what'] complete the
    two messages of the loop. *)
Definition pivot_chart (df : Pd.DataFrame) (vals what what' : string)
                       (png : Z → string) (ds_size : Z) : Sys.io unit :=
  let subset_df := Pd.where_eq "dataset_size" ds_size (Pd.rows df) in
  match subset_df with
  | [] => Sys.print (Sys.Msg ("No data for dataset_size " +:+ Py.str ds_size
                                +:+ " to plot " +:+ what +:+ "."))
  | _ =>
      match Pd.pivot_table "threads_or_buffer" "table_size" vals subset_df with
      | [] => Sys.print (Sys.Msg ("Could not pivot data for dataset_size "
                                    +:+ Py.str ds_size +:+ " for " +:+ what' +:+ "."))
      | _ => Sys.savefig plots_dir (png ds_size);;
             Sys.print (generated (png ds_size))
      end
  end.

Definition exectime_chart (df : Pd.DataFrame) (key : Z * Z) : Sys.io unit :=
  let '(ds_size, ts_size) := key in
  let subset_df :=
    Pd.where_eq "table_size" ts_size
      (Pd.where_eq "dataset_size" ds_size (Pd.rows df)) in
  match subset_df with
  | [] => Sys.print (Sys.Msg ("No data for dataset_size " +:+ Py.str ds_size
                                +:+ " and table_size " +:+ Py.str ts_size
                                +:+ " to plot execution time."))
  | _ => Sys.savefig plots_dir (New.exectime_png ds_size ts_size);;
         Sys.print (generated (New.exectime_png ds_size ts_size))
  end.

(** Lines 90-212: the three chart loops (same file names as the newer
    script). *)
Definition render (df : Pd.DataFrame) : Sys.io unit :=
  Sys.for_each (New.unique_dataset_sizes df)
    (pivot_chart df "NumberOfHandledCollision" "collisions" "collision plot"
                 New.collisions_png);;
  Sys.for_each (New.unique_combinations df) (exectime_chart df);;
  Sys.for_each (New.unique_dataset_sizes df)
    (pivot_chart df "ExecutionTime_ms" "grouped execution times"
                 "grouped execution time plot" New.exectime_grouped_png).

(** Lines 52-55. *)
Definition prepare_output : Sys.io unit :=
  present ← Sys.path_exists plots_dir;
  (if present : bool then Sys.rmtree plots_dir else mret tt);;
  Sys.makedirs plots_dir.

Definition main : Sys.io unit :=
  prepare_output;;
  isdir ← Sys.results_isdir;
  if negb isdir then Sys.print (Sys.Msg "Directory not found: results")
  else
    names ← Sys.listdir;
    all_data ← collect names;
    match all_data with
    | [] => Sys.print (Sys.Msg "No data processed. Check filenames or file contents.")
    | _ =>
        df ← Sys.lift (clean all_data);
        Sys.print (Sys.Msg "Collected and Processed Data:");;
        Sys.print (Sys.Table df);;
        render df
    end.

End Old.

(** ** The colour scale of the bar charts

    [plt.Normalize(vmin, vmax)] maps a value to its position on the
    gradient: 0 is the low end of the colour map, 1 its high end.  Values
    are exact rationals here. *)

Module Gradient.
Local Open Scope Qc_scope.

(** [Normalize(vmin, vmax)(x)], without clipping: a scale with equal ends
    sends everything to 0, one with [vmin > vmax] is refused. *)
Definition normalize (vmin vmax x : Qc) : result Qc :=
  if decide (vmin = vmax) then Ok 0
  else if decide (vmax < vmin) then Raise ValueError
  else Ok ((x - vmin) / (vmax - vmin)).

Fixpoint normalize_all (vmin vmax : Qc) (l : list Qc) : result (list Qc) :=
  match l with
  | [] => Ok []
  | x :: l' =>
      y ← normalize vmin vmax x;
      ys ← normalize_all vmin vmax l';
      Ok (y :: ys)
  end.

(** [min(l)], [max(l)] of a non-empty list given as head and tail. *)
Definition minimum (x : Z) (l : list Z) : Z := foldl Z.min x l.
Definition maximum (x : Z) (l : list Z) : Z := foldl Z.max x l.

Definition qmax (x y : Qc) : Qc := if decide (x < y) then y else x.

(** new_analyze_results.py, lines 139-140 (OLD PLOT/analyze_results.py,
    145-146): the scale runs from the smallest to the largest execution
    time of the group.  [times] is the ExecutionTime_ms column of the
    group, which is not empty there. *)
Definition new_bar_positions (times : list Z) : result (list Qc) :=
  match times with
  | [] => Ok []
  | t :: ts =>
      normalize_all (Qc_of_Z (minimum t ts)) (Qc_of_Z (maximum t ts))
                    (Qc_of_Z <$> times)
  end.

(** plot.py, lines 57-59 ([draw_bar_plot]): the scale runs from 0 to the
    largest value; [max] of an empty list raises. *)
Definition plot_bar_positions (values : list Qc) : result (list Qc) :=
  match values with
  | [] => Raise ValueError
  | v :: vs => normalize_all 0 (foldl qmax v vs) values
  end.

End Gradient.

(** ** plot.py: the parts the properties below are about *)

Module Plot.
Import Re.

Definition PLOTS_DIR : string := "plots".

(** Lines 10-12: the directory is created when it is missing. *)
Definition prepare_output : Sys.io unit := Sys.makedirs PLOTS_DIR.

(** [Results_HW2_MCC_030402_[^_]+_(?P<data>\d+)K_(?P<threads>\d+)_(?P<tsize>\d+)K_.*\.txt$] *)
Definition FNAME_RE : list node :=
  lits "Results_HW2_MCC_030402_" ++
  [Many (NotLit "_"); One (Lit "_"); Open; Many Digit; Close; One (Lit "K");
   One (Lit "_"); Open; Many Digit; Close;
   One (Lit "_"); Open; Many Digit; Close; One (Lit "K"); One (Lit "_");
   Any Dot; One (Lit ".")] ++ lits "txt" ++ [Eol].

(** Lines 25-31: [(ds, ts, th)] of a file name, [None] when the name is
    skipped. *)
Definition parse (fn : string) : result (option (Z * Z * Z)) :=
  match match_ FNAME_RE fn with
  | None => Ok None
  | Some m =>
      ds ← Py.int (group m 1);
      ts ← Py.int (group m 3);
      th ← Py.int (group m 2);
      Ok (Some (ds, ts, th))
  end.

End Plot.



(** ** Auxiliary notions used in the statements *)

(** [c in s] for a character. *)
Fixpoint has_char (c : ascii) (s : string) : bool :=
  match s with
  | EmptyString => false
  | String a r => Ascii.eqb a c || has_char c r
  end.

(** Text that starts with a backslash. *)
Definition escaped (g : string) : Prop := ∃ t, g = String "\" t.

(** The group [(\\d+)] of the newer script's measurement patterns. *)
Definition escaped_group : list Re.node :=
  [Re.Open; Re.One (Re.Lit "\"); Re.Many (Re.Lit "d"); Re.Close].

(** What [to_numeric] does to one row, for one column and for several. *)
Definition coerce (col : string) (r : dict) : dict :=
  partial_alter (λ o, o ≫= Pd.to_numeric_cell) col r.

Definition coerce_all (cols : list string) (r : dict) : dict :=
  foldl (λ r c, coerce c r) r cols.

(** The rows [clean] keeps. *)
Definition cleaned_rows (all_data : list dict) : list dict :=
  List.filter (Pd.notna numeric_cols) (coerce_all numeric_cols <$> all_data).

(** A cell that holds a number. *)
Definition numeric (r : dict) (col : string) : Prop :=
  ∃ n, r !! col = Some (VInt n).

(** The column [col] occurs in some record. *)
Definition supplied (all_data : list dict) (col : string) : Prop :=
  ∃ r, r ∈ all_data ∧ is_Some (r !! col).

(** The record [r] was built for the file [filename]. *)
Definition from_file (filename : string) (r : dict) : Prop :=
  r !! "filename" = Some (VStr filename).

(** The state [w'] differs from [w] by printed lines only. *)
Definition printed (w w' : Sys.world) : Prop :=
  Sys.results_dir w' = Sys.results_dir w ∧ Sys.outdirs w' = Sys.outdirs w.

(** The state [w] with the output directory [dir] holding [files]. *)
Definition with_outdir (dir : string) (files : gset string) (w : Sys.world)
  : Sys.world :=
  {| Sys.results_dir := Sys.results_dir w;
     Sys.outdirs := <[dir := files]> (Sys.outdirs w);
     Sys.stdout := Sys.stdout w |}.

(** The command [m] completes whenever the directory [dir] exists, adds
    the files [F] to it and leaves [results] alone. *)
Definition writes (dir : string) (m : Sys.io unit) (F : gset string) : Prop :=
  ∀ w s, Sys.outdirs w !! dir = Some s →
    ∃ w', m w = (Ok tt, w') ∧ Sys.outdirs w' !! dir = Some (F ∪ s) ∧
          Sys.results_dir w' = Sys.results_dir w.

(** The (dataset size, table size) pairs of the rows. *)
Definition key_pairs (df : Pd.DataFrame) : list (Z * Z) :=
  omap (λ r, ds ← Pd.int_cell "dataset_size" r;
             ts ← Pd.int_cell "table_size" r; Some (ds, ts)) (Pd.rows df).

(** The chart files of a dataset, from its grouping keys: two per dataset
    size, one per (dataset size, table size) pair. *)
Definition chart_names (df : Pd.DataFrame) : gset string :=
  list_to_set (New.exectime_grouped_png <$> Pd.column "dataset_size" df) ∪
  (list_to_set ((λ k, New.exectime_png k.1 k.2) <$> key_pairs df) ∪
   list_to_set (New.collisions_png <$> Pd.column "dataset_size" df)).

(** Every row holds a number in each of the five columns. *)
Definition all_numeric (df : Pd.DataFrame) : Prop :=
  ∀ r c, r ∈ Pd.rows df → c ∈ numeric_cols → numeric r c.

(** The state [w] without the output directory [dir]. *)
Definition without_outdir (dir : string) (w : Sys.world) : Sys.world :=
  {| Sys.results_dir := Sys.results_dir w;
     Sys.outdirs := delete dir (Sys.outdirs w);
     Sys.stdout := Sys.stdout w |}.

(** The files of the output directory [dir] when the command [m] started
    in [w] has ended. *)
Definition files_after (dir : string) (m : Sys.io unit) (w : Sys.world)
  : option (gset string) :=
  Sys.outdirs (snd (m w)) !! dir.

(** Every character of [s] is in the class [k]. *)
Fixpoint all_in (k : Re.cls) (s : string) : bool :=
  match s with
  | EmptyString => true
  | String c r => Re.cls_match k c && all_in k r
  end.

(** The number of occurrences of the character [c] in [s]. *)
Fixpoint count_char (c : ascii) (s : string) : nat :=
  match s with
  | EmptyString => 0
  | String a r => (if Ascii.eqb a c then 1 else 0) + count_char c r
  end.

(** No character of [s] is white space. *)
Fixpoint no_space (s : string) : bool :=
  match s with
  | EmptyString => true
  | String c r => negb (Py.isspace c) && no_space r
  end.

(** The text [rest] does not go on with a character of the class [k]. *)
Definition stops (k : Re.cls) (rest : string) : Prop :=
  match rest with
  | EmptyString => True
  | String c _ => Re.cls_match k c = false
  end.

(** A mapping that binds nothing but the two measurements, to numbers. *)
Definition measurements (d : dict) : Prop :=
  ∀ k v, d !! k = Some v →
    (k = "ExecutionTime_ms" ∨ k = "NumberOfHandledCollision") ∧ ∃ n, v = VInt n.

(** The two lines of a result file, as the benchmark writes them. *)
Definition time_line (n : Z) : string :=
  "ExecutionTime: " +:+ Py.str n +:+ " ms" +:+ String "010" EmptyString.

Definition collision_line (n : Z) : string :=
  "NumberOfHandledCollision: " +:+ Py.str n +:+ String "010" EmptyString.

(** A mapping whose cells in the five columns, where bound, are numbers. *)
Definition int_cells (r : dict) : Prop :=
  ∀ c v, c ∈ numeric_cols → r !! c = Some v → ∃ n, v = VInt n.

(** A record whose numbers pandas keeps as they are: each is at most 2^53
    in absolute value, so that a column of 64-bit floats holds it exactly. *)
Definition exact_cell (v : value) : Prop :=
  match v with
  | VInt n => - 2 ^ 53 ≤ n ≤ 2 ^ 53
  | VStr _ => True
  end.

Definition exact_cells (r : dict) : Prop := map_Forall (λ _ v, exact_cell v) r.

Global Instance exact_cell_dec v : Decision (exact_cell v) :=
  match v with
  | VInt n => decide (- 2 ^ 53 ≤ n ≤ 2 ^ 53)
  | VStr _ => left I
  end.

(** The file name passes the test of the older, of the newer loop. *)
Definition old_candidate (n : string) : bool :=
  Py.startswith n "Results_MCC_" && Py.endswith n ".txt".

Definition new_candidate (n : string) : bool :=
  Py.startswith n "Results_HW2_MCC_" && Py.endswith n ".txt".


(** ** Concrete inputs used in examples *)

Module Ex.

Definition nl : string := String "010" EmptyString.

(** Three execution-time markers: 100, 200 and 50 ms. *)
Definition three_markers : string :=
  "ExecutionTime: 100 ms" +:+ nl +:+ "ExecutionTime: 200 ms" +:+ nl +:+
  "ExecutionTime: 50 ms" +:+ nl.

(** One marker of each kind. *)
Definition both_markers (time coll : string) : string :=
  "ExecutionTime: " +:+ time +:+ " ms" +:+ nl +:+
  "NumberOfHandledCollision: " +:+ coll +:+ nl.

(** An execution time, then a collision line that is no number. *)
Definition broken_second_line : string :=
  "ExecutionTime: 5 ms" +:+ nl +:+ "NumberOfHandledCollision: x" +:+ nl.

(** A state with the given [results] entries and one output directory
    [dir] that holds [old.png], left there by an earlier run. *)
Definition world (entries : option (list (string * Sys.file))) (dir : string)
  : Sys.world :=
  {| Sys.results_dir := entries;
     Sys.outdirs := {[ dir := {[ "old.png" ]} ]};
     Sys.stdout := [] |}.

Definition new_name : string :=
  "Results_HW2_MCC_030402_401106039_150K_8_150K_insert.txt".
Definition new_docstring_name : string :=
  "Results_HW2_MCC_030402_401106039_150K_8_150K_insert_insert_delete_insert.txt".
Definition old_name : string :=
  "Results_MCC_030402_401106039_150000_1_120000.txt".
Definition old_name_16 : string :=
  "Results_MCC_030402_401106039_150000_16_120000.txt".
Definition notes_name : string := "Results_MCC_notes.txt".

(** Two collected records: a complete one, and one whose file name gave
    no parameters. *)
Definition complete_record : dict :=
  {[ "dataset_size" := VInt 150000; "threads_or_buffer" := VInt 1;
     "table_size" := VInt 120000; "ExecutionTime_ms" := VInt 300;
     "NumberOfHandledCollision" := VInt 12; "filename" := VStr old_name ]}.

Definition records : list dict :=
  [ complete_record;
    {[ "ExecutionTime_ms" := VInt 1; "NumberOfHandledCollision" := VInt 2;
       "filename" := VStr notes_name ]} ].

Definition cleaned : Pd.DataFrame :=
  {| Pd.columns := list_to_set ("filename" :: numeric_cols);
     Pd.rows := [complete_record] |}.

(** A results directory with a well-named file and a stray one, both with
    the two markers. *)
Definition two_files : list (string * Sys.file) :=
  [ (old_name, Sys.Text (both_markers "300" "12"));
    (notes_name, Sys.Text (both_markers "1" "2")) ].

(** A name the newer pattern matches, with a dataset token that is no
    number. *)
Definition bad_token_name : string :=
  "Results_HW2_MCC_030402_401106039_abc_8_150K_insert\.txt".

(** A well-named file whose second line cannot be converted, and an entry
    that cannot be read. *)
Definition broken_files : list (string * Sys.file) :=
  [ (old_name, Sys.Text broken_second_line); (old_name_16, Sys.Unreadable) ].

(** A well-named file of which the first line is delivered before reading
    fails (an undecodable byte further on). *)
Definition cut_name : string :=
  "Results_MCC_030402_401106039_150000_4_120000.txt".

Definition cut_files : list (string * Sys.file) :=
  [ (cut_name, Sys.Broken ("ExecutionTime: 5 ms" +:+ nl) ValueError) ].

(** The same [results] directory seen from a state without any output
    directory. *)
Definition fresh_world (entries : option (list (string * Sys.file))) : Sys.world :=
  {| Sys.results_dir := entries; Sys.outdirs := ∅; Sys.stdout := [] |}.

Definition two_files_charts : gset string :=
  {[ "collisions_dataset_150000.png";
     "exectime_dataset_150000_tsize_120000.png";
     "exectime_grouped_dataset_150000.png" ]}.

End Ex.


(** * Sanity checks of the embedding *)

Example re_search_ex :
  Re.search (Re.lits "_" ++ [Re.Open; Re.Many Re.Digit; Re.Close] ++ Re.lits ".txt" ++ [Re.Eol])
            "ab_120.txt" = Some ["120"].
Proof. reflexivity. Qed.

Example re_findall_ex :
  Re.findall (Re.lits "t: " ++ [Re.Open; Re.Many Re.Digit; Re.Close] ++ Re.lits " ms")
             "t: 100 ms, t: 20 ms t: x ms" = ["100"; "20"].
Proof. reflexivity. Qed.

Example py_int_ex :
  Py.int " 100 " = Ok 100 ∧ Py.int "-7" = Ok (-7) ∧ Py.int "1_000" = Ok 1000 ∧
  Py.int "1__0" = Raise ValueError ∧ Py.int "" = Raise ValueError ∧
  Py.int "12a" = Raise ValueError.
Proof. repeat split; reflexivity. Qed.

Example py_str_ex :
  Py.replace "100 ms" "ms" "" = "100 " ∧ Py.split "a: 1 :b" ":" = ["a"; " 1 "; "b"] ∧
  Py.readlines ("a" +:+ String "010" ("b" +:+ String "010" "c")) = [String "a" (String "010" ""); String "b" (String "010" ""); "c"] ∧
  Py.upper "150k" = "150K" ∧ Py.str 150000 = "150000" ∧ Py.strip "  a b  " = "a b".
Proof. repeat split; reflexivity. Qed.

Example new_parse_size_ex :
  New.parse_size "150K" = Ok 150000 ∧ New.parse_size "2M" = Ok 2000000 ∧
  New.parse_size "8" = Ok 8 ∧ New.parse_size "abc" = Raise ValueError.
Proof. repeat split; reflexivity. Qed.

Example plot_parse_ex :
  Plot.parse "Results_HW2_MCC_030402_401106039_150K_8_90K_insert_delete.txt"
  = Ok (Some (150, 90, 8)).
Proof. reflexivity. Qed.

Example py_str_zero_ex : Py.str 0 = "0" ∧ Py.str (-12) = "-12".
Proof. split; reflexivity. Qed.

Example old_parse_filename_ex :
  Old.parse_filename Ex.old_name
  = Ok {[ "dataset_size" := VInt 150000; "threads_or_buffer" := VInt 1;
          "table_size" := VInt 120000 ]}.
Proof. vm_compute. reflexivity. Qed.

(** The end-to-end scenario with two well-named files of the older
    convention: both are collected and three charts are written. *)
Example old_main_ex :
  let w := Ex.fresh_world (Some [ (Ex.old_name, Sys.Text (Ex.both_markers "300" "12"));
                                  (Ex.old_name_16, Sys.Text (Ex.both_markers "150" "5")) ]) in
  fst (Old.main w) = Ok tt ∧
  files_after Old.plots_dir Old.main w = Some Ex.two_files_charts.
Proof. split; vm_compute; reflexivity. Qed.


(** * Facts about the matcher *)


Section matcher.
Import Re.

(** A pattern that demands the character [c] matches no text without it. *)
Lemma run_needs_char c ns :
  One (Lit c) ∈ ns →
  ∀ rest opened caps, has_char c rest = false → run ns rest opened caps = None.
Proof.
  induction ns as [|n ns IH]; intros Hin; [by apply elem_of_nil in Hin|].
  apply elem_of_cons in Hin.
  destruct n as [k|k|k| | |]; intros rest opened caps Hc; cbn [run].
  - destruct rest as [|a r]; [done|]. cbn in Hc. apply orb_false_elim in Hc as [Ha Hr].
    destruct Hin as [Heq|Hin].
    + inversion Heq; subst k. cbn. by rewrite Ha.
    + destruct (cls_match k a); [by apply IH|done].
  - destruct Hin as [Heq|Hin]; [done|].
    induction rest as [|a r IHr]; [done|].
    cbn in Hc. apply orb_false_elim in Hc as [Ha Hr].
    destruct (cls_match k a); [|done].
    rewrite (IHr Hr). by apply IH.
  - destruct Hin as [Heq|Hin]; [done|].
    induction rest as [|a r IHr]; [by apply IH|].
    pose proof Hc as Hc'. cbn in Hc. apply orb_false_elim in Hc as [Ha Hr].
    destruct (cls_match k a); [|by apply IH].
    rewrite (IHr Hr). by apply IH.
  - destruct Hin as [Heq|Hin]; [done|]. by apply IH.
  - destruct Hin as [Heq|Hin]; [done|]. by apply IH.
  - destruct Hin as [Heq|Hin]; [done|].
    destruct (at_end rest); [by apply IH|done].
Qed.

Lemma search_needs_char c ns s :
  One (Lit c) ∈ ns → has_char c s = false → search ns s = None.
Proof.
  intros Hin. induction s as [|a r IH]; intros Hc; cbn [search]; unfold match_.
  - by rewrite (run_needs_char c ns Hin).
  - rewrite (run_needs_char c ns Hin) by done. cbn.
    cbn in Hc. apply orb_false_elim in Hc as [_ Hr]. by apply IH.
Qed.

Lemma run_One k ns c r opened caps :
  run (One k :: ns) (String c r) opened caps
  = if cls_match k c then run ns r opened caps else None.
Proof. reflexivity. Qed.

Lemma run_Open ns rest opened caps :
  run (Open :: ns) rest opened caps = run ns rest rest caps.
Proof. reflexivity. Qed.

Lemma run_Close ns rest opened caps :
  run (Close :: ns) rest opened caps
  = run ns rest opened (consumed opened rest :: caps).
Proof. reflexivity. Qed.

(** A literal prefix of a pattern is a prefix of the text it matches. *)
Lemma run_lits p ns rest opened caps x :
  run (lits p ++ ns) rest opened caps = Some x →
  ∃ rest', rest = p +:+ rest' ∧ run ns rest' opened caps = Some x.
Proof.
  revert rest. induction p as [|c p IH]; intros rest H; cbn in *.
  - by exists rest.
  - destruct rest as [|a r]; [done|].
    destruct (Ascii.eqb_spec a c) as [->|]; [|done].
    apply IH in H as (rest' & -> & H). by exists rest'.
Qed.

(** [k+] consumes at least one character. *)
Lemma run_many k ns rest opened caps x :
  run (Many k :: ns) rest opened caps = Some x →
  ∃ rest', (String.length rest' < String.length rest)%nat ∧
           run ns rest' opened caps = Some x.
Proof.
  cbn [run]. induction rest as [|a r IH]; [done|].
  destruct (cls_match k a); [|done].
  revert IH.
  match goal with |- context [match ?m with Some _ => _ | None => _ end] =>
    generalize m end.
  intros [y|] IH.
  - intros [= ->]. destruct (IH eq_refl) as (rest' & Hlen & Hrun).
    exists rest'. split; [cbn; lia|done].
  - intros Hrun. exists r. split; [cbn; lia|done].
Qed.

End matcher.


(** ** The measurement patterns of the newer script

    Both patterns have the shape  literal ( \ d+ ) literal : whatever they
    find starts with a backslash, which [int] refuses. *)


Section escaped_group.
Import Re.


Lemma run_escaped_group p q s caps rest :
  run (lits p ++ escaped_group ++ lits q) s EmptyString [] = Some (caps, rest) →
  ∃ t, caps = [String "\" t].
Proof.
  intros H. apply run_lits in H as (s1 & _ & H).
  unfold escaped_group in H. cbn [app] in H. rewrite run_Open in H.
  destruct s1 as [|a r]; [done|].
  rewrite run_One in H. cbn [cls_match] in H. revert H.
  destruct (Ascii.eqb_spec a "\") as [->|]; [intros H|done].
  apply run_many in H as (r' & Hlen & H).
  rewrite run_Close, <- (app_nil_r (lits q)) in H.
  apply run_lits in H as (r'' & _ & H). cbn in H. injection H as <- _.
  unfold consumed. cbn [String.length].
  replace (S (String.length r) - String.length r')%nat
    with (S (String.length r - String.length r')) by lia.
  cbn. eauto.
Qed.

Lemma findall_escaped p q skip s :
  Forall escaped (findall_from (lits p ++ escaped_group ++ lits q) skip s).
Proof.
  revert skip. induction s as [|a r IH]; intros [|k]; cbn [findall_from]; auto.
  - destruct (run _ _ _ _) as [[caps rest]|] eqn:H; [|done].
    apply run_escaped_group in H as [t ->]. repeat constructor. by exists t.
  - destruct (run _ _ _ _) as [[caps rest]|] eqn:H; [|done].
    apply run_escaped_group in H as [t ->]. constructor; [by exists t|done].
Qed.

End escaped_group.

Lemma rstrip_cons_nonspace c s :
  Py.isspace c = false → ∃ t, Py.rstrip (String c s) = String c t.
Proof. intros Hc. cbn. rewrite Hc. destruct (Py.rstrip s); eauto. Qed.

Lemma rskip_cons_nonspace c s :
  Py.isspace_int c = false → ∃ t, Py.rskip (String c s) = String c t.
Proof. intros Hc. cbn. rewrite Hc. destruct (Py.rskip s); eauto. Qed.

Lemma int_escaped g : escaped g → Py.int g = Raise ValueError.
Proof.
  intros [t ->]. unfold Py.int. cbn [Py.lskip].
  change (Py.isspace_int "\") with false. cbn iota.
  destruct (rskip_cons_nonspace "\" t eq_refl) as [t' ->]. reflexivity.
Qed.

Lemma sum_int_escaped g l acc :
  escaped g → Py.sum_int acc (g :: l) = Raise ValueError.
Proof. intros Hg. cbn. by rewrite (int_escaped g Hg). Qed.

(** The newer reader never stores a measurement. *)
Lemma new_fill_empty content : ∃ r, New.fill content ∅ = (r, ∅).
Proof.
  unfold New.fill.
  pose proof (findall_escaped "ExecutionTime: " " ms" 0 content) as He.
  pose proof (findall_escaped "NumberOfHandledCollision: " "" 0 content) as Hc.
  change (Forall escaped (Re.findall New.EXEC_RE content)) in He.
  change (Forall escaped (Re.findall New.COLL_RE content)) in Hc.
  destruct (Re.findall New.EXEC_RE content) as [|g l].
  - destruct (Re.findall New.COLL_RE content) as [|g' l']; [by eexists|].
    apply Forall_cons in Hc as [Hg _]. rewrite (sum_int_escaped _ _ _ Hg). by eexists.
  - apply Forall_cons in He as [Hg _]. rewrite (sum_int_escaped _ _ _ Hg). by eexists.
Qed.

Lemma new_attempt_empty filepath w : ∃ r, New.attempt filepath w = (r, ∅).
Proof.
  unfold New.attempt. destruct (Sys.read_text filepath w) as [[content|e] w'].
  - apply new_fill_empty.
  - by eexists.
Qed.

Lemma new_read_result_file_empty filepath w :
  New.read_result_file filepath w = (Ok ∅, w) ∨
  ∃ e, New.read_result_file filepath w
       = (Ok ∅, Sys.log (Sys.ErrorReading filepath e) w).
Proof.
  unfold New.read_result_file.
  destruct (new_attempt_empty filepath w) as [[[]|e] ->]; eauto.
Qed.


(** ** The file-name pattern of the older script

    Its three groups are non-empty runs of digits, which [int] accepts:
    the older parser never raises. *)

Section digit_groups.
Import Re.

Lemma run_many_chars k ns rest opened caps x :
  run (Many k :: ns) rest opened caps = Some x →
  ∃ pre rest', rest = pre +:+ rest' ∧ pre ≠ EmptyString ∧ all_in k pre = true ∧
               run ns rest' opened caps = Some x.
Proof.
  cbn [run]. induction rest as [|a r IH]; [done|].
  destruct (cls_match k a) eqn:Ha; [|done].
  revert IH.
  match goal with |- context [match ?m with Some _ => _ | None => _ end] =>
    generalize m end.
  intros [y|] IH.
  - intros [= ->]. destruct (IH eq_refl) as (pre & rest' & -> & _ & Hall & Hrun).
    exists (String a pre), rest'. cbn. by rewrite Ha, Hall.
  - intros Hrun. exists (String a EmptyString), r. cbn. by rewrite Ha.
Qed.

Lemma app_cons c s t : String c s +:+ t = String c (s +:+ t).
Proof. reflexivity. Qed.

Lemma app_nil t : EmptyString +:+ t = t.
Proof. reflexivity. Qed.

Lemma length_append s t :
  String.length (s +:+ t) = (String.length s + String.length t)%nat.
Proof.
  induction s as [|c s IH]; [by rewrite app_nil|].
  rewrite app_cons. cbn [String.length]. by rewrite IH.
Qed.

Lemma substring_prefix s t : substring 0 (String.length s) (s +:+ t) = s.
Proof.
  induction s as [|c s IH].
  - rewrite app_nil. by destruct t.
  - rewrite app_cons. cbn [String.length substring]. by rewrite IH.
Qed.

Lemma consumed_app pre rest : consumed (pre +:+ rest) rest = pre.
Proof.
  unfold consumed. rewrite length_append.
  replace (String.length pre + String.length rest - String.length rest)%nat
    with (String.length pre) by lia.
  apply substring_prefix.
Qed.

(** One group [(k+)] followed by the rest of the pattern. *)
Lemma run_group k ns rest opened caps x :
  run (Open :: Many k :: Close :: ns) rest opened caps = Some x →
  ∃ pre rest', rest = pre +:+ rest' ∧ pre ≠ EmptyString ∧ all_in k pre = true ∧
               run ns rest' rest (pre :: caps) = Some x.
Proof.
  rewrite run_Open. intros (pre & rest' & -> & Hne & Hall & H)%run_many_chars.
  rewrite run_Close, consumed_app in H. eauto 10.
Qed.

Lemma run_lit c ns rest opened caps x :
  run (One (Lit c) :: ns) rest opened caps = Some x →
  ∃ rest', rest = String c rest' ∧ run ns rest' opened caps = Some x.
Proof.
  destruct rest as [|a r]; [done|]. rewrite run_One. cbn [cls_match].
  destruct (Ascii.eqb_spec a c) as [->|]; [eauto|done].
Qed.

Lemma old_pattern_groups s caps rest :
  run Old.FILENAME_RE s EmptyString [] = Some (caps, rest) →
  ∃ p1 p2 p3, caps = [p1; p2; p3] ∧
    Forall (λ p, p ≠ EmptyString ∧ all_in Digit p = true) [p1; p2; p3].
Proof.
  unfold Old.FILENAME_RE. cbn [app lits]. intros H.
  apply run_lit in H as (s1 & _ & H).
  apply run_group in H as (p1 & s2 & _ & Hn1 & Hd1 & H).
  apply run_lit in H as (s3 & _ & H).
  apply run_group in H as (p2 & s4 & _ & Hn2 & Hd2 & H).
  apply run_lit in H as (s5 & _ & H).
  apply run_group in H as (p3 & s6 & _ & Hn3 & Hd3 & H).
  do 4 apply run_lit in H as (? & _ & H).
  cbn [run] in H. destruct (at_end _); [|done]. injection H as <- _.
  exists p1, p2, p3. split; [done|]. repeat constructor; done.
Qed.

Lemma old_search_groups s m :
  search Old.FILENAME_RE s = Some m →
  ∃ p1 p2 p3, m = [p1; p2; p3] ∧
    Forall (λ p, p ≠ EmptyString ∧ all_in Digit p = true) [p1; p2; p3].
Proof.
  induction s as [|a r IH]; cbn [search]; unfold match_.
  - destruct (run _ _ _ _) as [[caps rest]|] eqn:H; [|done].
    cbn. intros [= <-]. by eapply old_pattern_groups.
  - destruct (run _ _ _ _) as [[caps rest]|] eqn:H; cbn.
    + intros [= <-]. by eapply old_pattern_groups.
    + apply IH.
Qed.

End digit_groups.

Lemma isdigit_facts c :
  Py.isdigit c = true → Py.isspace c = false ∧ c ≠ "-"%char ∧ c ≠ "+"%char.
Proof.
  destruct c as [[] [] [] [] [] [] [] []]; cbn; intros H; try discriminate H;
    repeat split; discriminate.
Qed.

Lemma rstrip_digits p : all_in Re.Digit p = true → Py.rstrip p = p.
Proof.
  induction p as [|c r IH]; [done|]. cbn [all_in Re.cls_match].
  intros [Hc Hr]%andb_prop. cbn [Py.rstrip]. rewrite (IH Hr).
  destruct (isdigit_facts c Hc) as [-> _]. by destruct r.
Qed.

Lemma isdigit_not_skipped c : Py.isdigit c = true → Py.isspace_int c = false.
Proof. destruct c as [[] [] [] [] [] [] [] []]; cbn; intros H; done. Qed.

Lemma rskip_digits p : all_in Re.Digit p = true → Py.rskip p = p.
Proof.
  induction p as [|c r IH]; [done|]. cbn [all_in Re.cls_match].
  intros [Hc Hr]%andb_prop. cbn [Py.rskip]. rewrite (IH Hr).
  rewrite (isdigit_not_skipped c Hc). by destruct r.
Qed.

Lemma digits_from_digits p seen acc :
  all_in Re.Digit p = true → p ≠ EmptyString ∨ seen = true →
  ∃ n, Py.digits_from seen acc p = Some n.
Proof.
  revert seen acc. induction p as [|c r IH]; intros seen acc Hall Hne; cbn.
  - destruct Hne as [?| ->]; [done|eauto].
  - cbn [all_in Re.cls_match] in Hall. apply andb_prop in Hall as [Hc Hr].
    rewrite Hc. apply IH; [done|by right].
Qed.

(** [int] accepts a non-empty run of digits. *)
Lemma int_digits p :
  p ≠ EmptyString → all_in Re.Digit p = true → ∃ n, Py.int p = Ok n.
Proof.
  intros Hne Hall. unfold Py.int.
  destruct p as [|c r]; [done|].
  pose proof Hall as Hall'. cbn [all_in Re.cls_match] in Hall'.
  apply andb_prop in Hall' as [Hc Hr].
  destruct (isdigit_facts c Hc) as (Hsp & Hm & Hp).
  cbn [Py.lskip]. rewrite (isdigit_not_skipped c Hc), (rskip_digits _ Hall).
  destruct (digits_from_digits (String c r) false 0 Hall (or_introl Hne)) as [n Hn].
  assert ((match String c r with
           | String "-" r0 => (true, r0)
           | String "+" r0 => (false, r0)
           | _ => (false, String c r)
           end) = (false, String c r)) as ->.
  { clear -Hc. by destruct c as [[] [] [] [] [] [] [] []]. }
  rewrite Hn. eauto.
Qed.

Lemma old_parse_filename_total filename : ∃ d, Old.parse_filename filename = Ok d.
Proof.
  unfold Old.parse_filename.
  destruct (Re.search Old.FILENAME_RE filename) as [m|] eqn:Hs; [|eauto].
  apply old_search_groups in Hs as (p1 & p2 & p3 & -> & Hd).
  apply Forall_cons in Hd as [[? ?] Hd]. apply Forall_cons in Hd as [[? ?] Hd].
  apply Forall_cons in Hd as [[? ?] _].
  change (group [p1; p2; p3] 1) with p1. change (group [p1; p2; p3] 2) with p2.
  change (group [p1; p2; p3] 3) with p3.
  destruct (int_digits p1) as [n1 ->]; [done..|].
  destruct (int_digits p2) as [n2 ->]; [done..|].
  destruct (int_digits p3) as [n3 ->]; [done..|].
  cbn. eauto.
Qed.


(** * The cleaning step *)

Section cleaning.

Lemma columns_from_records all col :
  col ∈ Pd.columns (Pd.from_records all) ↔ supplied all col.
Proof.
  unfold Pd.from_records, supplied; cbn. rewrite elem_of_union_list. split.
  - intros (X & HX & Hc). apply list_elem_of_fmap in HX as (r & -> & Hr).
    exists r. split; [done|]. by apply elem_of_dom.
  - intros (r & Hr & Hc). exists (dom r). split; [|by apply elem_of_dom].
    apply list_elem_of_fmap. eauto.
Qed.

Lemma coerce_lookup_ne c k r : c ≠ k → coerce c r !! k = r !! k.
Proof. intros. unfold coerce. by rewrite lookup_partial_alter_ne. Qed.

Lemma coerce_lookup_eq c r : coerce c r !! c = r !! c ≫= Pd.to_numeric_cell.
Proof. unfold coerce. by rewrite lookup_partial_alter_eq. Qed.

Lemma to_numeric_cell_int v v' :
  Pd.to_numeric_cell v = Some v' → ∃ n, v' = VInt n.
Proof.
  destruct v as [n|s]; cbn.
  - intros [= <-]; eauto.
  - destruct (Py.int s); intros [= <-]; eauto.
Qed.

(** A coerced cell is a number or missing, and stays so. *)
Lemma coerce_keeps_numeric c k r :
  (∀ v, r !! k = Some v → ∃ n, v = VInt n) →
  ∀ v, coerce c r !! k = Some v → ∃ n, v = VInt n.
Proof.
  intros Hr v. destruct (decide (c = k)) as [->|Hne].
  - rewrite coerce_lookup_eq. destruct (r !! k) as [u|]; [|done]. cbn.
    apply to_numeric_cell_int.
  - rewrite coerce_lookup_ne by done. apply Hr.
Qed.

Lemma coerce_makes_numeric c r v :
  coerce c r !! c = Some v → ∃ n, v = VInt n.
Proof.
  rewrite coerce_lookup_eq. destruct (r !! c) as [u|]; [|done]. cbn.
  apply to_numeric_cell_int.
Qed.

Lemma coerce_is_Some c k r : is_Some (coerce c r !! k) → is_Some (r !! k).
Proof.
  destruct (decide (c = k)) as [->|Hne].
  - rewrite coerce_lookup_eq. destruct (r !! k); [eauto|]. by intros [? ?].
  - by rewrite coerce_lookup_ne.
Qed.

Lemma coerce_all_is_Some cols k r :
  is_Some (coerce_all cols r !! k) → is_Some (r !! k).
Proof.
  unfold coerce_all. revert r. induction cols as [|c cols IH]; intros r; cbn; [done|].
  intros H. apply IH in H. by apply coerce_is_Some in H.
Qed.

Lemma coerce_all_lookup_notin cols k r :
  k ∉ cols → coerce_all cols r !! k = r !! k.
Proof.
  unfold coerce_all. revert r. induction cols as [|c cols IH]; intros r Hk; cbn; [done|].
  apply not_elem_of_cons in Hk as [Hne Hk].
  rewrite IH by done. by apply coerce_lookup_ne.
Qed.

Lemma coerce_all_keeps_numeric cols k r :
  (∀ v, r !! k = Some v → ∃ n, v = VInt n) →
  ∀ v, coerce_all cols r !! k = Some v → ∃ n, v = VInt n.
Proof.
  unfold coerce_all. revert r. induction cols as [|c cols IH]; intros r Hr; cbn; [done|].
  apply IH. by apply coerce_keeps_numeric.
Qed.

Lemma coerce_all_numeric cols k r v :
  k ∈ cols → coerce_all cols r !! k = Some v → ∃ n, v = VInt n.
Proof.
  unfold coerce_all. revert r. induction cols as [|c cols IH]; intros r Hk; cbn.
  - by apply elem_of_nil in Hk.
  - destruct (decide (c = k)) as [->|Hne].
    + apply (coerce_all_keeps_numeric cols). intros u. apply coerce_makes_numeric.
    + apply elem_of_cons in Hk as [->|Hk]; [done|]. by apply IH.
Qed.

Lemma notna_spec subset r :
  Pd.notna subset r = true ↔ ∀ c, c ∈ subset → is_Some (r !! c).
Proof.
  unfold Pd.notna. rewrite forallb_forall. split.
  - intros H c Hc. apply list_elem_of_In in Hc. apply H in Hc.
    by apply bool_decide_eq_true in Hc.
  - intros H c Hc. apply list_elem_of_In in Hc. apply bool_decide_eq_true. auto.
Qed.

Lemma to_numeric_in df c :
  c ∈ Pd.columns df →
  Pd.to_numeric df c
  = Ok {| Pd.columns := Pd.columns df; Pd.rows := coerce c <$> Pd.rows df |}.
Proof. intros. unfold Pd.to_numeric. by rewrite decide_True. Qed.

Lemma to_numeric_notin df c :
  c ∉ Pd.columns df → Pd.to_numeric df c = Raise (KeyError c).
Proof. intros. unfold Pd.to_numeric. by rewrite decide_False. Qed.

(** What the coercion loop computes, and when it raises. *)
Lemma foldM_to_numeric cols df df' :
  foldM Pd.to_numeric cols df = Ok df' →
  Forall (λ c, c ∈ Pd.columns df) cols ∧
  df' = {| Pd.columns := Pd.columns df; Pd.rows := coerce_all cols <$> Pd.rows df |}.
Proof.
  revert df. induction cols as [|c cols IH]; intros df; cbn [foldM].
  - intros [= <-]. split; [constructor|]. destruct df; cbn. by rewrite list_fmap_id.
  - destruct (decide (c ∈ Pd.columns df)) as [Hc|Hc];
      [rewrite to_numeric_in by done|by rewrite to_numeric_notin].
    cbn [mbind result_bind rbind]. intros H. apply IH in H as [Hall ->]. cbn [Pd.columns Pd.rows] in *.
    split; [by constructor|].
    f_equal. by rewrite <- list_fmap_compose.
Qed.

Lemma foldM_to_numeric_ok cols df :
  Forall (λ c, c ∈ Pd.columns df) cols →
  foldM Pd.to_numeric cols df
  = Ok {| Pd.columns := Pd.columns df; Pd.rows := coerce_all cols <$> Pd.rows df |}.
Proof.
  revert df. induction cols as [|c cols IH]; intros df Hall; cbn [foldM].
  - destruct df; cbn. by rewrite list_fmap_id.
  - apply Forall_cons in Hall as [Hc Hall].
    rewrite to_numeric_in by done. cbn [mbind result_bind rbind].
    rewrite IH by done. cbn [Pd.columns Pd.rows].
    f_equal. f_equal. by rewrite <- list_fmap_compose.
Qed.

Lemma dropna_ok subset df :
  Forall (λ c, c ∈ Pd.columns df) subset →
  Pd.dropna subset df
  = Ok {| Pd.columns := Pd.columns df;
          Pd.rows := List.filter (Pd.notna subset) (Pd.rows df) |}.
Proof.
  intros Hall. unfold Pd.dropna.
  destruct (List.find _ subset) as [c|] eqn:Hf; [|done].
  apply find_some in Hf as [Hin Hc]. apply bool_decide_eq_true in Hc.
  rewrite Forall_forall in Hall. destruct Hc. apply Hall. by apply list_elem_of_In.
Qed.

Lemma astype_int_rows_id col l :
  Forall (λ r, numeric r col) l → Pd.astype_int_rows col l = Ok l.
Proof.
  induction 1 as [|r l [n Hn] _ IH]; cbn; [done|].
  unfold Pd.astype_int_cell. rewrite Hn. cbn. by rewrite IH.
Qed.

Lemma foldM_astype_int_id cols df :
  Forall (λ c, c ∈ Pd.columns df) cols →
  Forall (λ r, ∀ c, c ∈ cols → numeric r c) (Pd.rows df) →
  foldM Pd.astype_int cols df = Ok df.
Proof.
  induction cols as [|c cols IH]; intros Hcols Hrows; cbn [foldM]; [done|].
  apply Forall_cons in Hcols as [Hc Hcols].
  replace (Pd.astype_int df c) with (Ok df).
  - cbn [mbind result_bind rbind]. apply IH; [done|].
    eapply Forall_impl; [exact Hrows|]. intros r Hr k Hk. apply Hr. by right.
  - unfold Pd.astype_int. rewrite decide_True by done.
    rewrite astype_int_rows_id; [by destruct df|].
    eapply Forall_impl; [exact Hrows|]. intros r Hr. apply Hr. by left.
Qed.

Lemma cleaned_rows_numeric all r c :
  r ∈ cleaned_rows all → c ∈ numeric_cols → numeric r c.
Proof.
  unfold cleaned_rows. intros Hr Hc.
  apply list_elem_of_In, filter_In in Hr as [Hr Hna]. apply list_elem_of_In in Hr.
  apply list_elem_of_fmap in Hr as (r0 & -> & _).
  destruct (proj1 (notna_spec _ _) Hna c Hc) as [v Hv].
  destruct (coerce_all_numeric _ _ _ _ Hc Hv) as [n ->]. by exists n.
Qed.

Lemma integer_cols_numeric c : c ∈ integer_cols → c ∈ numeric_cols.
Proof.
  unfold integer_cols, numeric_cols. rewrite !elem_of_cons, !elem_of_nil. tauto.
Qed.

Lemma clean_ok all :
  Forall (supplied all) numeric_cols →
  clean all = Ok {| Pd.columns := Pd.columns (Pd.from_records all);
                    Pd.rows := cleaned_rows all |}.
Proof.
  intros Hall. unfold clean.
  assert (Forall (λ c, c ∈ Pd.columns (Pd.from_records all)) numeric_cols) as Hcols.
  { eapply Forall_impl; [exact Hall|]. intros c. apply columns_from_records. }
  rewrite foldM_to_numeric_ok by done. cbn [mbind result_bind rbind].
  rewrite dropna_ok by done. cbn [Pd.columns Pd.rows].
  apply foldM_astype_int_id; cbn [Pd.columns Pd.rows].
  - apply Forall_forall. intros c Hc. rewrite Forall_forall in Hcols.
    by apply Hcols, integer_cols_numeric.
  - apply Forall_forall. intros r Hr c Hc.
    by apply (cleaned_rows_numeric all), integer_cols_numeric.
Qed.

Lemma clean_inv all df :
  clean all = Ok df →
  Forall (supplied all) numeric_cols ∧ Pd.rows df = cleaned_rows all.
Proof.
  intros H.
  assert (Forall (supplied all) numeric_cols) as Hall.
  { unfold clean in H.
    destruct (foldM Pd.to_numeric numeric_cols (Pd.from_records all)) as [df1|e] eqn:H1;
      [|done].
    apply foldM_to_numeric in H1 as [Hcols _].
    eapply Forall_impl; [exact Hcols|]. intros c. apply columns_from_records. }
  split; [done|]. rewrite (clean_ok all Hall) in H. by injection H as <-.
Qed.

(** A column no record supplies makes the step raise. *)
Lemma clean_raise all :
  ¬ Forall (supplied all) numeric_cols → ∃ e, clean all = Raise e.
Proof.
  intros Hn. destruct (clean all) as [df|e] eqn:H; [|by eexists].
  apply clean_inv in H as [? _]. done.
Qed.

End cleaning.


(** * Reasoning about commands *)

Section commands.
Import Sys.

Lemma io_bind_eq {A B} (m : io A) (k : A → io B) w :
  (m ≫= k) w = match m w with
               | (Ok a, w') => k a w'
               | (Raise e, w') => (Raise e, w')
               end.
Proof. reflexivity. Qed.

Lemma io_bind_Ok {A B} (m : io A) (k : A → io B) w b w' :
  (m ≫= k) w = (Ok b, w') →
  ∃ a w1, m w = (Ok a, w1) ∧ k a w1 = (Ok b, w').
Proof. rewrite io_bind_eq. destruct (m w) as [[a|e] w1]; [eauto|done]. Qed.

Lemma io_ret_eq {A} (a : A) w : mret (M := io) a w = (Ok a, w).
Proof. reflexivity. Qed.

End commands.

(** * The loop over the result files *)

Section collecting.

Lemma new_collect_cons n names w all w' :
  New.collect (n :: names) w = (Ok all, w') →
  ∃ found w1 more,
    New.visit n w = (Ok found, w1) ∧ New.collect names w1 = (Ok more, w') ∧
    all = found ++ more.
Proof.
  cbn [New.collect]. intros H.
  apply io_bind_Ok in H as (found & w1 & Hv & H).
  apply io_bind_Ok in H as (more & w2 & Hc & H).
  rewrite io_ret_eq in H. injection H as <- <-. eauto 10.
Qed.

Lemma old_collect_cons n names w all w' :
  Old.collect (n :: names) w = (Ok all, w') →
  ∃ found w1 more,
    Old.visit n w = (Ok found, w1) ∧ Old.collect names w1 = (Ok more, w') ∧
    all = found ++ more.
Proof.
  cbn [Old.collect]. intros H.
  apply io_bind_Ok in H as (found & w1 & Hv & H).
  apply io_bind_Ok in H as (more & w2 & Hc & H).
  rewrite io_ret_eq in H. injection H as <- <-. eauto 10.
Qed.

(** The newer loop keeps a record only when the name was parsed. *)
Lemma new_visit_parsed n w found w' r :
  New.visit n w = (Ok found, w') → r ∈ found →
  from_file n r ∧ ∃ params, New.parse_filename n = Ok params ∧ params ≠ ∅.
Proof.
  unfold New.visit. destruct (_ && _); [|by intros [= <- _] ?%elem_of_nil].
  intros H. apply io_bind_Ok in H as (params & w1 & Hp & H).
  apply io_bind_Ok in H as (data & w2 & Hd & H).
  unfold Sys.lift in Hp. injection Hp as Hp _.
  destruct (truthy params) eqn:Ht; cbn [andb] in H.
  - destruct (truthy data); rewrite io_ret_eq in H; injection H as <- _;
      [|by intros ?%elem_of_nil].
    intros ->%list_elem_of_singleton. split.
    + unfold from_file. by rewrite lookup_insert_eq.
    + exists params. split; [done|]. by apply bool_decide_eq_true in Ht.
  - rewrite io_ret_eq in H. injection H as <- _. by intros ?%elem_of_nil.
Qed.

Lemma new_collect_parsed names w all w' r :
  New.collect names w = (Ok all, w') → r ∈ all →
  ∃ n, n ∈ names ∧ from_file n r ∧
       ∃ params, New.parse_filename n = Ok params ∧ params ≠ ∅.
Proof.
  revert w all. induction names as [|n names IH]; intros w all.
  - cbn. intros [= <- _]. by intros ?%elem_of_nil.
  - intros (found & w1 & more & Hv & Hc & ->)%new_collect_cons.
    intros [Hr|Hr]%elem_of_app.
    + exists n. split; [by left|]. eapply new_visit_parsed; eauto.
    + destruct (IH _ _ Hc Hr) as (m & Hm & H). exists m. split; [by right|done].
Qed.

(** The older reader stores nothing but the two measurements. *)
Lemma old_fill_line_keys line data r data' k :
  Old.fill_line line data = (r, data') →
  k ≠ "ExecutionTime_ms" → k ≠ "NumberOfHandledCollision" →
  data' !! k = data !! k.
Proof.
  unfold Old.fill_line. intros H H1 H2.
  destruct (Py.contains line "ExecutionTime:").
  - destruct (_ ≫= _) in H; injection H as <- <-; [|done].
    by rewrite lookup_insert_ne.
  - destruct (Py.contains line "NumberOfHandledCollision:").
    + destruct (_ ≫= _) in H; injection H as <- <-; [|done].
      by rewrite lookup_insert_ne.
    + by injection H as <- <-.
Qed.

Lemma old_fill_keys lines data r data' k :
  Old.fill lines data = (r, data') →
  k ≠ "ExecutionTime_ms" → k ≠ "NumberOfHandledCollision" →
  data' !! k = data !! k.
Proof.
  revert data. induction lines as [|line lines IH]; intros data; cbn [Old.fill].
  - by intros [= <- <-].
  - destruct (Old.fill_line line data) as [[[]|e] d] eqn:Hl; intros H H1 H2.
    + rewrite (IH _ H H1 H2). eapply old_fill_line_keys; eauto.
    + injection H as <- <-. eapply old_fill_line_keys; eauto.
Qed.

(** What the [try] block leaves in [data]: nothing, or what the loop left
    there after some lines. *)
Lemma old_attempt_data filepath w r data :
  Old.attempt filepath w = (r, data) →
  data = ∅ ∨ ∃ lines r', Old.fill lines ∅ = (r', data).
Proof.
  unfold Old.attempt.
  destruct (Sys.read_lines filepath w) as [[[lines failure]|e] w1].
  - destruct (Old.fill lines ∅) as [[[]|e] d] eqn:Hf.
    + destruct failure; intros [= <- <-]; right; eauto.
    + intros [= <- <-]. right; eauto.
  - intros [= <- <-]. by left.
Qed.

Lemma old_read_keys filepath w data w' k :
  Old.read_result_file filepath w = (Ok data, w') →
  k ≠ "ExecutionTime_ms" → k ≠ "NumberOfHandledCollision" →
  data !! k = None.
Proof.
  unfold Old.read_result_file. intros H H1 H2.
  destruct (Old.attempt filepath w) as [r d] eqn:Ha.
  assert (d = data) as -> by (destruct r; by injection H as <- _).
  apply old_attempt_data in Ha as [->|(lines & r' & Hr)]; [apply lookup_empty|].
  rewrite (old_fill_keys _ _ _ _ k Hr H1 H2). apply lookup_empty.
Qed.

(** A record of the older loop: the file's parameters, when its name was
    parsed, and its measurements. *)
Lemma old_visit_record n w found w' r :
  Old.visit n w = (Ok found, w') → r ∈ found →
  from_file n r ∧
  ∃ params data, Old.parse_filename n = Ok params ∧
    r = <["filename" := VStr n]> (data ∪ params) ∧
    ∀ k, k ≠ "ExecutionTime_ms" → k ≠ "NumberOfHandledCollision" → data !! k = None.
Proof.
  unfold Old.visit. destruct (_ && _); [|by intros [= <- _] ?%elem_of_nil].
  intros H. apply io_bind_Ok in H as (params & w1 & Hp & H).
  apply io_bind_Ok in H as (data & w2 & Hd & H).
  unfold Sys.lift in Hp. injection Hp as Hp _.
  destruct (truthy data); rewrite io_ret_eq in H; injection H as <- _;
    [|by intros ?%elem_of_nil].
  intros ->%list_elem_of_singleton. split.
  - unfold from_file. by rewrite lookup_insert_eq.
  - exists params, data. split; [done|]. split; [done|].
    intros k. by eapply old_read_keys.
Qed.

Lemma old_collect_record names w all w' r :
  Old.collect names w = (Ok all, w') → r ∈ all →
  ∃ n params data, n ∈ names ∧ from_file n r ∧
    Old.parse_filename n = Ok params ∧
    r = <["filename" := VStr n]> (data ∪ params) ∧
    ∀ k, k ≠ "ExecutionTime_ms" → k ≠ "NumberOfHandledCollision" → data !! k = None.
Proof.
  revert w all. induction names as [|n names IH]; intros w all.
  - cbn. intros [= <- _]. by intros ?%elem_of_nil.
  - intros (found & w1 & more & Hv & Hc & ->)%old_collect_cons.
    intros [Hr|Hr]%elem_of_app.
    + destruct (old_visit_record _ _ _ _ _ Hv Hr) as (Hf & params & data & H).
      exists n, params, data. split; [by left|]. by split.
    + destruct (IH _ _ Hc Hr) as (m & params & data & Hm & H).
      exists m, params, data. split; [by right|done].
Qed.

(** A cleaned row stems from a record that supplies every column. *)
Lemma cleaned_rows_origin all r' :
  r' ∈ cleaned_rows all →
  ∃ r, r ∈ all ∧ r' !! "filename" = r !! "filename" ∧
       ∀ c, c ∈ numeric_cols → is_Some (r !! c).
Proof.
  unfold cleaned_rows. intros Hr.
  apply list_elem_of_In, filter_In in Hr as [Hr Hna]. apply list_elem_of_In in Hr.
  apply list_elem_of_fmap in Hr as (r & -> & Hr).
  exists r. split; [done|]. split.
  - apply coerce_all_lookup_notin. unfold numeric_cols.
    rewrite !elem_of_cons, elem_of_nil. intros H; decompose [or] H; done.
  - intros c Hc. eapply coerce_all_is_Some, notna_spec; eauto.
Qed.

End collecting.


(** * Properties of the parser and the reader *)

(** Without a backslash in the name, the pattern of the newer script does
    not match and the parser returns the empty mapping. *)
Lemma new_parse_filename_needs_backslash filename :
  has_char "\" filename = false → New.parse_filename filename = Ok ∅.
Proof.
  intros H. unfold New.parse_filename.
  rewrite (search_needs_char "\" New.FILENAME_RE filename); [done| |done].
  unfold New.FILENAME_RE. cbn [app Re.lits]. rewrite !elem_of_cons. tauto.
Qed.

(** With a backslash before the extension the pattern matches, and the
    tokens are scaled as documented. *)
Example new_parse_filename_backslash :
  New.parse_filename "Results_HW2_MCC_030402_401106039_150K_8_2M_insert\.txt"
  = Ok {[ "dataset_size" := VInt 150000; "threads_or_buffer" := VInt 8;
          "table_size" := VInt 2000000 ]}.
Proof. vm_compute. reflexivity. Qed.

(** C1 (defect of the code).  [parse_size] scales the tokens as stated:
    "150K" gives 150000 and "2M" gives 2000000.  A file name that follows
    the convention prefix_dataset_threads_table_suffix.txt, the one of the
    docstring of [parse_filename] included, is nevertheless answered with
    the empty mapping instead of the three keys: the pattern asks for a
    backslash before the extension. *)
Theorem C1_parse_filename_convention :
  New.parse_size "150K" = Ok 150000 ∧
  New.parse_size "2M" = Ok 2000000 ∧
  New.parse_filename Ex.new_name = Ok ∅ ∧
  New.parse_filename Ex.new_docstring_name = Ok ∅.
Proof. repeat split; vm_compute; reflexivity. Qed.

(** The newer reader returns the empty mapping for every file. *)
Lemma new_read_result_file_no_data filepath w data w' :
  New.read_result_file filepath w = (Ok data, w') → data = ∅.
Proof.
  destruct (new_read_result_file_empty filepath w) as [->|[e ->]]; by intros [= <- _].
Qed.

(** C2 (defect of the code).  For a file with three execution-time markers
    of 100, 200 and 50 ms the newer reader returns no measurement at all,
    and the older one returns the last value, 50; neither returns the sum
    350. *)
Theorem C2_read_three_markers :
  let w := Ex.world (Some [(Ex.new_name, Sys.Text Ex.three_markers)]) "new_plots" in
  let w' := Ex.world (Some [(Ex.old_name, Sys.Text Ex.three_markers)]) "plots" in
  New.read_result_file (Sys.path_join "results" Ex.new_name) w = (Ok ∅, w) ∧
  Old.read_result_file (Sys.path_join "results" Ex.old_name) w'
  = (Ok {[ "ExecutionTime_ms" := VInt 50 ]}, w').
Proof. split; vm_compute; reflexivity. Qed.

(** * Properties of the aggregation *)

(** C7.  When the cleaning step completes, every row of the dataset holds a
    number in each of the five required columns, and the dataset has at
    most as many rows as records were collected. *)
Theorem C7_clean_numeric_and_shrinks all_data df :
  clean all_data = Ok df →
  (∀ r c, r ∈ Pd.rows df → c ∈ numeric_cols → numeric r c) ∧
  (length (Pd.rows df) ≤ length all_data)%nat.
Proof.
  intros [_ Hrows]%clean_inv. rewrite Hrows. split.
  - intros r c. apply cleaned_rows_numeric.
  - unfold cleaned_rows.
    rewrite <- (length_fmap (coerce_all numeric_cols) all_data).
    apply filter_length_le.
Qed.

Lemma C7_witness :
  clean Ex.records = Ok Ex.cleaned ∧
  (∀ r c, r ∈ Pd.rows Ex.cleaned → c ∈ numeric_cols → numeric r c) ∧
  (length (Pd.rows Ex.cleaned) ≤ length Ex.records)%nat.
Proof.
  split; [vm_compute; reflexivity|].
  apply (C7_clean_numeric_and_shrinks Ex.records Ex.cleaned).
  vm_compute; reflexivity.
Defined.

(** C4.  A file name the pattern does not match is answered with the empty
    mapping, and no row of the cleaned dataset stems from that file: the
    newer loop does not even collect a record for it, the older loop
    collects one without parameters, which the cleaning step drops. *)
Theorem C4_unmatched_filename_excluded filename names w :
  (Re.search New.FILENAME_RE filename = None →
   New.parse_filename filename = Ok ∅ ∧
   ∀ all w', New.collect names w = (Ok all, w') →
     (∀ r, r ∈ all → ¬ from_file filename r) ∧
     ∀ df, clean all = Ok df → ∀ r, r ∈ Pd.rows df → ¬ from_file filename r) ∧
  (Re.search Old.FILENAME_RE filename = None →
   Old.parse_filename filename = Ok ∅ ∧
   ∀ all w' df, Old.collect names w = (Ok all, w') → clean all = Ok df →
     ∀ r, r ∈ Pd.rows df → ¬ from_file filename r).
Proof.
  split; intros Hs.
  - assert (New.parse_filename filename = Ok ∅) as Hp.
    { unfold New.parse_filename. by rewrite Hs. }
    split; [done|]. intros all w' Hc.
    assert (∀ r, r ∈ all → ¬ from_file filename r) as Hall.
    { intros r Hr Hf.
      destruct (new_collect_parsed _ _ _ _ _ Hc Hr) as (n & _ & Hn & params & Hpn & Hne).
      unfold from_file in *. rewrite Hf in Hn. injection Hn as <-. congruence. }
    split; [done|]. intros df [_ Hrows]%clean_inv r'. rewrite Hrows.
    intros (r & Hr & Hfn & _)%cleaned_rows_origin Hf.
    apply (Hall r Hr). unfold from_file in *. congruence.
  - assert (Old.parse_filename filename = Ok ∅) as Hp.
    { unfold Old.parse_filename. by rewrite Hs. }
    split; [done|]. intros all w' df Hc [_ Hrows]%clean_inv r'. rewrite Hrows.
    intros (r & Hr & Hfn & Hcols)%cleaned_rows_origin Hf.
    destruct (old_collect_record _ _ _ _ _ Hc Hr)
      as (n & params & data & _ & Hn & Hpn & -> & Hdata).
    unfold from_file in *. rewrite Hf in Hfn. rewrite <- Hfn in Hn.
    injection Hn as <-. rewrite Hp in Hpn. injection Hpn as <-.
    destruct (Hcols "dataset_size") as [v Hv].
    { unfold numeric_cols. by left. }
    rewrite lookup_insert_ne in Hv by done.
    rewrite lookup_union_r in Hv by (by apply Hdata).
    by rewrite lookup_empty in Hv.
Qed.

Lemma C4_witness :
  let w := Ex.world (Some Ex.two_files) "plots" in
  Re.search New.FILENAME_RE Ex.notes_name = None ∧
  Re.search Old.FILENAME_RE Ex.notes_name = None ∧
  Old.collect Ex.two_files.*1 w = (Ok Ex.records, w) ∧
  clean Ex.records = Ok Ex.cleaned ∧
  New.parse_filename Ex.notes_name = Ok ∅ ∧
  Old.parse_filename Ex.notes_name = Ok ∅ ∧
  ∀ r, r ∈ Pd.rows Ex.cleaned → ¬ from_file Ex.notes_name r.
Proof.
  intros w.
  assert (Re.search New.FILENAME_RE Ex.notes_name = None) as HN
    by (vm_compute; reflexivity).
  assert (Re.search Old.FILENAME_RE Ex.notes_name = None) as HO
    by (vm_compute; reflexivity).
  assert (Old.collect Ex.two_files.*1 w = (Ok Ex.records, w)) as Hc
    by (vm_compute; reflexivity).
  assert (clean Ex.records = Ok Ex.cleaned) as Hd by (vm_compute; reflexivity).
  destruct (C4_unmatched_filename_excluded Ex.notes_name Ex.two_files.*1 w)
    as [HNew HOld].
  destruct (HNew HN) as [Hp _]. destruct (HOld HO) as [Hp' Hrows].
  split; [exact HN|]. split; [exact HO|]. split; [exact Hc|]. split; [exact Hd|].
  split; [exact Hp|]. split; [exact Hp'|exact (Hrows _ _ _ Hc Hd)].
Defined.


(** * What the commands read and write *)

Section frames.
Import Sys.

Lemma printed_refl w : printed w w.
Proof. by split. Qed.

Lemma printed_trans w1 w2 w3 : printed w1 w2 → printed w2 w3 → printed w1 w3.
Proof. intros [? ?] [? ?]. split; congruence. Qed.

Lemma printed_log l w : printed w (log l w).
Proof. by split. Qed.

(** Reading depends on the [results] directory only. *)
Lemma open_results filepath w1 w2 :
  results_dir w1 = results_dir w2 → open_ filepath w1 = open_ filepath w2.
Proof. unfold open_. by intros ->. Qed.

Lemma read_text_results filepath w1 w2 :
  results_dir w1 = results_dir w2 →
  fst (read_text filepath w1) = fst (read_text filepath w2).
Proof.
  intros H. unfold read_text. rewrite (open_results filepath w1 w2 H).
  by destruct (open_ filepath w2) as [[c|head e|]|e].
Qed.

Lemma read_lines_results filepath w1 w2 :
  results_dir w1 = results_dir w2 →
  fst (read_lines filepath w1) = fst (read_lines filepath w2).
Proof.
  intros H. unfold read_lines. rewrite (open_results filepath w1 w2 H).
  by destruct (open_ filepath w2) as [[c|head e|]|e].
Qed.

Lemma new_attempt_results filepath w1 w2 :
  results_dir w1 = results_dir w2 →
  New.attempt filepath w1 = New.attempt filepath w2.
Proof.
  intros H. unfold New.attempt. pose proof (read_text_results filepath _ _ H) as Hr.
  destruct (read_text filepath w1) as [[c1|e1] ?],
           (read_text filepath w2) as [[c2|e2] ?]; cbn in Hr; congruence.
Qed.

Lemma old_attempt_results filepath w1 w2 :
  results_dir w1 = results_dir w2 →
  Old.attempt filepath w1 = Old.attempt filepath w2.
Proof.
  intros H. unfold Old.attempt. pose proof (read_lines_results filepath _ _ H) as Hr.
  destruct (read_lines filepath w1) as [[c1|e1] ?],
           (read_lines filepath w2) as [[c2|e2] ?]; cbn in Hr; by simplify_eq.
Qed.

(** The readers return normally, print at most one line and touch no
    directory. *)
Lemma new_read_result_file_shape filepath w :
  New.read_result_file filepath w
  = (Ok (snd (New.attempt filepath w)),
     match fst (New.attempt filepath w) with
     | Ok _ => w
     | Raise e => log (ErrorReading filepath e) w
     end).
Proof.
  unfold New.read_result_file. by destruct (New.attempt filepath w) as [[[]|e] d].
Qed.

Lemma old_read_result_file_shape filepath w :
  Old.read_result_file filepath w
  = (Ok (snd (Old.attempt filepath w)),
     match fst (Old.attempt filepath w) with
     | Ok _ => w
     | Raise e => log (ErrorReading filepath e) w
     end).
Proof.
  unfold Old.read_result_file. by destruct (Old.attempt filepath w) as [[[]|e] d].
Qed.

(** One pass of the loop, written out. *)
Lemma new_visit_shape n w :
  New.visit n w =
  if Py.startswith n "Results_HW2_MCC_" && Py.endswith n ".txt" then
    match New.parse_filename n with
    | Ok params =>
        let a := New.attempt (path_join "results" n) w in
        (Ok (if truthy params && truthy (snd a)
             then [<["filename" := VStr n]> (snd a ∪ params)] else []),
         match fst a with
         | Ok _ => w
         | Raise e => log (ErrorReading (path_join "results" n) e) w
         end)
    | Raise e => (Raise e, w)
    end
  else (Ok [], w).
Proof.
  unfold New.visit. destruct (_ && _); [|done].
  rewrite io_bind_eq. unfold lift.
  destruct (New.parse_filename n) as [params|e]; [|done].
  rewrite io_bind_eq, new_read_result_file_shape. cbn zeta.
  by destruct (truthy params && truthy _).
Qed.

Lemma old_visit_shape n w :
  Old.visit n w =
  if Py.startswith n "Results_MCC_" && Py.endswith n ".txt" then
    match Old.parse_filename n with
    | Ok params =>
        let a := Old.attempt (path_join "results" n) w in
        (Ok (if truthy (snd a)
             then [<["filename" := VStr n]> (snd a ∪ params)] else []),
         match fst a with
         | Ok _ => w
         | Raise e => log (ErrorReading (path_join "results" n) e) w
         end)
    | Raise e => (Raise e, w)
    end
  else (Ok [], w).
Proof.
  unfold Old.visit. destruct (_ && _); [|done].
  rewrite io_bind_eq. unfold lift.
  destruct (Old.parse_filename n) as [params|e]; [|done].
  rewrite io_bind_eq, old_read_result_file_shape. cbn zeta.
  by destruct (truthy _).
Qed.

Lemma new_visit_frame n w :
  printed w (snd (New.visit n w)) ∧
  ∀ w2, results_dir w = results_dir w2 → fst (New.visit n w) = fst (New.visit n w2).
Proof.
  split.
  - rewrite new_visit_shape. destruct (_ && _); [|apply printed_refl].
    destruct (New.parse_filename n); [|apply printed_refl]. cbn [snd].
    destruct (fst _); auto using printed_refl, printed_log.
  - intros w2 H. rewrite !new_visit_shape. destruct (_ && _); [|done].
    destruct (New.parse_filename n); [|done].
    by rewrite (new_attempt_results _ w w2 H).
Qed.

Lemma old_visit_frame n w :
  printed w (snd (Old.visit n w)) ∧
  ∀ w2, results_dir w = results_dir w2 → fst (Old.visit n w) = fst (Old.visit n w2).
Proof.
  split.
  - rewrite old_visit_shape. destruct (_ && _); [|apply printed_refl].
    destruct (Old.parse_filename n); [|apply printed_refl]. cbn [snd].
    destruct (fst _); auto using printed_refl, printed_log.
  - intros w2 H. rewrite !old_visit_shape. destruct (_ && _); [|done].
    destruct (Old.parse_filename n); [|done].
    by rewrite (old_attempt_results _ w w2 H).
Qed.

Lemma new_collect_frame names w :
  printed w (snd (New.collect names w)) ∧
  ∀ w2, results_dir w = results_dir w2 →
        fst (New.collect names w) = fst (New.collect names w2).
Proof.
  revert w. induction names as [|n names IH]; intros w; [by split|].
  cbn [New.collect]. destruct (new_visit_frame n w) as [Hp Hv]. split.
  - rewrite io_bind_eq. destruct (New.visit n w) as [[found|e] w1]; [|done].
    rewrite io_bind_eq. destruct (IH w1) as [Hp1 _]. cbn [snd] in Hp.
    destruct (New.collect names w1) as [[more|e] w1']; cbn [snd] in *;
      eauto using printed_trans.
  - intros w2 H. rewrite !io_bind_eq. specialize (Hv w2 H).
    destruct (new_visit_frame n w2) as [Hp2 _].
    destruct (New.visit n w) as [[found|e] w1],
             (New.visit n w2) as [[found2|e2] w2']; cbn [fst snd] in *; try done.
    injection Hv as <-. rewrite !io_bind_eq.
    destruct (IH w1) as [_ Hc]. specialize (Hc w2').
    destruct Hp as [Hr1 _], Hp2 as [Hr2 _].
    assert (results_dir w1 = results_dir w2') as Hc' by congruence.
    specialize (Hc Hc').
    destruct (New.collect names w1) as [[more|e] ?],
             (New.collect names w2') as [[more2|e2] ?];
      cbn [fst] in *; rewrite ?io_ret_eq; cbn [fst]; congruence.
Qed.

Lemma old_collect_frame names w :
  printed w (snd (Old.collect names w)) ∧
  ∀ w2, results_dir w = results_dir w2 →
        fst (Old.collect names w) = fst (Old.collect names w2).
Proof.
  revert w. induction names as [|n names IH]; intros w; [by split|].
  cbn [Old.collect]. destruct (old_visit_frame n w) as [Hp Hv]. split.
  - rewrite io_bind_eq. destruct (Old.visit n w) as [[found|e] w1]; [|done].
    rewrite io_bind_eq. destruct (IH w1) as [Hp1 _]. cbn [snd] in Hp.
    destruct (Old.collect names w1) as [[more|e] w1']; cbn [snd] in *;
      eauto using printed_trans.
  - intros w2 H. rewrite !io_bind_eq. specialize (Hv w2 H).
    destruct (old_visit_frame n w2) as [Hp2 _].
    destruct (Old.visit n w) as [[found|e] w1],
             (Old.visit n w2) as [[found2|e2] w2']; cbn [fst snd] in *; try done.
    injection Hv as <-. rewrite !io_bind_eq.
    destruct (IH w1) as [_ Hc]. specialize (Hc w2').
    destruct Hp as [Hr1 _], Hp2 as [Hr2 _].
    assert (results_dir w1 = results_dir w2') as Hc' by congruence.
    specialize (Hc Hc').
    destruct (Old.collect names w1) as [[more|e] ?],
             (Old.collect names w2') as [[more2|e2] ?];
      cbn [fst] in *; rewrite ?io_ret_eq; cbn [fst]; congruence.
Qed.

End frames.


(** * The chart loops *)

Section rendering.
Import Sys.

Lemma new_prepare_output_eq w :
  New.prepare_output w = (Ok tt, with_outdir New.plots_dir ∅ w).
Proof.
  unfold New.prepare_output, with_outdir.
  rewrite io_bind_eq. unfold path_exists.
  destruct (outdirs w !! New.plots_dir) as [s|] eqn:Hs.
  - rewrite bool_decide_true by eauto. rewrite io_bind_eq.
    unfold rmtree, makedirs. cbn [outdirs results_dir stdout].
    rewrite lookup_delete_eq. by rewrite insert_delete_eq.
  - rewrite bool_decide_false by (by intros [? ?]). rewrite io_bind_eq, io_ret_eq.
    unfold makedirs. by rewrite Hs.
Qed.

Lemma old_prepare_output_eq w :
  Old.prepare_output w = (Ok tt, with_outdir Old.plots_dir ∅ w).
Proof.
  unfold Old.prepare_output, with_outdir.
  rewrite io_bind_eq. unfold path_exists.
  destruct (outdirs w !! Old.plots_dir) as [s|] eqn:Hs.
  - rewrite bool_decide_true by eauto. rewrite io_bind_eq.
    unfold rmtree, makedirs. cbn [outdirs results_dir stdout].
    rewrite lookup_delete_eq. by rewrite insert_delete_eq.
  - rewrite bool_decide_false by (by intros [? ?]). rewrite io_bind_eq, io_ret_eq.
    unfold makedirs. by rewrite Hs.
Qed.

Lemma writes_ret dir : writes dir (mret tt) ∅.
Proof. intros w s Hs. exists w. rewrite io_ret_eq, (left_id_L ∅ (∪)). eauto. Qed.

Lemma writes_print dir l : writes dir (print l) ∅.
Proof. intros w s Hs. exists (log l w). rewrite (left_id_L ∅ (∪)). eauto. Qed.

Lemma writes_savefig dir name : writes dir (savefig dir name) {[name]}.
Proof.
  intros w s Hs. unfold savefig. rewrite Hs. eexists. split; [done|].
  cbn [outdirs results_dir]. by rewrite lookup_insert_eq.
Qed.

Lemma writes_seq dir (m m' : io unit) F F' :
  writes dir m F → writes dir m' F' → writes dir (m;; m') (F' ∪ F).
Proof.
  intros Hm Hm' w s Hs. destruct (Hm w s Hs) as (w1 & E1 & Hs1 & Hr1).
  destruct (Hm' w1 _ Hs1) as (w2 & E2 & Hs2 & Hr2).
  exists w2. rewrite io_bind_eq, E1, E2. rewrite <- (assoc_L (∪)).
  split; [done|]. split; [done|congruence].
Qed.

Lemma writes_eq dir m F F' : F = F' → writes dir m F → writes dir m F'.
Proof. by intros ->. Qed.

Lemma writes_for_each {A} dir (l : list A) (body : A → io unit) (f : A → string) :
  (∀ x, x ∈ l → writes dir (body x) {[f x]}) →
  writes dir (for_each l body) (list_to_set (f <$> l)).
Proof.
  induction l as [|x l IH]; intros Hb; cbn [for_each fmap list_fmap list_to_set].
  - apply writes_ret.
  - eapply writes_eq; [|apply (writes_seq dir (body x) (for_each l body))].
    + apply (comm_L (∪)).
    + apply Hb. by left.
    + apply IH. intros y Hy. apply Hb. by right.
Qed.

(** [unique] keeps exactly the values of the list. *)
Lemma elem_of_unique_from {A} `{EqDecision A} (seen l : list A) x :
  x ∈ Pd.unique_from seen l ↔ x ∈ l ∧ x ∉ seen.
Proof.
  revert seen. induction l as [|y l IH]; intros seen; cbn.
  - rewrite elem_of_nil. tauto.
  - destruct (decide (y ∈ seen)) as [Hy|Hy].
    + rewrite IH, elem_of_cons. split; [tauto|]. intros [[->|?] ?]; tauto.
    + rewrite !elem_of_cons, IH, not_elem_of_cons.
      destruct (decide (x = y)) as [->|]; tauto.
Qed.

Lemma elem_of_unique {A} `{EqDecision A} (l : list A) x :
  x ∈ Pd.unique l ↔ x ∈ l.
Proof.
  unfold Pd.unique. rewrite elem_of_unique_from, elem_of_nil. tauto.
Qed.

Lemma unique_nil {A} `{EqDecision A} (l : list A) :
  Pd.unique l = [] → l = [].
Proof.
  destruct l as [|x l]; [done|]. intros H.
  assert (x ∈ Pd.unique (x :: l)) as Hx by (apply elem_of_unique; by left).
  rewrite H in Hx. by apply elem_of_nil in Hx.
Qed.

Lemma elem_of_unique_dataset_sizes df ds :
  ds ∈ New.unique_dataset_sizes df ↔ ds ∈ Pd.column "dataset_size" df.
Proof.
  unfold New.unique_dataset_sizes.
  rewrite (merge_sort_Permutation Z.le). apply elem_of_unique.
Qed.

Lemma elem_of_where_eq col n l r :
  r ∈ Pd.where_eq col n l ↔ r ∈ l ∧ Pd.int_cell col r = Some n.
Proof.
  unfold Pd.where_eq.
  rewrite !list_elem_of_In, filter_In, bool_decide_eq_true. done.
Qed.

Lemma numeric_int_cell r c : numeric r c → ∃ n, Pd.int_cell c r = Some n.
Proof. intros [n Hn]. exists n. unfold Pd.int_cell. by rewrite Hn. Qed.

Lemma numeric_cols_elem c :
  c ∈ numeric_cols ↔
  c = "dataset_size" ∨ c = "threads_or_buffer" ∨ c = "table_size" ∨
  c = "ExecutionTime_ms" ∨ c = "NumberOfHandledCollision".
Proof. unfold numeric_cols. rewrite !elem_of_cons, elem_of_nil. tauto. Qed.

(** The rows of one dataset size pivot to a non-empty table. *)
Lemma pivot_nonempty df vals ds :
  all_numeric df → vals ∈ numeric_cols →
  ds ∈ Pd.column "dataset_size" df →
  ∃ r l, Pd.where_eq "dataset_size" ds (Pd.rows df) = r :: l ∧
  ∃ k ks, Pd.pivot_table "threads_or_buffer" "table_size" vals (r :: l) = k :: ks.
Proof.
  intros Hnum Hvals Hds. unfold Pd.column in Hds.
  apply list_elem_of_omap in Hds as (r0 & Hr0 & Hcell).
  assert (r0 ∈ Pd.where_eq "dataset_size" ds (Pd.rows df)) as Hin
    by by apply elem_of_where_eq.
  destruct (Pd.where_eq "dataset_size" ds (Pd.rows df)) as [|r l] eqn:Hw;
    [by apply elem_of_nil in Hin|].
  exists r, l. split; [done|].
  destruct (Pd.pivot_table _ _ _ (r :: l)) as [|k ks] eqn:Hp; [|eauto].
  unfold Pd.pivot_table in Hp. apply unique_nil in Hp.
  assert (r ∈ Pd.rows df) as Hr.
  { apply (elem_of_where_eq "dataset_size" ds). rewrite Hw. by left. }
  cbn [omap list_omap] in Hp.
  destruct (numeric_int_cell r "threads_or_buffer") as [a Ha];
    [apply Hnum; [done|]; apply numeric_cols_elem; tauto|].
  destruct (numeric_int_cell r "table_size") as [b Hb];
    [apply Hnum; [done|]; apply numeric_cols_elem; tauto|].
  destruct (numeric_int_cell r vals) as [c Hc]; [by apply Hnum|].
  rewrite Ha, Hb, Hc in Hp. done.
Qed.

Lemma new_pivot_chart_writes df vals png ds :
  all_numeric df → vals ∈ numeric_cols →
  ds ∈ New.unique_dataset_sizes df →
  writes New.plots_dir (New.pivot_chart df vals png ds) {[png ds]}.
Proof.
  intros Hnum Hvals Hds%elem_of_unique_dataset_sizes.
  destruct (pivot_nonempty df vals ds Hnum Hvals Hds) as (r & l & Hw & k & ks & Hp).
  unfold New.pivot_chart. rewrite Hw, Hp.
  eapply writes_eq; [|apply writes_seq; [apply writes_savefig|apply writes_print]].
  apply (left_id_L ∅ (∪)).
Qed.

Lemma old_pivot_chart_writes df vals what what' png ds :
  all_numeric df → vals ∈ numeric_cols →
  ds ∈ New.unique_dataset_sizes df →
  writes Old.plots_dir (Old.pivot_chart df vals what what' png ds) {[png ds]}.
Proof.
  intros Hnum Hvals Hds%elem_of_unique_dataset_sizes.
  destruct (pivot_nonempty df vals ds Hnum Hvals Hds) as (r & l & Hw & k & ks & Hp).
  unfold Old.pivot_chart. rewrite Hw, Hp.
  eapply writes_eq; [|apply writes_seq; [apply writes_savefig|apply writes_print]].
  apply (left_id_L ∅ (∪)).
Qed.

Lemma elem_of_unique_combinations df k :
  k ∈ New.unique_combinations df ↔ k ∈ key_pairs df.
Proof. apply elem_of_unique. Qed.

Lemma key_pair_rows df ds ts :
  (ds, ts) ∈ key_pairs df →
  ∃ r l, Pd.where_eq "table_size" ts
           (Pd.where_eq "dataset_size" ds (Pd.rows df)) = r :: l.
Proof.
  unfold key_pairs. intros (r0 & Hr0 & Hk)%list_elem_of_omap.
  destruct (Pd.int_cell "dataset_size" r0) as [a|] eqn:Ha; [|done].
  destruct (Pd.int_cell "table_size" r0) as [b|] eqn:Hb; [|done].
  cbn in Hk. injection Hk as -> ->.
  assert (r0 ∈ Pd.where_eq "table_size" ts
                 (Pd.where_eq "dataset_size" ds (Pd.rows df))) as Hin.
  { apply elem_of_where_eq. split; [|done]. by apply elem_of_where_eq. }
  destruct (Pd.where_eq "table_size" ts _) as [|r l];
    [by apply elem_of_nil in Hin|eauto].
Qed.

Lemma new_exectime_chart_writes df k :
  k ∈ New.unique_combinations df →
  writes New.plots_dir (New.exectime_chart df k) {[New.exectime_png k.1 k.2]}.
Proof.
  destruct k as [ds ts]. intros Hk%elem_of_unique_combinations.
  destruct (key_pair_rows df ds ts Hk) as (r & l & Hw).
  unfold New.exectime_chart. rewrite Hw.
  eapply writes_eq; [|apply writes_seq; [apply writes_savefig|apply writes_print]].
  apply (left_id_L ∅ (∪)).
Qed.

Lemma old_exectime_chart_writes df k :
  k ∈ New.unique_combinations df →
  writes Old.plots_dir (Old.exectime_chart df k) {[New.exectime_png k.1 k.2]}.
Proof.
  destruct k as [ds ts]. intros Hk%elem_of_unique_combinations.
  destruct (key_pair_rows df ds ts Hk) as (r & l & Hw).
  unfold Old.exectime_chart. rewrite Hw.
  eapply writes_eq; [|apply writes_seq; [apply writes_savefig|apply writes_print]].
  apply (left_id_L ∅ (∪)).
Qed.

Lemma list_to_set_fmap_equiv {A} (f : A → string) (l l' : list A) :
  (∀ x, x ∈ l ↔ x ∈ l') →
  list_to_set (C := gset string) (f <$> l) = list_to_set (f <$> l').
Proof.
  intros H. apply set_eq. intros y.
  rewrite !elem_of_list_to_set, !list_elem_of_fmap.
  split; intros (x & -> & Hx); exists x; (split; [done|]); by apply H.
Qed.

Lemma chart_names_eq df :
  (list_to_set (New.exectime_grouped_png <$> New.unique_dataset_sizes df) ∪
   list_to_set ((λ k, New.exectime_png k.1 k.2) <$> New.unique_combinations df)) ∪
  list_to_set (New.collisions_png <$> New.unique_dataset_sizes df)
  = chart_names df.
Proof.
  unfold chart_names. rewrite <- (assoc_L (∪)).
  rewrite !(list_to_set_fmap_equiv _ (New.unique_dataset_sizes df)
              (Pd.column "dataset_size" df))
    by apply elem_of_unique_dataset_sizes.
  by rewrite (list_to_set_fmap_equiv _ (New.unique_combinations df) (key_pairs df))
    by apply elem_of_unique_combinations.
Qed.

(** The chart loops complete and write exactly the files named after the
    grouping keys. *)
Lemma new_render_writes df :
  all_numeric df → writes New.plots_dir (New.render df) (chart_names df).
Proof.
  intros Hnum. unfold New.render.
  eapply writes_eq; [apply chart_names_eq|].
  apply writes_seq; [|apply writes_seq].
  - apply writes_for_each. intros ds Hds.
    apply new_pivot_chart_writes; [done| |done]. apply numeric_cols_elem; tauto.
  - apply writes_for_each. intros k Hk. by apply new_exectime_chart_writes.
  - apply writes_for_each. intros ds Hds.
    apply new_pivot_chart_writes; [done| |done]. apply numeric_cols_elem; tauto.
Qed.

Lemma old_render_writes df :
  all_numeric df → writes Old.plots_dir (Old.render df) (chart_names df).
Proof.
  intros Hnum. unfold Old.render.
  eapply writes_eq; [apply chart_names_eq|].
  apply writes_seq; [|apply writes_seq].
  - apply writes_for_each. intros ds Hds.
    apply old_pivot_chart_writes; [done| |done]. apply numeric_cols_elem; tauto.
  - apply writes_for_each. intros k Hk. by apply old_exectime_chart_writes.
  - apply writes_for_each. intros ds Hds.
    apply old_pivot_chart_writes; [done| |done]. apply numeric_cols_elem; tauto.
Qed.

End rendering.


(** * The whole run *)

Section runs.
Import Sys.

(** The run, written out by cases. *)
Lemma new_main_shape w :
  New.main w =
  let w0 := with_outdir New.plots_dir ∅ w in
  match results_dir w with
  | None => (Ok tt, log (Msg "Directory not found: results") w0)
  | Some entries =>
      match New.collect entries.*1 w0 with
      | (Raise e, w1) => (Raise e, w1)
      | (Ok [], w1) =>
          (Ok tt, log (Msg "No data processed. Check filenames or file contents.") w1)
      | (Ok all, w1) =>
          match clean all with
          | Raise e => (Raise e, w1)
          | Ok df =>
              New.render df
                (log (Table df) (log (Msg "Collected and Processed Data:") w1))
          end
      end
  end.
Proof.
  unfold New.main. rewrite io_bind_eq, new_prepare_output_eq.
  rewrite io_bind_eq. unfold results_isdir. cbn [results_dir with_outdir].
  destruct (results_dir w) as [entries|] eqn:Hr.
  - rewrite bool_decide_true by eauto. cbn [negb].
    rewrite io_bind_eq. unfold listdir at 1. cbn [results_dir with_outdir]. rewrite Hr.
    rewrite io_bind_eq. cbn zeta.
    destruct (New.collect _ _) as [[[|r all]|e] w1]; [done| |done].
    rewrite io_bind_eq. unfold lift at 1.
    destruct (clean (r :: all)) as [df|e]; [|done].
    by rewrite !io_bind_eq.
  - rewrite bool_decide_false by (by intros [? ?]). done.
Qed.

(** The run leaves [results] alone and ends with the output directory in
    place; with the same [results], it has the same outcome and leaves the
    same files in the output directory. *)
Lemma new_main_frame w :
  results_dir (snd (New.main w)) = results_dir w ∧
  is_Some (outdirs (snd (New.main w)) !! New.plots_dir).
Proof.
  rewrite new_main_shape. cbn zeta.
  destruct (results_dir w) as [entries|] eqn:Hr.
  - destruct (new_collect_frame entries.*1 (with_outdir New.plots_dir ∅ w))
      as [[Hp1 Hp2] _].
    destruct (New.collect _ _) as [[[|r all]|e] w1]; cbn [snd] in *.
    + cbn. rewrite Hp1, Hp2. cbn. rewrite lookup_insert_eq. eauto.
    + destruct (clean (r :: all)) as [df|e] eqn:Hc; cbn [snd].
      * assert (all_numeric df) as Hnum.
        { intros r' c. apply clean_inv in Hc as [_ ->]. apply cleaned_rows_numeric. }
        destruct (new_render_writes df Hnum
                    (log (Table df) (log (Msg "Collected and Processed Data:") w1)) ∅)
          as (w2 & -> & Hs & Hres).
        { cbn. rewrite Hp2. cbn. by rewrite lookup_insert_eq. }
        cbn [snd]. rewrite Hs, Hres. cbn. rewrite Hp1. cbn. eauto.
      * rewrite Hp1, Hp2. cbn. rewrite lookup_insert_eq. eauto.
    + rewrite Hp1, Hp2. cbn. rewrite lookup_insert_eq. eauto.
  - cbn. rewrite lookup_insert_eq. eauto.
Qed.

Lemma new_main_same_input w1 w2 :
  results_dir w1 = results_dir w2 →
  fst (New.main w1) = fst (New.main w2) ∧
  outdirs (snd (New.main w1)) !! New.plots_dir
  = outdirs (snd (New.main w2)) !! New.plots_dir.
Proof.
  intros H. rewrite !new_main_shape. cbn zeta. rewrite <- H.
  destruct (results_dir w1) as [entries|] eqn:Hr.
  - destruct (new_collect_frame entries.*1 (with_outdir New.plots_dir ∅ w1))
      as [[_ Hp1] Hsame].
    destruct (new_collect_frame entries.*1 (with_outdir New.plots_dir ∅ w2))
      as [[_ Hp2] _].
    assert (results_dir (with_outdir New.plots_dir ∅ w1)
            = results_dir (with_outdir New.plots_dir ∅ w2)) as H'
      by (cbn; congruence).
    specialize (Hsame _ H').
    destruct (New.collect _ (with_outdir New.plots_dir ∅ w1)) as [r1 w1'],
             (New.collect _ (with_outdir New.plots_dir ∅ w2)) as [r2 w2'].
    cbn [fst snd] in *. subst r2.
    assert (outdirs w1' !! New.plots_dir = Some ∅) as Ho1
      by (rewrite Hp1; cbn; by rewrite lookup_insert_eq).
    assert (outdirs w2' !! New.plots_dir = Some ∅) as Ho2
      by (rewrite Hp2; cbn; by rewrite lookup_insert_eq).
    destruct r1 as [[|r all]|e]; cbn [fst snd log outdirs]; [by rewrite Ho1, Ho2| |
      by rewrite Ho1, Ho2].
    destruct (clean (r :: all)) as [df|e] eqn:Hc; cbn [fst snd];
      [|by rewrite Ho1, Ho2].
    assert (all_numeric df) as Hnum.
    { intros r' c. apply clean_inv in Hc as [_ ->]. apply cleaned_rows_numeric. }
    destruct (new_render_writes df Hnum
                (log (Table df) (log (Msg "Collected and Processed Data:") w1')) ∅ Ho1)
      as (v1 & -> & Hs1 & _).
    destruct (new_render_writes df Hnum
                (log (Table df) (log (Msg "Collected and Processed Data:") w2')) ∅ Ho2)
      as (v2 & -> & Hs2 & _).
    cbn [fst snd]. by rewrite Hs1, Hs2.
  - cbn. by rewrite !lookup_insert_eq.
Qed.

(** The run, written out by cases. *)
Lemma old_main_shape w :
  Old.main w =
  let w0 := with_outdir Old.plots_dir ∅ w in
  match results_dir w with
  | None => (Ok tt, log (Msg "Directory not found: results") w0)
  | Some entries =>
      match Old.collect entries.*1 w0 with
      | (Raise e, w1) => (Raise e, w1)
      | (Ok [], w1) =>
          (Ok tt, log (Msg "No data processed. Check filenames or file contents.") w1)
      | (Ok all, w1) =>
          match clean all with
          | Raise e => (Raise e, w1)
          | Ok df =>
              Old.render df
                (log (Table df) (log (Msg "Collected and Processed Data:") w1))
          end
      end
  end.
Proof.
  unfold Old.main. rewrite io_bind_eq, old_prepare_output_eq.
  rewrite io_bind_eq. unfold results_isdir. cbn [results_dir with_outdir].
  destruct (results_dir w) as [entries|] eqn:Hr.
  - rewrite bool_decide_true by eauto. cbn [negb].
    rewrite io_bind_eq. unfold listdir at 1. cbn [results_dir with_outdir]. rewrite Hr.
    rewrite io_bind_eq. cbn zeta.
    destruct (Old.collect _ _) as [[[|r all]|e] w1]; [done| |done].
    rewrite io_bind_eq. unfold lift at 1.
    destruct (clean (r :: all)) as [df|e]; [|done].
    by rewrite !io_bind_eq.
  - rewrite bool_decide_false by (by intros [? ?]). done.
Qed.

(** The run leaves [results] alone and ends with the output directory in
    place; with the same [results], it has the same outcome and leaves the
    same files in the output directory. *)
Lemma old_main_frame w :
  results_dir (snd (Old.main w)) = results_dir w ∧
  is_Some (outdirs (snd (Old.main w)) !! Old.plots_dir).
Proof.
  rewrite old_main_shape. cbn zeta.
  destruct (results_dir w) as [entries|] eqn:Hr.
  - destruct (old_collect_frame entries.*1 (with_outdir Old.plots_dir ∅ w))
      as [[Hp1 Hp2] _].
    destruct (Old.collect _ _) as [[[|r all]|e] w1]; cbn [snd] in *.
    + cbn. rewrite Hp1, Hp2. cbn. rewrite lookup_insert_eq. eauto.
    + destruct (clean (r :: all)) as [df|e] eqn:Hc; cbn [snd].
      * assert (all_numeric df) as Hnum.
        { intros r' c. apply clean_inv in Hc as [_ ->]. apply cleaned_rows_numeric. }
        destruct (old_render_writes df Hnum
                    (log (Table df) (log (Msg "Collected and Processed Data:") w1)) ∅)
          as (w2 & -> & Hs & Hres).
        { cbn. rewrite Hp2. cbn. by rewrite lookup_insert_eq. }
        cbn [snd]. rewrite Hs, Hres. cbn. rewrite Hp1. cbn. eauto.
      * rewrite Hp1, Hp2. cbn. rewrite lookup_insert_eq. eauto.
    + rewrite Hp1, Hp2. cbn. rewrite lookup_insert_eq. eauto.
  - cbn. rewrite lookup_insert_eq. eauto.
Qed.

Lemma old_main_same_input w1 w2 :
  results_dir w1 = results_dir w2 →
  fst (Old.main w1) = fst (Old.main w2) ∧
  outdirs (snd (Old.main w1)) !! Old.plots_dir
  = outdirs (snd (Old.main w2)) !! Old.plots_dir.
Proof.
  intros H. rewrite !old_main_shape. cbn zeta. rewrite <- H.
  destruct (results_dir w1) as [entries|] eqn:Hr.
  - destruct (old_collect_frame entries.*1 (with_outdir Old.plots_dir ∅ w1))
      as [[_ Hp1] Hsame].
    destruct (old_collect_frame entries.*1 (with_outdir Old.plots_dir ∅ w2))
      as [[_ Hp2] _].
    assert (results_dir (with_outdir Old.plots_dir ∅ w1)
            = results_dir (with_outdir Old.plots_dir ∅ w2)) as H'
      by (cbn; congruence).
    specialize (Hsame _ H').
    destruct (Old.collect _ (with_outdir Old.plots_dir ∅ w1)) as [r1 w1'],
             (Old.collect _ (with_outdir Old.plots_dir ∅ w2)) as [r2 w2'].
    cbn [fst snd] in *. subst r2.
    assert (outdirs w1' !! Old.plots_dir = Some ∅) as Ho1
      by (rewrite Hp1; cbn; by rewrite lookup_insert_eq).
    assert (outdirs w2' !! Old.plots_dir = Some ∅) as Ho2
      by (rewrite Hp2; cbn; by rewrite lookup_insert_eq).
    destruct r1 as [[|r all]|e]; cbn [fst snd log outdirs]; [by rewrite Ho1, Ho2| |
      by rewrite Ho1, Ho2].
    destruct (clean (r :: all)) as [df|e] eqn:Hc; cbn [fst snd];
      [|by rewrite Ho1, Ho2].
    assert (all_numeric df) as Hnum.
    { intros r' c. apply clean_inv in Hc as [_ ->]. apply cleaned_rows_numeric. }
    destruct (old_render_writes df Hnum
                (log (Table df) (log (Msg "Collected and Processed Data:") w1')) ∅ Ho1)
      as (v1 & -> & Hs1 & _).
    destruct (old_render_writes df Hnum
                (log (Table df) (log (Msg "Collected and Processed Data:") w2')) ∅ Ho2)
      as (v2 & -> & Hs2 & _).
    cbn [fst snd]. by rewrite Hs1, Hs2.
  - cbn. by rewrite !lookup_insert_eq.
Qed.

End runs.


(** * Properties of the output directory *)

(** C10.  In both pandas-based scripts the output directory is emptied and
    recreated before the input directory is looked at: a run that finds no
    [results] directory prints its message and ends, and leaves the output
    directory empty, whatever it held before. *)
Theorem C10_missing_input_destroys_plots w :
  Sys.results_dir w = None →
  (New.main w = (Ok tt, Sys.log (Sys.Msg "Directory not found: results")
                                (with_outdir New.plots_dir ∅ w)) ∧
   files_after New.plots_dir New.main w = Some ∅) ∧
  (Old.main w = (Ok tt, Sys.log (Sys.Msg "Directory not found: results")
                                (with_outdir Old.plots_dir ∅ w)) ∧
   files_after Old.plots_dir Old.main w = Some ∅).
Proof.
  intros H. unfold files_after. rewrite new_main_shape, old_main_shape, H. cbn.
  by rewrite !lookup_insert_eq.
Qed.

Lemma C10_witness :
  Sys.results_dir (Ex.world None "plots") = None ∧
  Sys.outdirs (Ex.world None "plots") !! "plots" = Some {[ "old.png" ]} ∧
  files_after Old.plots_dir Old.main (Ex.world None "plots") = Some ∅ ∧
  files_after New.plots_dir New.main (Ex.world None "new_plots") = Some ∅.
Proof.
  split; [reflexivity|]. split; [vm_compute; reflexivity|].
  split.
  - apply (C10_missing_input_destroys_plots (Ex.world None "plots")). reflexivity.
  - apply (C10_missing_input_destroys_plots (Ex.world None "new_plots")). reflexivity.
Defined.

(** C6, as stated, fails for plot.py: its only statement about the output
    directory creates it when it is missing; a file of an earlier run is
    still there afterwards. *)
Lemma C6_counterexample :
  Sys.outdirs (Ex.world (Some []) "plots") !! Plot.PLOTS_DIR = Some {[ "old.png" ]} ∧
  Plot.prepare_output (Ex.world (Some []) "plots")
  = (Ok tt, Ex.world (Some []) "plots").
Proof. split; vm_compute; reflexivity. Qed.

(** C6, amended.  In the two pandas-based scripts the first step of a run
    leaves the output directory in place and empty, whatever it held, and
    the files it holds when the run has ended are those of a run started
    without any output directory: no file of an earlier run survives.
    plot.py leaves an existing output directory as it is. *)
Theorem C6_output_directory_reset w :
  (New.prepare_output w = (Ok tt, with_outdir New.plots_dir ∅ w) ∧
   files_after New.plots_dir New.prepare_output w = Some ∅ ∧
   files_after New.plots_dir New.main w
   = files_after New.plots_dir New.main (without_outdir New.plots_dir w)) ∧
  (Old.prepare_output w = (Ok tt, with_outdir Old.plots_dir ∅ w) ∧
   files_after Old.plots_dir Old.prepare_output w = Some ∅ ∧
   files_after Old.plots_dir Old.main w
   = files_after Old.plots_dir Old.main (without_outdir Old.plots_dir w)) ∧
  (is_Some (Sys.outdirs w !! Plot.PLOTS_DIR) → Plot.prepare_output w = (Ok tt, w)).
Proof.
  unfold files_after. rewrite new_prepare_output_eq, old_prepare_output_eq.
  repeat split.
  - cbn. by rewrite lookup_insert_eq.
  - by apply new_main_same_input.
  - cbn. by rewrite lookup_insert_eq.
  - by apply old_main_same_input.
  - intros [s Hs]. unfold Plot.prepare_output, Sys.makedirs. rewrite Hs.
    by destruct w.
Qed.

(** When the run reaches the charts, the output directory ends up with
    the files named after the grouping keys of the cleaned dataset. *)
Lemma new_main_files w entries all w' df :
  Sys.results_dir w = Some entries →
  New.collect entries.*1 (with_outdir New.plots_dir ∅ w) = (Ok all, w') →
  all ≠ [] → clean all = Ok df →
  fst (New.main w) = Ok tt ∧
  files_after New.plots_dir New.main w = Some (chart_names df).
Proof.
  intros Hr Hc Hne Hd. unfold files_after. rewrite new_main_shape. cbn zeta.
  rewrite Hr, Hc. destruct all as [|r all]; [done|]. rewrite Hd.
  assert (all_numeric df) as Hnum.
  { intros r' c. apply clean_inv in Hd as [_ ->]. apply cleaned_rows_numeric. }
  destruct (new_collect_frame entries.*1 (with_outdir New.plots_dir ∅ w)) as [[_ Hp] _].
  rewrite Hc in Hp. cbn [snd] in Hp.
  destruct (new_render_writes df Hnum
              (Sys.log (Sys.Table df)
                 (Sys.log (Sys.Msg "Collected and Processed Data:") w')) ∅)
    as (w2 & -> & Hs & _).
  { cbn. rewrite Hp. cbn. by rewrite lookup_insert_eq. }
  cbn [fst snd]. by rewrite Hs, (right_id_L ∅ (∪)).
Qed.

Lemma old_main_files w entries all w' df :
  Sys.results_dir w = Some entries →
  Old.collect entries.*1 (with_outdir Old.plots_dir ∅ w) = (Ok all, w') →
  all ≠ [] → clean all = Ok df →
  fst (Old.main w) = Ok tt ∧
  files_after Old.plots_dir Old.main w = Some (chart_names df).
Proof.
  intros Hr Hc Hne Hd. unfold files_after. rewrite old_main_shape. cbn zeta.
  rewrite Hr, Hc. destruct all as [|r all]; [done|]. rewrite Hd.
  assert (all_numeric df) as Hnum.
  { intros r' c. apply clean_inv in Hd as [_ ->]. apply cleaned_rows_numeric. }
  destruct (old_collect_frame entries.*1 (with_outdir Old.plots_dir ∅ w)) as [[_ Hp] _].
  rewrite Hc in Hp. cbn [snd] in Hp.
  destruct (old_render_writes df Hnum
              (Sys.log (Sys.Table df)
                 (Sys.log (Sys.Msg "Collected and Processed Data:") w')) ∅)
    as (w2 & -> & Hs & _).
  { cbn. rewrite Hp. cbn. by rewrite lookup_insert_eq. }
  cbn [fst snd]. by rewrite Hs, (right_id_L ∅ (∪)).
Qed.

(** C8.  Two runs on the same [results] directory have the same outcome
    and leave the same set of files in the output directory, whatever the
    output directory held before; in particular a second run, started where
    the first one ended, leaves the files of the first.  The files are those
    named after the dataset sizes and the (dataset size, table size) pairs
    of the cleaned dataset. *)
Theorem C8_same_input_same_files w1 w2 :
  Sys.results_dir w1 = Sys.results_dir w2 →
  (fst (New.main w1) = fst (New.main w2) ∧
   files_after New.plots_dir New.main w1 = files_after New.plots_dir New.main w2 ∧
   files_after New.plots_dir New.main (snd (New.main w1))
   = files_after New.plots_dir New.main w1 ∧
   ∀ entries all w' df,
     Sys.results_dir w1 = Some entries →
     New.collect entries.*1 (with_outdir New.plots_dir ∅ w1) = (Ok all, w') →
     all ≠ [] → clean all = Ok df →
     files_after New.plots_dir New.main w1 = Some (chart_names df)) ∧
  (fst (Old.main w1) = fst (Old.main w2) ∧
   files_after Old.plots_dir Old.main w1 = files_after Old.plots_dir Old.main w2 ∧
   files_after Old.plots_dir Old.main (snd (Old.main w1))
   = files_after Old.plots_dir Old.main w1 ∧
   ∀ entries all w' df,
     Sys.results_dir w1 = Some entries →
     Old.collect entries.*1 (with_outdir Old.plots_dir ∅ w1) = (Ok all, w') →
     all ≠ [] → clean all = Ok df →
     files_after Old.plots_dir Old.main w1 = Some (chart_names df)).
Proof.
  intros H. unfold files_after. split.
  - destruct (new_main_same_input w1 w2 H) as [H1 H2].
    destruct (new_main_frame w1) as [Hr _].
    destruct (new_main_same_input (snd (New.main w1)) w1 Hr) as [_ H3].
    repeat split; try done.
    intros entries all w' df Hr' Hc Hne Hd.
    by destruct (new_main_files w1 entries all w' df).
  - destruct (old_main_same_input w1 w2 H) as [H1 H2].
    destruct (old_main_frame w1) as [Hr _].
    destruct (old_main_same_input (snd (Old.main w1)) w1 Hr) as [_ H3].
    repeat split; try done.
    intros entries all w' df Hr' Hc Hne Hd.
    by destruct (old_main_files w1 entries all w' df).
Qed.

Lemma C8_witness :
  let w1 := Ex.world (Some Ex.two_files) "plots" in
  let w2 := Ex.fresh_world (Some Ex.two_files) in
  Sys.results_dir w1 = Sys.results_dir w2 ∧
  files_after Old.plots_dir Old.main w1 = Some Ex.two_files_charts ∧
  files_after Old.plots_dir Old.main w2 = files_after Old.plots_dir Old.main w1 ∧
  files_after Old.plots_dir Old.main (snd (Old.main w1))
  = files_after Old.plots_dir Old.main w1 ∧
  files_after New.plots_dir New.main w1 = files_after New.plots_dir New.main w2.
Proof.
  intros w1 w2.
  assert (Sys.results_dir w1 = Sys.results_dir w2) as H by reflexivity.
  destruct (C8_same_input_same_files w1 w2 H) as [(_ & HN & _) (_ & HO & HO' & _)].
  split; [exact H|]. split; [vm_compute; reflexivity|].
  split; [exact (eq_sym HO)|]. split; [exact HO'|exact HN].
Defined.


(** * Properties of the error handling *)

(** The older loop completes for every listing, and only prints. *)
Lemma old_collect_total names w :
  ∃ all w', Old.collect names w = (Ok all, w') ∧ printed w w'.
Proof.
  revert w. induction names as [|n names IH]; intros w.
  - exists [], w. split; [done|apply printed_refl].
  - cbn [Old.collect]. rewrite io_bind_eq.
    destruct (old_visit_frame n w) as [Hp _]. revert Hp.
    rewrite old_visit_shape.
    destruct (old_parse_filename_total n) as [d ->].
    destruct (_ && _); cbn [snd].
    + intros Hp. rewrite io_bind_eq.
      destruct (IH (match fst (Old.attempt (Sys.path_join "results" n) w) with
                    | Ok _ => w
                    | Raise e => Sys.log (Sys.ErrorReading (Sys.path_join "results" n) e) w
                    end)) as (all & w' & -> & Hp').
      rewrite io_ret_eq. eauto using printed_trans.
    + intros Hp. rewrite io_bind_eq. destruct (IH w) as (all & w' & -> & Hp').
      rewrite io_ret_eq. eauto.
Qed.

(** The newer loop collects nothing; it completes unless the parser
    raises. *)
Lemma new_collect_nil names w all w' :
  New.collect names w = (Ok all, w') → all = [].
Proof.
  revert w all. induction names as [|n names IH]; intros w all.
  - cbn. by intros [= <- _].
  - intros (found & w1 & more & Hv & Hc & ->)%new_collect_cons.
    rewrite (IH _ _ Hc). rewrite new_visit_shape in Hv.
    destruct (_ && _); [|by injection Hv as <- _].
    destruct (New.parse_filename n) as [params|e]; [|done].
    destruct (new_attempt_empty (Sys.path_join "results" n) w) as [r Hr].
    rewrite Hr in Hv. cbn [fst snd] in Hv.
    replace (truthy params && truthy ∅) with false in Hv
      by (by rewrite andb_comm).
    by injection Hv as <- _.
Qed.

Lemma new_collect_total names w :
  (∀ n, n ∈ names → ∃ d, New.parse_filename n = Ok d) →
  ∃ w', New.collect names w = (Ok [], w') ∧ printed w w'.
Proof.
  revert w. induction names as [|n names IH]; intros w Hall.
  - exists w. split; [done|apply printed_refl].
  - destruct (Hall n) as [d Hd]; [by left|].
    assert (∃ found w1, New.visit n w = (Ok found, w1)) as (found & w1 & Hv).
    { rewrite new_visit_shape, Hd. destruct (_ && _); eauto. }
    destruct (new_visit_frame n w) as [Hp _]. rewrite Hv in Hp. cbn [snd] in Hp.
    destruct (IH w1) as (w' & Hc & Hp'); [intros m Hm; apply Hall; by right|].
    assert (New.collect (n :: names) w = (Ok (found ++ []), w')) as H.
    { cbn [New.collect]. by rewrite io_bind_eq, Hv, io_bind_eq, Hc. }
    pose proof (new_collect_nil _ _ _ _ H) as Hnil. rewrite Hnil in H.
    eauto using printed_trans.
Qed.

(** Since the newer reader stores nothing, the newer script never gets to
    its charts: whatever the input, the output directory is empty when the
    run has ended. *)
Lemma new_main_no_charts w : files_after New.plots_dir New.main w = Some ∅.
Proof.
  unfold files_after. rewrite new_main_shape. cbn zeta.
  destruct (Sys.results_dir w) as [entries|]; [|cbn; by rewrite lookup_insert_eq].
  destruct (new_collect_frame entries.*1 (with_outdir New.plots_dir ∅ w)) as [[_ Hp] _].
  destruct (New.collect _ _) as [[all|e] w'] eqn:Hc; cbn [snd] in *.
  - rewrite (new_collect_nil _ _ _ _ Hc). cbn. rewrite Hp. cbn.
    by rewrite lookup_insert_eq.
  - rewrite Hp. cbn. by rewrite lookup_insert_eq.
Qed.

(** C5, as stated, fails for the older reader: when the second line of a
    file cannot be converted, the reader prints the diagnostic and returns
    the execution time of the first line, which is not what it returns for
    a file without data (the empty mapping). *)
Lemma C5_counterexample :
  let w := Ex.world (Some Ex.broken_files) "plots" in
  let filepath := Sys.path_join "results" Ex.old_name in
  Old.attempt filepath w = (Raise ValueError, {[ "ExecutionTime_ms" := VInt 5 ]}) ∧
  Old.read_result_file filepath w
  = (Ok {[ "ExecutionTime_ms" := VInt 5 ]},
     Sys.log (Sys.ErrorReading filepath ValueError) w) ∧
  Old.read_result_file filepath
    (Ex.world (Some [(Ex.old_name, Sys.Text EmptyString)]) "plots")
  = (Ok ∅, Ex.world (Some [(Ex.old_name, Sys.Text EmptyString)]) "plots") ∧
  ({[ "ExecutionTime_ms" := VInt 5 ]} : dict) ≠ ∅.
Proof. repeat split; try (vm_compute; reflexivity). vm_compute. discriminate. Qed.

(** C5, amended.  When reading or parsing a result file raises, the reader
    catches the exception, prints the diagnostic and returns what it had
    stored until then.  The older script processes the file line by line
    while it reads it: it returns nothing when the file could not be
    opened, the measurements of the lines delivered so far when reading
    fails on the way, and those of the earlier lines when a line cannot be
    converted.  The newer script returns nothing.  The readers never raise,
    so the loop over the files goes on: the older loop completes for every
    listing, the newer one for every listing whose names the parser
    accepts. *)
Theorem C5_reader_catches filepath w :
  (∀ e data, Old.attempt filepath w = (Raise e, data) →
     Old.read_result_file filepath w
     = (Ok data, Sys.log (Sys.ErrorReading filepath e) w)) ∧
  (∀ e, fst (Sys.read_lines filepath w) = Raise e →
     Old.read_result_file filepath w
     = (Ok ∅, Sys.log (Sys.ErrorReading filepath e) w)) ∧
  (∀ lines e, fst (Sys.read_lines filepath w) = Ok (lines, Some e) →
     ∃ e', Old.read_result_file filepath w
           = (Ok (snd (Old.fill lines ∅)), Sys.log (Sys.ErrorReading filepath e') w) ∧
           (fst (Old.fill lines ∅) = Ok tt → e' = e)) ∧
  (∀ e data, New.attempt filepath w = (Raise e, data) →
     New.read_result_file filepath w
     = (Ok ∅, Sys.log (Sys.ErrorReading filepath e) w)) ∧
  (∀ names, ∃ all w', Old.collect names w = (Ok all, w') ∧ printed w w') ∧
  (∀ names, (∀ n, n ∈ names → ∃ d, New.parse_filename n = Ok d) →
     ∃ w', New.collect names w = (Ok [], w') ∧ printed w w').
Proof.
  split; [|split; [|split; [|split; [|split]]]].
  - intros e data H. by rewrite old_read_result_file_shape, H.
  - intros e H. rewrite old_read_result_file_shape. unfold Old.attempt.
    destruct (Sys.read_lines filepath w) as [[c|e'] w1]; cbn [fst] in H; [done|].
    by injection H as ->.
  - intros lines e H. rewrite old_read_result_file_shape. unfold Old.attempt.
    destruct (Sys.read_lines filepath w) as [[c|e'] w1]; cbn [fst] in H; [|done].
    injection H as ->.
    destruct (Old.fill lines ∅) as [[[]|e1] d]; cbn [fst snd].
    + by exists e.
    + exists e1. by split.
  - intros e data H. rewrite new_read_result_file_shape, H. cbn [fst snd].
    destruct (new_attempt_empty filepath w) as [r Hr]. rewrite H in Hr.
    by injection Hr as _ ->.
  - intros names. apply old_collect_total.
  - intros names. apply new_collect_total.
Qed.

Lemma C5_witness :
  let w := Ex.world (Some Ex.broken_files) "plots" in
  let first := Sys.path_join "results" Ex.old_name in
  let second := Sys.path_join "results" Ex.old_name_16 in
  let w' := Ex.world (Some Ex.cut_files) "plots" in
  let third := Sys.path_join "results" Ex.cut_name in
  Old.attempt first w = (Raise ValueError, {[ "ExecutionTime_ms" := VInt 5 ]}) ∧
  fst (Sys.read_lines second w) = Raise OSError ∧
  fst (Sys.read_lines third w')
  = Ok (["ExecutionTime: 5 ms" +:+ Ex.nl], Some ValueError) ∧
  New.attempt second w = (Raise OSError, ∅) ∧
  Old.read_result_file first w
  = (Ok {[ "ExecutionTime_ms" := VInt 5 ]},
     Sys.log (Sys.ErrorReading first ValueError) w) ∧
  Old.read_result_file second w
  = (Ok ∅, Sys.log (Sys.ErrorReading second OSError) w) ∧
  Old.read_result_file third w'
  = (Ok {[ "ExecutionTime_ms" := VInt 5 ]},
     Sys.log (Sys.ErrorReading third ValueError) w') ∧
  New.read_result_file second w
  = (Ok ∅, Sys.log (Sys.ErrorReading second OSError) w).
Proof.
  intros w first second w' third.
  assert (Old.attempt first w
          = (Raise ValueError, {[ "ExecutionTime_ms" := VInt 5 ]})) as H1
    by (vm_compute; reflexivity).
  assert (fst (Sys.read_lines second w) = Raise OSError) as H2
    by (vm_compute; reflexivity).
  assert (fst (Sys.read_lines third w')
          = Ok (["ExecutionTime: 5 ms" +:+ Ex.nl], Some ValueError)) as H3
    by (vm_compute; reflexivity).
  assert (New.attempt second w = (Raise OSError, ∅)) as H4
    by (vm_compute; reflexivity).
  assert (Old.fill ["ExecutionTime: 5 ms" +:+ Ex.nl] ∅
          = (Ok tt, {[ "ExecutionTime_ms" := VInt 5 ]})) as H5
    by (vm_compute; reflexivity).
  destruct (C5_reader_catches first w) as (Ha & _).
  destruct (C5_reader_catches second w) as (_ & Hb & _ & Hd & _).
  destruct (C5_reader_catches third w') as (_ & _ & Hc & _).
  destruct (Hc _ _ H3) as (e' & Hread & He').
  rewrite H5 in Hread, He'. cbn [fst snd] in Hread, He'.
  rewrite (He' eq_refl) in Hread.
  split; [exact H1|]. split; [exact H2|]. split; [exact H3|]. split; [exact H4|].
  split; [exact (Ha _ _ H1)|]. split; [exact (Hb _ H2)|].
  split; [exact Hread|exact (Hd _ _ H4)].
Defined.

(** C3, as stated, fails with the [results] directory in place.  In the
    older script a well-named file without a collision marker ends the run
    with a [KeyError]; in the newer script a name the pattern matches whose
    dataset token is no number ends it with a [ValueError]. *)
Lemma C3_counterexample :
  fst (Old.main (Ex.world (Some [(Ex.old_name, Sys.Text Ex.three_markers)]) "plots"))
  = Raise (KeyError "NumberOfHandledCollision") ∧
  fst (New.main (Ex.world (Some [(Ex.bad_token_name,
                                  Sys.Text (Ex.both_markers "1" "2"))]) "new_plots"))
  = Raise ValueError.
Proof. split; vm_compute; reflexivity. Qed.

(** C3, amended.  Without a [results] directory the run prints its message
    and ends normally.  With one, failures while reading a file never end
    the run: the loop of the older script completes for every listing, and
    the run completes when no record was collected or the records supply
    each of the five columns; the run of the newer script completes when
    the parser accepts every listed name. *)
Theorem C3_run_completes w :
  (Sys.results_dir w = None →
   fst (Old.main w) = Ok tt ∧ fst (New.main w) = Ok tt) ∧
  (∀ entries, Sys.results_dir w = Some entries →
     (∃ all w', Old.collect entries.*1 (with_outdir Old.plots_dir ∅ w) = (Ok all, w') ∧
        (all = [] ∨ Forall (supplied all) numeric_cols → fst (Old.main w) = Ok tt)) ∧
     ((∀ n, n ∈ entries.*1 → ∃ d, New.parse_filename n = Ok d) →
      fst (New.main w) = Ok tt)).
Proof.
  split.
  - intros H. by rewrite old_main_shape, new_main_shape, H.
  - intros entries Hr. split.
    + destruct (old_collect_total entries.*1 (with_outdir Old.plots_dir ∅ w))
        as (all & w' & Hc & _).
      exists all, w'. split; [done|]. intros Hall.
      destruct all as [|r all].
      * by rewrite old_main_shape; cbn zeta; rewrite Hr, Hc.
      * destruct Hall as [?|Hall]; [done|].
        by destruct (old_main_files w entries (r :: all) w' _ Hr Hc
                       ltac:(done) (clean_ok _ Hall)).
    + intros Hall.
      destruct (new_collect_total entries.*1 (with_outdir New.plots_dir ∅ w) Hall)
        as (w' & Hc & _).
      by rewrite new_main_shape; cbn zeta; rewrite Hr, Hc.
Qed.

Lemma C3_witness :
  let w := Ex.world (Some Ex.two_files) "plots" in
  Sys.results_dir w = Some Ex.two_files ∧
  Old.collect Ex.two_files.*1 (with_outdir Old.plots_dir ∅ w)
  = (Ok Ex.records, with_outdir Old.plots_dir ∅ w) ∧
  Forall (supplied Ex.records) numeric_cols ∧
  (∀ n, n ∈ Ex.two_files.*1 → ∃ d, New.parse_filename n = Ok d) ∧
  fst (Old.main w) = Ok tt ∧ fst (New.main w) = Ok tt.
Proof.
  intros w.
  assert (Sys.results_dir w = Some Ex.two_files) as Hr by reflexivity.
  assert (Old.collect Ex.two_files.*1 (with_outdir Old.plots_dir ∅ w)
          = (Ok Ex.records, with_outdir Old.plots_dir ∅ w)) as Hc
    by (vm_compute; reflexivity).
  assert (Forall (supplied Ex.records) numeric_cols) as Hs.
  { repeat constructor; exists Ex.complete_record; (split; [by left|]);
      vm_compute; eauto. }
  assert (∀ n, n ∈ Ex.two_files.*1 → ∃ d, New.parse_filename n = Ok d) as Hn.
  { intros n Hin. cbn in Hin. rewrite !elem_of_cons, elem_of_nil in Hin.
    destruct Hin as [->|[->|[]]]; exists ∅; vm_compute; reflexivity. }
  destruct (C3_run_completes w) as [_ H]. destruct (H _ Hr) as [Hold Hnew].
  destruct Hold as (all & w' & Hc' & Hmain). rewrite Hc in Hc'.
  injection Hc' as <- <-.
  split; [exact Hr|]. split; [exact Hc|]. split; [exact Hs|]. split; [exact Hn|].
  split; [exact (Hmain (or_intror Hs))|exact (Hnew Hn)].
Defined.


(** * Properties of the colour scale *)

Section gradient.
Import Gradient.
Local Open Scope Qc_scope.

Lemma minimum_le t ts : (minimum t ts ≤ t)%Z.
Proof.
  unfold minimum. revert t. induction ts as [|x ts IH]; intros t; cbn; [lia|].
  specialize (IH (Z.min t x)). lia.
Qed.

Lemma maximum_ge t ts : (t ≤ maximum t ts)%Z.
Proof.
  unfold maximum. revert t. induction ts as [|x ts IH]; intros t; cbn; [lia|].
  specialize (IH (Z.max t x)). lia.
Qed.

Lemma qmax_ge v vs : v ≤ foldl qmax v vs.
Proof.
  revert v. induction vs as [|x vs IH]; intros v; cbn; [done|].
  etrans; [|apply IH]. unfold qmax. destruct (decide (v < x)); [|done].
  by apply Qclt_le_weak.
Qed.

Lemma Qcdiv_0_l x : 0 / x = 0.
Proof. unfold Qcdiv. apply Qcmult_0_l. Qed.

Lemma Qcminus_diag x : x - x = 0.
Proof. unfold Qcminus. apply Qcplus_opp_r. Qed.

Lemma Qcdiv_diag x : x ≠ 0 → x / x = 1.
Proof. intros H. unfold Qcdiv. by apply Qcmult_inv_r. Qed.

Lemma Qcminus_0_r x : x - 0 = x.
Proof. unfold Qcminus. change (- 0) with 0. apply Qcplus_0_r. Qed.

(** The positions on a scale whose ends are in order. *)
Lemma normalize_all_ok lo hi l :
  ¬ hi < lo →
  normalize_all lo hi l
  = Ok ((λ x, if decide (lo = hi) then 0 else (x - lo) / (hi - lo)) <$> l).
Proof.
  intros Hle. induction l as [|x l IH]; [done|].
  cbn [normalize_all fmap list_fmap]. rewrite IH. unfold normalize.
  destruct (decide (lo = hi)); [done|]. by rewrite decide_False.
Qed.

(** The largest value is one of the values. *)
Lemma qmax_attained v vs : foldl qmax v vs ∈ v :: vs.
Proof.
  revert v. induction vs as [|x vs IH]; intros v; cbn [foldl]; [by left|].
  specialize (IH (qmax v x)). apply elem_of_cons in IH as [->|IH].
  - unfold qmax. destruct (decide (v < x)); [right; by left|by left].
  - right. by right.
Qed.

Lemma Qcdiv_zero x y : 0 < y → x / y = 0 → x = 0.
Proof.
  intros Hy H. unfold Qcdiv in H. apply Qcmult_integral in H as [H|H]; [done|].
  apply Qcinv_pos in Hy. rewrite H in Hy. by apply Qclt_not_eq in Hy.
Qed.

End gradient.

(** C9, as stated, fails at both places it cites.  In plot.py the scale
    starts at 0: of two bars of 100 and 200 the smaller one sits in the
    middle of the gradient, not at its low end.  In the pandas-based scripts
    a group with a single execution time has a scale with equal ends, and
    its bar, which is the group's largest, is put at the low end. *)
Lemma C9_counterexample :
  Gradient.plot_bar_positions [Qc_of_Z 100; Qc_of_Z 200] = Ok [(1 / 2)%Qc; 1%Qc] ∧
  (1 / 2)%Qc ≠ 0%Qc ∧
  Gradient.new_bar_positions [100] = Ok [0%Qc] ∧
  0%Qc ≠ 1%Qc.
Proof.
  split; [|split; [|split]].
  - vm_compute. f_equal.
    apply (f_equal2 cons); [by apply Qc_is_canon|].
    apply (f_equal2 cons); [by apply Qc_is_canon|done].
  - by intros [=].
  - vm_compute. reflexivity.
  - by intros [=].
Qed.

(** C9, amended.  In the pandas-based scripts the scale of a group runs
    from its smallest to its largest execution time: a bar with the
    smallest time is at the low end of the gradient and, when the group has
    two different times, a bar with the largest time is at its high end;
    when all times of the group are equal every bar is at the low end.
    In plot.py the scale runs from 0 to the largest value [top], which is
    the value of one of the bars.  When [top] is positive a bar of value
    [x] is at [x / top]: the largest bar is at the high end, and a bar is
    at the low end only when its value is 0.  When [top] is 0 every bar,
    the largest included, is at the low end.  When [top] is negative the
    scale is refused with a [ValueError]. *)
Theorem C9_gradient_scale t ts v vs :
  let times := t :: ts in
  let lo := Gradient.minimum t ts in
  let hi := Gradient.maximum t ts in
  let top := foldl Gradient.qmax v vs in
  (∃ pos, Gradient.new_bar_positions times = Ok pos ∧
     length pos = length times ∧
     (∀ i, times !! i = Some lo → pos !! i = Some 0%Qc) ∧
     ((lo < hi)%Z → ∀ i, times !! i = Some hi → pos !! i = Some 1%Qc) ∧
     (lo = hi → ∀ i x, pos !! i = Some x → x = 0%Qc)) ∧
  top ∈ v :: vs ∧
  ((0 < top)%Qc →
   ∃ pos, Gradient.plot_bar_positions (v :: vs) = Ok pos ∧
     (∀ i x, (v :: vs) !! i = Some x → pos !! i = Some (x / top)%Qc) ∧
     (∀ i, (v :: vs) !! i = Some top → pos !! i = Some 1%Qc) ∧
     (∀ i x, (v :: vs) !! i = Some x → pos !! i = Some 0%Qc → x = 0%Qc)) ∧
  (top = 0%Qc →
   ∃ pos, Gradient.plot_bar_positions (v :: vs) = Ok pos ∧
     length pos = length (v :: vs) ∧
     (∀ i x, pos !! i = Some x → x = 0%Qc)) ∧
  ((top < 0)%Qc → Gradient.plot_bar_positions (v :: vs) = Raise ValueError).
Proof.
  intros times lo hi top. split; [|split; [|split; [|split]]].
  - assert (lo ≤ hi)%Z as Hle.
    { pose proof (minimum_le t ts). pose proof (maximum_ge t ts). unfold lo, hi. lia. }
    change (Gradient.new_bar_positions times)
      with (Gradient.normalize_all (Qc_of_Z lo) (Qc_of_Z hi) (Qc_of_Z <$> times)).
    rewrite normalize_all_ok by (rewrite <- Z2Qc_inj_lt; lia).
    eexists. split; [done|]. split; [by rewrite !length_fmap|].
    split; [|split].
    + intros i Hi. rewrite !list_lookup_fmap, Hi. cbn. f_equal.
      destruct (decide _); [done|]. by rewrite Qcminus_diag, Qcdiv_0_l.
    + intros Hlt i Hi. rewrite !list_lookup_fmap, Hi. cbn. f_equal.
      rewrite decide_False by (rewrite Z2Qc_inj_iff; lia).
      apply Qcdiv_diag. rewrite <- Z2Qc_inj_sub, <- Z2Qc_inj_0, Z2Qc_inj_iff. lia.
    + intros Heq i x. rewrite !list_lookup_fmap.
      destruct (times !! i); cbn; [|done]. rewrite decide_True by by rewrite Heq.
      by intros [= <-].
  - apply qmax_attained.
  - intros Htop.
    change (Gradient.plot_bar_positions (v :: vs))
      with (Gradient.normalize_all 0%Qc top (v :: vs)).
    rewrite normalize_all_ok
      by (apply Qcle_not_lt; by apply Qclt_le_weak).
    assert (top ≠ 0%Qc) as Hne by (by apply not_symmetry, Qclt_not_eq).
    eexists. split; [done|].
    assert (∀ i x, (v :: vs) !! i = Some x →
              ((λ x0, if decide (0%Qc = top) then 0%Qc else ((x0 - 0) / (top - 0))%Qc)
                 <$> v :: vs) !! i = Some (x / top)%Qc) as Hpos.
    { intros i x Hi. rewrite list_lookup_fmap, Hi. cbn. f_equal.
      rewrite decide_False by done. by rewrite !Qcminus_0_r. }
    split; [done|]. split.
    + intros i Hi. rewrite (Hpos _ _ Hi). f_equal. by apply Qcdiv_diag.
    + intros i x Hi. rewrite (Hpos _ _ Hi). intros H0%(inj Some).
      by apply (Qcdiv_zero x top).
  - intros Htop.
    change (Gradient.plot_bar_positions (v :: vs))
      with (Gradient.normalize_all 0%Qc top (v :: vs)).
    rewrite normalize_all_ok by (rewrite Htop; apply Qcle_not_lt, Qcle_refl).
    eexists. split; [done|]. split; [by rewrite length_fmap|].
    intros i x. rewrite list_lookup_fmap.
    destruct ((v :: vs) !! i); cbn; [|done]. rewrite decide_True by done.
    by intros [= <-].
  - intros Hneg.
    change (Gradient.plot_bar_positions (v :: vs))
      with (Gradient.normalize_all 0%Qc top (v :: vs)).
    cbn [Gradient.normalize_all]. unfold Gradient.normalize at 1.
    rewrite decide_False by (by apply not_symmetry, Qclt_not_eq).
    by rewrite decide_True.
Qed.

Lemma C9_witness :
  (Gradient.minimum 100 [200; 150] < Gradient.maximum 100 [200; 150])%Z ∧
  (0 < foldl Gradient.qmax (Qc_of_Z 100) [Qc_of_Z 200])%Qc ∧
  foldl Gradient.qmax (Qc_of_Z 0) [Qc_of_Z 0] = 0%Qc ∧
  (foldl Gradient.qmax (Qc_of_Z (-5)) [Qc_of_Z (-7)] < 0)%Qc ∧
  (∃ pos, Gradient.new_bar_positions [100; 200; 150] = Ok pos ∧
          pos !! 0%nat = Some 0%Qc ∧ pos !! 1%nat = Some 1%Qc) ∧
  (∃ pos, Gradient.plot_bar_positions [Qc_of_Z 100; Qc_of_Z 200] = Ok pos ∧
          pos !! 1%nat = Some 1%Qc) ∧
  (∃ pos, Gradient.plot_bar_positions [Qc_of_Z 0; Qc_of_Z 0] = Ok pos ∧
          ∀ i x, pos !! i = Some x → x = 0%Qc) ∧
  Gradient.plot_bar_positions [Qc_of_Z (-5); Qc_of_Z (-7)] = Raise ValueError.
Proof.
  assert (Gradient.minimum 100 [200; 150] < Gradient.maximum 100 [200; 150])%Z as Hlt
    by (vm_compute; reflexivity).
  assert (0 < foldl Gradient.qmax (Qc_of_Z 100) [Qc_of_Z 200])%Qc as Htop
    by (vm_compute; reflexivity).
  assert (foldl Gradient.qmax (Qc_of_Z 0) [Qc_of_Z 0] = 0%Qc) as Hzero
    by (by apply Qc_is_canon).
  assert (foldl Gradient.qmax (Qc_of_Z (-5)) [Qc_of_Z (-7)] < 0)%Qc as Hneg
    by (vm_compute; reflexivity).
  destruct (C9_gradient_scale 100 [200; 150] (Qc_of_Z 100) [Qc_of_Z 200])
    as ((pos & Hpos & _ & Hlo & Hhi & _) & _ & Hplot & _).
  destruct (Hplot Htop) as (pos' & Hpos' & _ & Hmax & _).
  destruct (C9_gradient_scale 100 [] (Qc_of_Z 0) [Qc_of_Z 0]) as (_ & _ & _ & Hflat & _).
  destruct (Hflat Hzero) as (pos0 & Hpos0 & _ & Hall0).
  destruct (C9_gradient_scale 100 [] (Qc_of_Z (-5)) [Qc_of_Z (-7)])
    as (_ & _ & _ & _ & Hrefused).
  split; [exact Hlt|]. split; [exact Htop|]. split; [exact Hzero|].
  split; [exact Hneg|]. split; [|split; [|split]].
  - exists pos. split; [exact Hpos|]. split.
    + apply Hlo. reflexivity.
    + apply (Hhi Hlt). reflexivity.
  - exists pos'. split; [exact Hpos'|]. apply Hmax. vm_compute. reflexivity.
  - exists pos0. split; [exact Hpos0|exact Hall0].
  - exact (Hrefused Hneg).
Defined.


(** * Numbers and their decimal text *)

Section decimal.

Lemma string_of_uint_digits d : all_in Re.Digit (NilEmpty.string_of_uint d) = true.
Proof. induction d; cbn; auto. Qed.

Lemma string_of_uint_nonempty d :
  d ≠ Decimal.Nil → NilEmpty.string_of_uint d ≠ EmptyString.
Proof. by destruct d. Qed.

Lemma digits_from_acc d p :
  Py.digits_from true (Z.pos p) (NilEmpty.string_of_uint d)
  = Some (Z.pos (Pos.of_uint_acc d p)).
Proof.
  revert p. induction d as [|d IH|d IH|d IH|d IH|d IH|d IH|d IH|d IH|d IH|d IH];
    intros p; [done|cbn [NilEmpty.string_of_uint Py.digits_from Py.isdigit Pos.of_uint_acc]..];
    match goal with
    | |- Py.digits_from true ?a _ = Some (Z.pos (Pos.of_uint_acc _ ?q)) =>
        replace a with (Z.pos q) by (unfold Py.digit_val; cbn; lia)
    end; apply IH.
Qed.

Lemma digits_from_uint d :
  Py.digits_from true 0 (NilEmpty.string_of_uint d) = Some (Z.of_N (Pos.of_uint d)).
Proof.
  induction d as [|d IH|d IH|d IH|d IH|d IH|d IH|d IH|d IH|d IH|d IH];
    [done|exact IH|
     cbn [NilEmpty.string_of_uint Py.digits_from Py.isdigit Pos.of_uint Z.of_N]..];
    match goal with
    | |- Py.digits_from true ?a _ = Some (Z.pos (Pos.of_uint_acc _ ?q)) =>
        change a with (Z.pos q)
    end; apply digits_from_acc.
Qed.

Lemma digits_from_unseen p n :
  p ≠ EmptyString → all_in Re.Digit p = true →
  Py.digits_from true 0 p = Some n → Py.digits_from false 0 p = Some n.
Proof.
  destruct p as [|c r]; [done|]. intros _. cbn [all_in Re.cls_match].
  intros [Hc _]%andb_prop. cbn [Py.digits_from]. by rewrite Hc.
Qed.

(** [int] on a non-empty run of digits is its decimal value. *)
Lemma int_digits_value p n :
  p ≠ EmptyString → all_in Re.Digit p = true →
  Py.digits_from false 0 p = Some n → Py.int p = Ok n.
Proof.
  intros Hne Hall Hn. unfold Py.int.
  destruct p as [|c r]; [done|].
  pose proof Hall as Hall'. cbn [all_in Re.cls_match] in Hall'.
  apply andb_prop in Hall' as [Hc Hr].
  destruct (isdigit_facts c Hc) as (Hsp & Hm & Hp).
  cbn [Py.lskip]. rewrite (isdigit_not_skipped c Hc), (rskip_digits _ Hall).
  assert ((match String c r with
           | String "-" r0 => (true, r0)
           | String "+" r0 => (false, r0)
           | _ => (false, String c r)
           end) = (false, String c r)) as ->.
  { clear -Hc. by destruct c as [[] [] [] [] [] [] [] []]. }
  by rewrite Hn.
Qed.

Lemma str_nonneg n :
  0 ≤ n → Py.str n ≠ EmptyString ∧ all_in Re.Digit (Py.str n) = true ∧
          Py.digits_from false 0 (Py.str n) = Some n.
Proof.
  intros Hn. destruct n as [|p|p]; [by repeat split| |lia].
  unfold Py.str. cbn [Z.to_int NilZero.string_of_int].
  pose proof (Unsigned.to_uint_nonnil p) as Hnil.
  assert (NilZero.string_of_uint (Pos.to_uint p)
          = NilEmpty.string_of_uint (Pos.to_uint p)) as ->
    by by destruct (Pos.to_uint p).
  split; [by apply string_of_uint_nonempty|].
  split; [apply string_of_uint_digits|].
  apply digits_from_unseen;
    [by apply string_of_uint_nonempty|apply string_of_uint_digits|].
  by rewrite digits_from_uint, Unsigned.of_to.
Qed.

(** [int(str(n)) = n] for a number that is not negative. *)
Lemma int_str n : 0 ≤ n → Py.int (Py.str n) = Ok n.
Proof.
  intros Hn. destruct (str_nonneg n Hn) as (Hne & Hall & Hval).
  by apply int_digits_value.
Qed.

End decimal.


(** * Text built by concatenation *)

Section strings.

Lemma app_assoc_s (s t u : string) : (s +:+ t) +:+ u = s +:+ (t +:+ u).
Proof. induction s as [|c s IH]; [done|]. by rewrite !app_cons, IH. Qed.

Lemma app_nil_r_s (s : string) : s +:+ EmptyString = s.
Proof. induction s as [|c s IH]; [done|]. by rewrite app_cons, IH. Qed.

Lemma has_char_app c s t : has_char c (s +:+ t) = has_char c s || has_char c t.
Proof.
  induction s as [|a s IH]; [done|]. rewrite app_cons. cbn [has_char].
  by rewrite IH, orb_assoc.
Qed.

Lemma count_char_app c s t :
  count_char c (s +:+ t) = (count_char c s + count_char c t)%nat.
Proof.
  induction s as [|a s IH]; [done|]. rewrite app_cons. cbn [count_char].
  rewrite IH. lia.
Qed.

Lemma digits_has_char c p :
  all_in Re.Digit p = true → Py.isdigit c = false → has_char c p = false.
Proof.
  intros Hp Hc. induction p as [|a p IH]; [done|].
  cbn [all_in Re.cls_match] in Hp. apply andb_prop in Hp as [Ha Hp].
  cbn [has_char]. rewrite (IH Hp), orb_false_r.
  destruct (Ascii.eqb_spec a c) as [->|]; [congruence|done].
Qed.

Lemma digits_count_char c p :
  all_in Re.Digit p = true → Py.isdigit c = false → count_char c p = 0%nat.
Proof.
  intros Hp Hc. induction p as [|a p IH]; [done|].
  cbn [all_in Re.cls_match] in Hp. apply andb_prop in Hp as [Ha Hp].
  cbn [count_char]. rewrite (IH Hp).
  destruct (Ascii.eqb_spec a c) as [->|]; [congruence|done].
Qed.

Lemma digits_no_space p : all_in Re.Digit p = true → no_space p = true.
Proof.
  induction p as [|a p IH]; [done|]. cbn [all_in Re.cls_match no_space].
  intros [Ha Hp]%andb_prop. destruct (isdigit_facts a Ha) as [-> _]. by apply IH.
Qed.

Lemma startswith_app p rest : Py.startswith (p +:+ rest) p = true.
Proof.
  induction p as [|c p IH]; [by destruct rest|]. rewrite app_cons. cbn.
  by rewrite Ascii.eqb_refl, IH.
Qed.

Lemma contains_prefix p rest : Py.contains (p +:+ rest) p = true.
Proof.
  destruct (p +:+ rest) eqn:E; cbn [Py.contains]; rewrite <- E;
    by rewrite startswith_app.
Qed.

Lemma endswith_app s p : Py.endswith (s +:+ p) p = true.
Proof.
  induction s as [|c s IH].
  - rewrite app_nil. destruct p; cbn [Py.endswith]; by rewrite String.eqb_refl.
  - rewrite app_cons. cbn [Py.endswith]. rewrite IH. apply orb_true_r.
Qed.

(** [sub in s] for a one-character [sub]. *)
Lemma contains_char s c :
  Py.contains s (String c EmptyString) = has_char c s.
Proof.
  induction s as [|a s IH]; [done|]. cbn [Py.contains Py.startswith has_char].
  rewrite IH. by destruct s; rewrite Ascii.eqb_sym, andb_true_r.
Qed.

(** Replacing a character that occurs only at the very end. *)
Lemma replace_last_char p c :
  has_char c p = false →
  Py.replace (p +:+ String c EmptyString) (String c EmptyString) EmptyString = p.
Proof.
  unfold Py.replace. induction p as [|a p IH]; intros Hp.
  - rewrite app_nil. cbn. by rewrite Ascii.eqb_refl.
  - cbn [has_char] in Hp. apply orb_false_elim in Hp as [Ha Hp].
    rewrite app_cons. cbn [Py.replace_from Py.startswith].
    rewrite Ascii.eqb_sym, Ha. cbn [andb]. by rewrite IH.
Qed.

(** Replacing in a text whose first part cannot start an occurrence. *)
Lemma replace_skip_prefix p t o old new :
  has_char o p = false →
  Py.replace (p +:+ t) (String o old) new = p +:+ Py.replace t (String o old) new.
Proof.
  unfold Py.replace. induction p as [|a p IH]; intros Hp; [done|].
  cbn [has_char] in Hp. apply orb_false_elim in Hp as [Ha Hp].
  rewrite !app_cons. cbn [Py.replace_from Py.startswith].
  rewrite Ascii.eqb_sym, Ha. cbn [andb]. by rewrite IH.
Qed.

Lemma upper_app s t : Py.upper (s +:+ t) = Py.upper s +:+ Py.upper t.
Proof. induction s as [|a s IH]; [done|]. rewrite app_cons. cbn. by rewrite IH. Qed.

Lemma upper_digits p : all_in Re.Digit p = true → Py.upper p = p.
Proof.
  induction p as [|a p IH]; [done|]. cbn [all_in Re.cls_match Py.upper].
  intros [Ha Hp]%andb_prop. rewrite (IH Hp). f_equal.
  clear -Ha. by destruct a as [[] [] [] [] [] [] [] []].
Qed.

Lemma lstrip_no_space c r : Py.isspace c = false → Py.lstrip (String c r) = String c r.
Proof. intros H. cbn. by rewrite H. Qed.

Lemma rstrip_no_space_app p t :
  no_space p = true → Py.rstrip (p +:+ t) = p +:+ Py.rstrip t.
Proof.
  induction p as [|c p IH]; [done|]. cbn [no_space].
  intros [Hc Hp]%andb_prop. apply negb_true_iff in Hc.
  rewrite !app_cons. cbn [Py.rstrip]. rewrite (IH Hp), Hc.
  by destruct (p +:+ Py.rstrip t).
Qed.

(** Splitting at the only separator. *)
Lemma split_no_sep s sep : has_char sep s = false → Py.split s sep = [s].
Proof.
  induction s as [|a s IH]; [done|]. cbn [has_char Py.split].
  intros [Ha Hs]%orb_false_elim. by rewrite Ha, (IH Hs).
Qed.

Lemma split_at_sep s t sep :
  has_char sep s = false →
  Py.split (s +:+ String sep t) sep = s :: Py.split t sep.
Proof.
  induction s as [|a s IH]; intros Hs.
  - rewrite app_nil. cbn. by rewrite Ascii.eqb_refl.
  - cbn [has_char] in Hs. apply orb_false_elim in Hs as [Ha Hs].
    rewrite app_cons. cbn [Py.split]. by rewrite Ha, (IH Hs).
Qed.

Lemma rskip_digits_app p t :
  all_in Re.Digit p = true → Py.rskip (p +:+ t) = p +:+ Py.rskip t.
Proof.
  induction p as [|c p IH]; [done|]. cbn [all_in Re.cls_match].
  intros [Hc Hp]%andb_prop.
  rewrite !app_cons. cbn [Py.rskip]. rewrite (IH Hp), (isdigit_not_skipped c Hc).
  by destruct (p +:+ Py.rskip t).
Qed.

(** [int] looks at the text between the white space only. *)
Lemma int_of_strip s p n :
  Py.rskip (Py.lskip s) = p → p ≠ EmptyString → all_in Re.Digit p = true →
  Py.digits_from false 0 p = Some n → Py.int s = Ok n.
Proof.
  intros Hs Hne Hall Hn. unfold Py.int. rewrite Hs.
  destruct p as [|c r]; [done|].
  cbn [all_in Re.cls_match] in Hall. apply andb_prop in Hall as [Hc Hr].
  assert ((match String c r with
           | String "-" r0 => (true, r0)
           | String "+" r0 => (false, r0)
           | _ => (false, String c r)
           end) = (false, String c r)) as ->.
  { clear -Hc. by destruct c as [[] [] [] [] [] [] [] []]. }
  by rewrite Hn.
Qed.

End strings.


(** * Matching a text of known shape *)

Section forward.
Import Re.

Lemma run_Many_cons k ns c r opened caps :
  run (Many k :: ns) (String c r) opened caps
  = if cls_match k c then
      match run (Many k :: ns) r opened caps with
      | Some m => Some m
      | None => run ns r opened caps
      end
    else None.
Proof. reflexivity. Qed.

Lemma run_Many_nil k ns opened caps :
  run (Many k :: ns) EmptyString opened caps = None.
Proof. reflexivity. Qed.

Lemma search_cons ns c s :
  search ns (String c s)
  = match match_ ns (String c s) with
    | Some g => Some g
    | None => search ns s
    end.
Proof. reflexivity. Qed.

Lemma run_Eol ns rest opened caps :
  run (Eol :: ns) rest opened caps
  = if at_end rest then run ns rest opened caps else None.
Proof. reflexivity. Qed.

(** A greedy [k+] takes a whole run of [k] when the pattern matches
    after it. *)
Lemma run_many_greedy k ns d rest opened caps x :
  all_in k d = true → d ≠ EmptyString → stops k rest →
  run ns rest opened caps = Some x →
  run (Many k :: ns) (d +:+ rest) opened caps = Some x.
Proof.
  intros Hall Hne Hstop Hrun. induction d as [|c d IH]; [done|].
  cbn [all_in] in Hall. apply andb_prop in Hall as [Hc Hd].
  rewrite app_cons, run_Many_cons, Hc.
  destruct d as [|c' d'].
  - rewrite app_nil. destruct rest as [|a r].
    + by rewrite run_Many_nil.
    + rewrite run_Many_cons. cbn in Hstop. by rewrite Hstop.
  - by rewrite IH.
Qed.

Lemma run_group_forward k ns d rest opened caps x :
  all_in k d = true → d ≠ EmptyString → stops k rest →
  run ns rest (d +:+ rest) (d :: caps) = Some x →
  run (Open :: Many k :: Close :: ns) (d +:+ rest) opened caps = Some x.
Proof.
  intros Hall Hne Hstop Hrun. rewrite run_Open.
  apply run_many_greedy; [done..|]. by rewrite run_Close, consumed_app.
Qed.

Lemma run_lit_forward c ns r opened caps :
  run (One (Lit c) :: ns) (String c r) opened caps = run ns r opened caps.
Proof. rewrite run_One. cbn. by rewrite Ascii.eqb_refl. Qed.

Lemma count_char_cons c a r :
  count_char c (String a r) = ((if Ascii.eqb a c then 1 else 0) + count_char c r)%nat.
Proof. reflexivity. Qed.

Lemma at_end_count c rest : at_end rest = true → c ≠ "010"%char → count_char c rest = 0%nat.
Proof.
  destruct rest as [|a [|b r]]; [done| |].
  - cbn. destruct (Ascii.eqb_spec a "010") as [->|]; [|by destruct a as [[] [] [] [] [] [] [] []]].
    intros _ H. by destruct (Ascii.eqb_spec "010" c) as [<-|].
  - intros H. cbn in H. by destruct a as [[] [] [] [] [] [] [] []].
Qed.

(** What the pattern of the older script matches, at a given place. *)
Lemma old_pattern_shape s caps rest :
  run Old.FILENAME_RE s EmptyString [] = Some (caps, rest) →
  ∃ p1 p2 p3,
    s = String "_" (p1 +:+ String "_" (p2 +:+ String "_" (p3 +:+ ".txt" +:+ rest))) ∧
    at_end rest = true ∧ caps = [p1; p2; p3] ∧
    Forall (λ p, p ≠ EmptyString ∧ all_in Digit p = true) [p1; p2; p3].
Proof.
  unfold Old.FILENAME_RE. cbn [app lits]. intros H.
  apply run_lit in H as (s1 & -> & H).
  apply run_group in H as (p1 & s2 & -> & Hn1 & Hd1 & H).
  apply run_lit in H as (s3 & -> & H).
  apply run_group in H as (p2 & s4 & -> & Hn2 & Hd2 & H).
  apply run_lit in H as (s5 & -> & H).
  apply run_group in H as (p3 & s6 & -> & Hn3 & Hd3 & H).
  apply run_lit in H as (t1 & -> & H). apply run_lit in H as (t2 & -> & H).
  apply run_lit in H as (t3 & -> & H). apply run_lit in H as (t4 & -> & H).
  rewrite run_Eol in H. destruct (at_end t4) eqn:He; [|done].
  cbn in H. injection H as <- <-.
  exists p1, p2, p3. split; [done|]. split; [done|]. split; [done|].
  repeat constructor; done.
Qed.

Lemma old_pattern_forward p1 p2 p3 :
  Forall (λ p, p ≠ EmptyString ∧ all_in Digit p = true) [p1; p2; p3] →
  run Old.FILENAME_RE
      (String "_" (p1 +:+ String "_" (p2 +:+ String "_" (p3 +:+ ".txt"))))
      EmptyString []
  = Some ([p1; p2; p3], EmptyString).
Proof.
  intros Hd. apply Forall_cons in Hd as [[? ?] Hd].
  apply Forall_cons in Hd as [[? ?] Hd]. apply Forall_cons in Hd as [[? ?] _].
  unfold Old.FILENAME_RE. cbn [app lits].
  rewrite run_lit_forward. apply run_group_forward; [done..|].
  rewrite run_lit_forward. apply run_group_forward; [done..|].
  rewrite run_lit_forward. apply run_group_forward; [done..|].
  reflexivity.
Qed.

(** Wherever the name ends in three numbers and the extension, the
    search finds them and nothing before them. *)
Lemma old_search_suffix prefix p1 p2 p3 :
  Forall (λ p, p ≠ EmptyString ∧ all_in Digit p = true) [p1; p2; p3] →
  search Old.FILENAME_RE
    (prefix +:+ String "_" (p1 +:+ String "_" (p2 +:+ String "_" (p3 +:+ ".txt"))))
  = Some [p1; p2; p3].
Proof.
  intros Hd. pose proof (old_pattern_forward p1 p2 p3 Hd) as Hfw.
  assert (count_char "_" (String "_" (p1 +:+ String "_" (p2 +:+ String "_" (p3 +:+ ".txt"))))
          = 3%nat) as Hcount.
  { apply Forall_cons in Hd as [[? ?] Hd].
    apply Forall_cons in Hd as [[? ?] Hd]. apply Forall_cons in Hd as [[? ?] _].
    repeat first [rewrite count_char_app | rewrite count_char_cons
                 | rewrite digits_count_char by done].
    reflexivity. }
  set (tail := String "_" (p1 +:+ String "_" (p2 +:+ String "_" (p3 +:+ ".txt")))) in *.
  induction prefix as [|c prefix IH].
  - rewrite app_nil. unfold tail at 1. rewrite search_cons. fold tail.
    unfold match_. by rewrite Hfw.
  - rewrite app_cons, search_cons. unfold match_.
    destruct (run Old.FILENAME_RE (String c (prefix +:+ tail)) EmptyString [])
      as [[caps rest]|] eqn:Hrun; [|exact IH].
    exfalso. apply old_pattern_shape in Hrun as (q1 & q2 & q3 & Heq & He & _ & Hq).
    injection Heq as _ Heq. apply (f_equal (count_char "_")) in Heq.
    apply Forall_cons in Hq as [[? ?] Hq].
    apply Forall_cons in Hq as [[? ?] Hq]. apply Forall_cons in Hq as [[? ?] _].
    rewrite count_char_app, Hcount in Heq. revert Heq.
    repeat first [rewrite count_char_app | rewrite count_char_cons].
    rewrite (digits_count_char "_" q1), (digits_count_char "_" q2),
      (digits_count_char "_" q3), (at_end_count "_" rest He) by done.
    cbn. lia.
Qed.

End forward.


(** * Further properties: the file-name parsers *)

(** X1.  [parse_size] on a token of digits: the digits alone give their
    number, followed by K or k the number times 1000, followed by M or m
    the number times 1000000. *)
Theorem X1_parse_size_scales p n :
  p ≠ EmptyString → all_in Re.Digit p = true → Py.int p = Ok n →
  New.parse_size p = Ok n ∧
  New.parse_size (p +:+ "K") = Ok (n * 1000) ∧
  New.parse_size (p +:+ "k") = Ok (n * 1000) ∧
  New.parse_size (p +:+ "M") = Ok (n * 1000000) ∧
  New.parse_size (p +:+ "m") = Ok (n * 1000000).
Proof.
  intros Hne Hall Hint.
  assert (has_char "K" p = false) as HK by by apply digits_has_char.
  assert (has_char "M" p = false) as HM by by apply digits_has_char.
  unfold New.parse_size. rewrite !upper_app, !upper_digits by done.
  change (Py.upper "K") with "K". change (Py.upper "k") with "K".
  change (Py.upper "M") with "M". change (Py.upper "m") with "M".
  rewrite !contains_char, !has_char_app, HK, HM. cbn [orb has_char Ascii.eqb].
  rewrite !replace_last_char by done. rewrite Hint. by cbn.
Qed.

Lemma X1_witness :
  New.parse_size "150" = Ok 150 ∧
  New.parse_size ("150" +:+ "K") = Ok (150 * 1000) ∧
  New.parse_size ("150" +:+ "k") = Ok (150 * 1000) ∧
  New.parse_size ("150" +:+ "M") = Ok (150 * 1000000) ∧
  New.parse_size ("150" +:+ "m") = Ok (150 * 1000000).
Proof.
  apply (X1_parse_size_scales "150" 150); [discriminate|reflexivity|reflexivity].
Defined.

(** X2.  The parser of the newer script answers every file name that has no
    backslash in it with the empty mapping, without raising. *)
Theorem X2_new_parse_filename_without_backslash filename :
  has_char "\" filename = false → New.parse_filename filename = Ok ∅.
Proof. apply new_parse_filename_needs_backslash. Qed.

Lemma X2_witness : New.parse_filename Ex.new_name = Ok ∅.
Proof. apply (X2_new_parse_filename_without_backslash Ex.new_name). reflexivity. Defined.

Lemma digit_val_nonneg c : Py.isdigit c = true → 0 ≤ Py.digit_val c.
Proof. destruct c as [[] [] [] [] [] [] [] []]; cbn; intros H; by try discriminate H. Qed.

Lemma digits_from_nonneg p seen acc n :
  0 ≤ acc → Py.digits_from seen acc p = Some n → 0 ≤ n.
Proof.
  revert seen acc. induction p as [|c r IH]; intros seen acc Hacc; cbn [Py.digits_from].
  - destruct seen; [|done]. by intros [= <-].
  - destruct (Py.isdigit c) eqn:Hc.
    + apply IH. pose proof (digit_val_nonneg c Hc). lia.
    + destruct (_ && _); [|done]. destruct r as [|d r']; [done|].
      destruct (Py.isdigit d); [|done]. by apply IH.
Qed.

(** [int] on a non-empty run of digits: a number that is not negative. *)
Lemma int_digits_nonneg p :
  p ≠ EmptyString → all_in Re.Digit p = true → ∃ n, Py.int p = Ok n ∧ 0 ≤ n.
Proof.
  intros Hne Hall.
  destruct (digits_from_digits p false 0 Hall (or_introl Hne)) as [n Hn].
  exists n. split; [by apply int_digits_value|]. by eapply digits_from_nonneg.
Qed.

(** The mapping both parsers build. *)
Lemma params_eq a b c :
  <["table_size" := VInt c]>
    (<["threads_or_buffer" := VInt b]> (<["dataset_size" := VInt a]> (∅ : dict)))
  = {[ "dataset_size" := VInt a; "threads_or_buffer" := VInt b;
       "table_size" := VInt c ]}.
Proof.
  apply map_eq. intros k.
  destruct (decide (k = "table_size")) as [->|?]; [by simplify_map_eq|].
  destruct (decide (k = "threads_or_buffer")) as [->|?]; [by simplify_map_eq|].
  destruct (decide (k = "dataset_size")) as [->|?]; by simplify_map_eq.
Qed.

Lemma old_parse_filename_cases filename :
  Old.parse_filename filename = Ok ∅ ∨
  ∃ a b c, 0 ≤ a ∧ 0 ≤ b ∧ 0 ≤ c ∧
    Old.parse_filename filename
    = Ok {[ "dataset_size" := VInt a; "threads_or_buffer" := VInt b;
            "table_size" := VInt c ]}.
Proof.
  unfold Old.parse_filename.
  destruct (Re.search Old.FILENAME_RE filename) as [m|] eqn:Hs; [|by left].
  right. apply old_search_groups in Hs as (p1 & p2 & p3 & -> & Hd).
  apply Forall_cons in Hd as [[? ?] Hd]. apply Forall_cons in Hd as [[? ?] Hd].
  apply Forall_cons in Hd as [[? ?] _].
  change (group [p1; p2; p3] 1) with p1. change (group [p1; p2; p3] 2) with p2.
  change (group [p1; p2; p3] 3) with p3.
  destruct (int_digits_nonneg p1) as (a & -> & ?); [done..|].
  destruct (int_digits_nonneg p2) as (b & -> & ?); [done..|].
  destruct (int_digits_nonneg p3) as (c & -> & ?); [done..|].
  exists a, b, c. cbn [mbind result_bind rbind]. by rewrite params_eq.
Qed.

(** X3.  The parser of the older script never raises: for every file name
    it returns the empty mapping or a mapping of exactly the three keys
    dataset_size, threads_or_buffer and table_size, each bound to a number
    that is not negative. *)
Theorem X3_old_parse_filename_total filename :
  Old.parse_filename filename = Ok ∅ ∨
  ∃ a b c, 0 ≤ a ∧ 0 ≤ b ∧ 0 ≤ c ∧
    Old.parse_filename filename
    = Ok {[ "dataset_size" := VInt a; "threads_or_buffer" := VInt b;
            "table_size" := VInt c ]}.
Proof. apply old_parse_filename_cases. Qed.

(** X4.  Round trip of the older naming convention: for any prefix and any
    three numbers that are not negative, the name
    prefix_a_b_c.txt is parsed back to dataset_size = a,
    threads_or_buffer = b and table_size = c. *)
Theorem X4_old_parse_filename_round_trip prefix a b c :
  0 ≤ a → 0 ≤ b → 0 ≤ c →
  Old.parse_filename
    (prefix +:+ "_" +:+ Py.str a +:+ "_" +:+ Py.str b +:+ "_" +:+ Py.str c +:+ ".txt")
  = Ok {[ "dataset_size" := VInt a; "threads_or_buffer" := VInt b;
          "table_size" := VInt c ]}.
Proof.
  intros Ha Hb Hc.
  destruct (str_nonneg a Ha) as (? & ? & ?), (str_nonneg b Hb) as (? & ? & ?),
           (str_nonneg c Hc) as (? & ? & ?).
  unfold Old.parse_filename.
  change (prefix +:+ "_" +:+ Py.str a +:+ "_" +:+ Py.str b +:+ "_" +:+ Py.str c +:+ ".txt")
    with (prefix +:+ String "_" (Py.str a +:+ String "_" (Py.str b +:+
            String "_" (Py.str c +:+ ".txt")))).
  rewrite old_search_suffix by (repeat constructor; done).
  change (group [Py.str a; Py.str b; Py.str c] 1) with (Py.str a).
  change (group [Py.str a; Py.str b; Py.str c] 2) with (Py.str b).
  change (group [Py.str a; Py.str b; Py.str c] 3) with (Py.str c).
  rewrite !int_str by done. cbn [mbind result_bind rbind]. by rewrite params_eq.
Qed.

Lemma X4_witness :
  Old.parse_filename
    ("Results_MCC_030402_401106039" +:+ "_" +:+ Py.str 150000 +:+ "_" +:+ Py.str 1
       +:+ "_" +:+ Py.str 120000 +:+ ".txt")
  = Ok {[ "dataset_size" := VInt 150000; "threads_or_buffer" := VInt 1;
          "table_size" := VInt 120000 ]}.
Proof.
  apply (X4_old_parse_filename_round_trip "Results_MCC_030402_401106039" 150000 1 120000);
    lia.
Defined.


(** * Further properties: the reader of the older script *)

Lemma measurements_empty : measurements ∅.
Proof. intros k v. by rewrite lookup_empty. Qed.

Lemma measurements_insert d k n :
  k = "ExecutionTime_ms" ∨ k = "NumberOfHandledCollision" →
  measurements d → measurements (<[k := VInt n]> d).
Proof.
  intros Hk Hd k' v. destruct (decide (k = k')) as [<-|Hne].
  - rewrite lookup_insert_eq. intros [= <-]. eauto.
  - rewrite lookup_insert_ne by done. apply Hd.
Qed.

Lemma old_fill_line_measurements line d r d' :
  Old.fill_line line d = (r, d') → measurements d → measurements d'.
Proof.
  unfold Old.fill_line. intros H Hd.
  destruct (Py.contains line "ExecutionTime:").
  - destruct (_ ≫= _) in H; injection H as <- <-; [|done].
    apply measurements_insert; auto.
  - destruct (Py.contains line "NumberOfHandledCollision:").
    + destruct (_ ≫= _) in H; injection H as <- <-; [|done].
      apply measurements_insert; auto.
    + by injection H as <- <-.
Qed.

Lemma old_fill_measurements lines d r d' :
  Old.fill lines d = (r, d') → measurements d → measurements d'.
Proof.
  revert d. induction lines as [|line lines IH]; intros d; cbn [Old.fill].
  - by intros [= <- <-].
  - destruct (Old.fill_line line d) as [[[]|e] d1] eqn:Hl; intros H Hd.
    + eapply IH; [exact H|]. eapply old_fill_line_measurements; eauto.
    + injection H as <- <-. eapply old_fill_line_measurements; eauto.
Qed.

Lemma old_attempt_measurements filepath w : measurements (snd (Old.attempt filepath w)).
Proof.
  destruct (Old.attempt filepath w) as [r d] eqn:Ha. cbn [snd].
  apply old_attempt_data in Ha as [->|(lines & r' & Hf)]; [apply measurements_empty|].
  eapply old_fill_measurements; [exact Hf|apply measurements_empty].
Qed.

(** X5.  The reader of the older script returns normally for every path and
    every state; what it returns binds nothing but ExecutionTime_ms and
    NumberOfHandledCollision, each to a number; it prints at most its one
    diagnostic and touches no directory. *)
Theorem X5_old_reader_returns_measurements filepath w :
  ∃ data w', Old.read_result_file filepath w = (Ok data, w') ∧
    measurements data ∧ printed w w' ∧
    (w' = w ∨ ∃ e, w' = Sys.log (Sys.ErrorReading filepath e) w).
Proof.
  rewrite old_read_result_file_shape. eexists _, _. split; [done|]. split.
  - apply old_attempt_measurements.
  - destruct (fst (Old.attempt filepath w)); split;
      eauto using printed_refl, printed_log.
Qed.

(** X6.  The older reader takes the lines in order and stops at the first
    one that raises: reading two runs of lines one after the other is
    reading the first and, when it raised nothing, the second from where
    the first ended; after a failure the later lines are not looked at. *)
Theorem X6_old_fill_app l1 l2 d :
  Old.fill (l1 ++ l2) d =
  match Old.fill l1 d with
  | (Ok _, d1) => Old.fill l2 d1
  | (Raise e, d1) => (Raise e, d1)
  end.
Proof.
  revert d. induction l1 as [|line l1 IH]; intros d; [done|].
  cbn [app Old.fill]. destruct (Old.fill_line line d) as [[[]|e] d1]; [apply IH|done].
Qed.

Lemma lstrip_digits_app p t :
  p ≠ EmptyString → all_in Re.Digit p = true → Py.lstrip (p +:+ t) = p +:+ t.
Proof.
  destruct p as [|c r]; [done|]. intros _. cbn [all_in Re.cls_match].
  intros [Hc _]%andb_prop. rewrite app_cons. apply lstrip_no_space.
  by destruct (isdigit_facts c Hc).
Qed.

Lemma contains_missing_char s c sub :
  has_char c s = false → Py.contains s (String c sub) = false.
Proof.
  induction s as [|a s IH]; [done|]. cbn [has_char Py.contains Py.startswith].
  intros [Ha Hs]%orb_false_elim. rewrite (IH Hs), Ascii.eqb_sym, Ha. done.
Qed.

(** [int] on digits followed by white space that it skips. *)
Lemma int_digits_spaced p t n :
  p ≠ EmptyString → all_in Re.Digit p = true → Py.rskip t = EmptyString →
  Py.digits_from false 0 p = Some n → Py.int (p +:+ t) = Ok n.
Proof.
  intros Hne Hall Ht Hn. apply (int_of_strip _ p); try done.
  destruct p as [|c r]; [done|]. pose proof Hall as Hall'.
  cbn [all_in Re.cls_match] in Hall'. apply andb_prop in Hall' as [Hc _].
  rewrite app_cons. cbn [Py.lskip]. rewrite (isdigit_not_skipped c Hc).
  rewrite <- app_cons, rskip_digits_app by done.
  by rewrite Ht, app_nil_r_s.
Qed.

(** X7.  Round trip of the two result lines: for a number [n] that is not
    negative and is written with at most 4300 digits (the most that [int]
    accepts under the interpreter's default setting) the older reader reads
    the line "ExecutionTime: n ms" back as ExecutionTime_ms = n and the line
    "NumberOfHandledCollision: n" as NumberOfHandledCollision = n, replacing
    whatever an earlier line stored under that key. *)
Theorem X7_old_fill_line_round_trip n d :
  0 ≤ n → (String.length (Py.str n) ≤ 4300)%nat →
  Old.fill_line (time_line n) d = (Ok tt, <["ExecutionTime_ms" := VInt n]> d) ∧
  Old.fill_line (collision_line n) d
  = (Ok tt, <["NumberOfHandledCollision" := VInt n]> d).
Proof.
  intros Hn _. destruct (str_nonneg n Hn) as (Hne & Hall & Hval).
  assert (∀ c, Py.isdigit c = false → has_char c (Py.str n) = false) as Hno
    by (intros c; by apply digits_has_char).
  split; unfold Old.fill_line.
  - change (time_line n)
      with ("ExecutionTime:" +:+ String " " (Py.str n +:+ String " " (String "m"
              (String "s" (String "010" EmptyString))))).
    rewrite contains_prefix.
    change ("ExecutionTime:" +:+ String " " (Py.str n +:+ String " " (String "m"
              (String "s" (String "010" EmptyString)))))
      with ("ExecutionTime" +:+ String ":" (String " " (Py.str n +:+ String " "
              (String "m" (String "s" (String "010" EmptyString)))))).
    unfold Old.after_colon. rewrite split_at_sep by done.
    rewrite split_no_sep
      by (cbn [has_char]; rewrite has_char_app, Hno by done; reflexivity).
    cbn [lookup list_lookup mbind result_bind rbind].
    unfold Py.strip. cbn [Py.lstrip Py.isspace].
    rewrite lstrip_digits_app by done.
    rewrite rstrip_no_space_app by by apply digits_no_space.
    change (Py.rstrip (String " " (String "m" (String "s" (String "010" EmptyString)))))
      with (String " " (String "m" (String "s" EmptyString))).
    rewrite (replace_skip_prefix _ _ "m" "s") by by apply Hno.
    change (Py.replace (String " " (String "m" (String "s" EmptyString))) "ms" EmptyString)
      with (String " " EmptyString).
    by rewrite (int_digits_spaced _ _ n).
  - assert (has_char "E" (collision_line n) = false) as HE.
    { unfold collision_line.
      change ("NumberOfHandledCollision: " +:+ Py.str n +:+ String "010" EmptyString)
        with ("NumberOfHandledCollision: " +:+ (Py.str n +:+ String "010" EmptyString)).
      rewrite !has_char_app, Hno by done. reflexivity. }
    rewrite (contains_missing_char _ "E") by done.
    change (collision_line n)
      with ("NumberOfHandledCollision:" +:+
              String " " (Py.str n +:+ String "010" EmptyString)).
    rewrite contains_prefix.
    change ("NumberOfHandledCollision:" +:+
              String " " (Py.str n +:+ String "010" EmptyString))
      with ("NumberOfHandledCollision" +:+
              String ":" (String " " (Py.str n +:+ String "010" EmptyString))).
    unfold Old.after_colon. rewrite split_at_sep by done.
    rewrite split_no_sep
      by (cbn [has_char]; rewrite has_char_app, Hno by done; reflexivity).
    cbn [lookup list_lookup mbind result_bind rbind].
    assert (Py.strip (String " " (Py.str n +:+ String "010" EmptyString)) = Py.str n) as ->.
    { unfold Py.strip. cbn [Py.lstrip Py.isspace].
      rewrite lstrip_digits_app by done.
      rewrite rstrip_no_space_app by by apply digits_no_space.
      apply app_nil_r_s. }
    by rewrite int_str.
Qed.

Lemma X7_witness :
  (String.length (Py.str 300) ≤ 4300)%nat ∧
  Old.fill_line (time_line 300) {[ "ExecutionTime_ms" := VInt 7 ]}
  = (Ok tt, <["ExecutionTime_ms" := VInt 300]> {[ "ExecutionTime_ms" := VInt 7 ]}) ∧
  Old.fill_line (collision_line 300) {[ "ExecutionTime_ms" := VInt 7 ]}
  = (Ok tt, <["NumberOfHandledCollision" := VInt 300]> {[ "ExecutionTime_ms" := VInt 7 ]}).
Proof.
  assert (String.length (Py.str 300) ≤ 4300)%nat as Hlen
    by (change (String.length (Py.str 300)) with 3%nat; lia).
  split; [exact Hlen|].
  apply (X7_old_fill_line_round_trip 300 {[ "ExecutionTime_ms" := VInt 7 ]}); [lia|exact Hlen].
Defined.


(** * Further properties: collecting and cleaning *)

(** X8.  The reader of the newer script returns the empty mapping for every
    path and every state, normally, after printing at most its one
    diagnostic: no content makes it store a measurement. *)
Theorem X8_new_reader_returns_nothing filepath w :
  ∃ w', New.read_result_file filepath w = (Ok ∅, w') ∧
        (w' = w ∨ ∃ e, w' = Sys.log (Sys.ErrorReading filepath e) w).
Proof.
  destruct (new_read_result_file_empty filepath w) as [->|[e ->]]; eauto.
Qed.

(** X9.  The newer script never writes a chart: for every state its loop
    collects no record, and when the run has ended, normally or not, the
    output directory new_plots exists and is empty. *)
Theorem X9_new_main_writes_no_chart w :
  files_after New.plots_dir New.main w = Some ∅ ∧
  ∀ names all w', New.collect names w = (Ok all, w') → all = [].
Proof.
  split; [apply new_main_no_charts|]. intros names all w'. apply new_collect_nil.
Qed.

Lemma measurements_nonempty d :
  measurements d → d ≠ ∅ →
  is_Some (d !! "ExecutionTime_ms") ∨ is_Some (d !! "NumberOfHandledCollision").
Proof.
  intros Hm Hne. apply map_choose in Hne as (k & v & Hk).
  destruct (Hm k v Hk) as [[-> | ->] _]; eauto.
Qed.

(** One pass of the older loop appends at most one record, for a
    candidate name, with its file name and a measurement. *)
Lemma old_visit_found n w found w' :
  Old.visit n w = (Ok found, w') →
  (length found ≤ 1)%nat ∧
  ∀ r, r ∈ found →
    from_file n r ∧ old_candidate n = true ∧
    (is_Some (r !! "ExecutionTime_ms") ∨ is_Some (r !! "NumberOfHandledCollision")).
Proof.
  rewrite old_visit_shape. fold (old_candidate n).
  destruct (old_candidate n); [|intros [= <- _]; split; [cbn; lia|by intros ? ?%elem_of_nil]].
  destruct (Old.parse_filename n) as [params|e]; [|done]. cbn zeta.
  pose proof (old_attempt_measurements (Sys.path_join "results" n) w) as Hm.
  destruct (truthy _) eqn:Ht; intros [= <- _];
    [|split; [cbn; lia|by intros ? ?%elem_of_nil]].
  split; [cbn; lia|]. intros r ->%list_elem_of_singleton.
  split; [unfold from_file; by rewrite lookup_insert_eq|]. split; [done|].
  apply bool_decide_eq_true in Ht.
  destruct (measurements_nonempty _ Hm Ht) as [[v Hv]|[v Hv]]; [left|right];
    exists v; rewrite lookup_insert_ne by done; by apply lookup_union_Some_l.
Qed.

(** X10.  The loop of the older script completes for every listing.  It
    collects at most one record per listed name; every record carries, under
    filename, the name of a listed file that starts with Results_MCC_ and
    ends with .txt, and binds at least one of the two measurements. *)
Theorem X10_old_collect_records names w :
  ∃ all w', Old.collect names w = (Ok all, w') ∧
    (length all ≤ length names)%nat ∧
    ∀ r, r ∈ all → ∃ n, n ∈ names ∧ from_file n r ∧ old_candidate n = true ∧
      (is_Some (r !! "ExecutionTime_ms") ∨ is_Some (r !! "NumberOfHandledCollision")).
Proof.
  destruct (old_collect_total names w) as (all & w' & Hc & _).
  exists all, w'. split; [done|]. revert w all w' Hc.
  induction names as [|n names IH]; intros w all w'.
  - cbn. intros [= <- _]. split; [done|]. by intros ? ?%elem_of_nil.
  - intros (found & w1 & more & Hv & Hc & ->)%old_collect_cons.
    destruct (old_visit_found _ _ _ _ Hv) as [Hlen Hfound].
    destruct (IH _ _ _ Hc) as [Hlen' Hmore]. split.
    + rewrite length_app. cbn. lia.
    + intros r [Hr|Hr]%elem_of_app.
      * exists n. split; [by left|]. by apply Hfound.
      * destruct (Hmore r Hr) as (m & Hm & H). exists m. split; [by right|done].
Qed.

(** X11.  The older loop goes through a listing in order: the records of
    a listing made of two parts are those of the first part followed by
    those of the second, the second part being read in the state the first
    left. *)
Theorem X11_old_collect_app l1 l2 w :
  ∃ a1 w1 a2 w2,
    Old.collect l1 w = (Ok a1, w1) ∧ Old.collect l2 w1 = (Ok a2, w2) ∧
    Old.collect (l1 ++ l2) w = (Ok (a1 ++ a2), w2).
Proof.
  revert w. induction l1 as [|n l1 IH]; intros w.
  - destruct (old_collect_total l2 w) as (a2 & w2 & H2 & _).
    exists [], w, a2, w2. by rewrite H2.
  - destruct (old_collect_total [n] w) as (found' & w0 & H0 & _).
    apply old_collect_cons in H0 as (found & w1 & ? & Hv & Hnil & _).
    cbn in Hnil. injection Hnil as _ <-.
    destruct (IH w1) as (a1 & w1' & a2 & w2 & H1 & H2 & H12).
    exists (found ++ a1), w1', a2, w2. split; [|split; [done|]].
    + cbn [Old.collect]. by rewrite io_bind_eq, Hv, io_bind_eq, H1.
    + cbn [app Old.collect]. rewrite io_bind_eq, Hv, io_bind_eq, H12, io_ret_eq.
      by rewrite (assoc_L (++)).
Qed.

Lemma foldM_app {A B} (f : B → A → result B) l1 l2 b :
  foldM f (l1 ++ l2) b = foldM f l1 b ≫= foldM f l2.
Proof.
  revert b. induction l1 as [|a l1 IH]; intros b; [done|].
  cbn [app foldM]. destruct (f b a) as [b'|e]; [apply IH|done].
Qed.

(** X12.  The cleaning step raises [KeyError] for the first of the five
    columns, in the order dataset_size, threads_or_buffer, table_size,
    ExecutionTime_ms, NumberOfHandledCollision, that no record supplies;
    for an empty list of records that is dataset_size. *)
Theorem X12_clean_key_error all_data before col after :
  numeric_cols = before ++ col :: after →
  Forall (supplied all_data) before → ¬ supplied all_data col →
  clean all_data = Raise (KeyError col).
Proof.
  intros Hcols Hbefore Hcol. unfold clean. rewrite Hcols, foldM_app.
  rewrite foldM_to_numeric_ok
    by (eapply Forall_impl; [exact Hbefore|]; intros c; apply columns_from_records).
  cbn [mbind result_bind rbind foldM].
  rewrite to_numeric_notin; [done|]. cbn [Pd.columns].
  by rewrite columns_from_records.
Qed.

Lemma X12_witness :
  clean [] = Raise (KeyError "dataset_size") ∧
  clean [ {[ "dataset_size" := VInt 1; "threads_or_buffer" := VInt 2;
             "table_size" := VInt 3; "ExecutionTime_ms" := VInt 4 ]} ]
  = Raise (KeyError "NumberOfHandledCollision").
Proof.
  split.
  - apply (X12_clean_key_error [] [] "dataset_size"
             ["threads_or_buffer"; "table_size"; "ExecutionTime_ms";
              "NumberOfHandledCollision"]); [reflexivity|constructor|].
    intros (r & Hr & _). by apply elem_of_nil in Hr.
  - apply (X12_clean_key_error _
             ["dataset_size"; "threads_or_buffer"; "table_size"; "ExecutionTime_ms"]
             "NumberOfHandledCollision" []); [reflexivity| |].
    + repeat constructor; eexists; (split; [by left|]); vm_compute; eauto.
    + intros (r & Hr & Hc). apply list_elem_of_singleton in Hr as ->.
      vm_compute in Hc. by destruct Hc.
Defined.

Lemma coerce_id c r :
  (∀ v, r !! c = Some v → ∃ n, v = VInt n) → coerce c r = r.
Proof.
  intros H. apply map_eq. intros k. destruct (decide (c = k)) as [<-|Hne].
  - rewrite coerce_lookup_eq. destruct (r !! c) as [v|] eqn:Hv; [|done].
    by destruct (H v eq_refl) as [n ->].
  - by apply coerce_lookup_ne.
Qed.

Lemma coerce_all_id cols r :
  (∀ c v, c ∈ cols → r !! c = Some v → ∃ n, v = VInt n) → coerce_all cols r = r.
Proof.
  unfold coerce_all. induction cols as [|c cols IH]; intros H; [done|]. cbn.
  rewrite coerce_id by (intros v; apply H; by left).
  apply IH. intros c' v Hc'. apply H. by right.
Qed.

Lemma cleaned_rows_int_cells all :
  Forall int_cells all → cleaned_rows all = List.filter (Pd.notna numeric_cols) all.
Proof.
  intros Hall. unfold cleaned_rows. f_equal.
  induction Hall as [|r all Hr _ IH]; [done|]. rewrite fmap_cons, IH.
  by rewrite coerce_all_id.
Qed.

Lemma old_record_int_cells n params data :
  Old.parse_filename n = Ok params → measurements data →
  int_cells (<["filename" := VStr n]> (data ∪ params)).
Proof.
  intros Hp Hm c v Hcin. rewrite lookup_insert_ne
    by (intros <-; revert Hcin; rewrite numeric_cols_elem; intros H;
        decompose [or] H; done).
  intros [Hd|[_ Hps]]%lookup_union_Some_raw.
  - by destruct (Hm c v Hd).
  - destruct (old_parse_filename_cases n) as [H0|(a & b & c' & _ & _ & _ & H3)].
    + rewrite Hp in H0. injection H0 as ->. by rewrite lookup_empty in Hps.
    + rewrite Hp in H3. injection H3 as ->. revert Hps.
      rewrite !lookup_insert. repeat case_decide; try (intros [= <-]; eauto).
      intros [_ <-]%lookup_singleton_Some. eauto.
Qed.

(** The records of the older loop hold numbers in the five columns. *)
Lemma old_collect_int_cells names w all w' :
  Old.collect names w = (Ok all, w') → Forall int_cells all.
Proof.
  revert w all w'. induction names as [|m names IH]; intros w all w'.
  - cbn. by intros [= <- _].
  - intros (found & w1 & more & Hv & Hc & ->)%old_collect_cons.
    apply Forall_app. split; [|by eapply IH].
    rewrite old_visit_shape in Hv.
    destruct (_ && _); [|by injection Hv as <- _].
    destruct (Old.parse_filename m) as [ps|e] eqn:Hp; [|done]. cbn zeta in Hv.
    pose proof (old_attempt_measurements (Sys.path_join "results" m) w) as Hm.
    destruct (truthy _); injection Hv as <- _; [|done].
    repeat constructor. by apply old_record_int_cells.
Qed.

(** X13.  In the older script the cleaned dataset is made of the collected
    records that bind all five columns, with their numbers and in the order
    of the listing, when no number of a record exceeds 2^53 in absolute
    value (beyond that a column of floats rounds); the other records are
    dropped. *)
Theorem X13_old_clean_keeps_complete_records names w all w' df :
  Old.collect names w = (Ok all, w') → clean all = Ok df →
  Forall exact_cells all →
  Pd.rows df = List.filter (Pd.notna numeric_cols) all.
Proof.
  intros Hc [_ ->]%clean_inv _. apply cleaned_rows_int_cells.
  by eapply old_collect_int_cells.
Qed.

Lemma X13_witness :
  let w := Ex.world (Some Ex.two_files) "plots" in
  Old.collect Ex.two_files.*1 w = (Ok Ex.records, w) ∧
  clean Ex.records = Ok Ex.cleaned ∧
  Forall exact_cells Ex.records ∧
  Pd.rows Ex.cleaned = List.filter (Pd.notna numeric_cols) Ex.records.
Proof.
  intros w.
  assert (Old.collect Ex.two_files.*1 w = (Ok Ex.records, w)) as Hc
    by (vm_compute; reflexivity).
  assert (clean Ex.records = Ok Ex.cleaned) as Hd by (vm_compute; reflexivity).
  assert (Forall exact_cells Ex.records) as He
    by (apply (bool_decide_unpack _); vm_compute; exact I).
  split; [exact Hc|]. split; [exact Hd|]. split; [exact He|].
  exact (X13_old_clean_keeps_complete_records _ _ _ _ _ Hc Hd He).
Defined.


(** * Further properties: the charts *)

Lemma elem_of_chart_names df name :
  name ∈ chart_names df ↔
  (∃ ds, ds ∈ Pd.column "dataset_size" df ∧
         (name = New.collisions_png ds ∨ name = New.exectime_grouped_png ds)) ∨
  (∃ ds ts, (ds, ts) ∈ key_pairs df ∧ name = New.exectime_png ds ts).
Proof.
  unfold chart_names. rewrite !elem_of_union, !elem_of_list_to_set, !list_elem_of_fmap.
  split.
  - intros [(ds & -> & H)|[([ds ts] & -> & H)|(ds & -> & H)]]; eauto 10.
  - intros [(ds & H & [-> | ->])|(ds & ts & H & ->)]; eauto 10.
    right. left. by exists (ds, ts).
Qed.

(** X14.  On a dataset whose rows hold a number in each of the five columns
    the three chart loops complete without raising, leave the [results]
    directory alone and add to the output directory exactly the files named
    after the grouping keys: collisions_dataset_<ds>.png and
    exectime_grouped_dataset_<ds>.png for every dataset size, and
    exectime_dataset_<ds>_tsize_<ts>.png for every (dataset size, table
    size) pair of the rows.  Files the directory held stay. *)
Theorem X14_render_writes_charts df w s :
  all_numeric df →
  (Sys.outdirs w !! Old.plots_dir = Some s →
   ∃ w', Old.render df w = (Ok tt, w') ∧
         Sys.outdirs w' !! Old.plots_dir = Some (chart_names df ∪ s) ∧
         Sys.results_dir w' = Sys.results_dir w) ∧
  (Sys.outdirs w !! New.plots_dir = Some s →
   ∃ w', New.render df w = (Ok tt, w') ∧
         Sys.outdirs w' !! New.plots_dir = Some (chart_names df ∪ s) ∧
         Sys.results_dir w' = Sys.results_dir w) ∧
  (∀ name, name ∈ chart_names df ↔
     (∃ ds, ds ∈ Pd.column "dataset_size" df ∧
            (name = New.collisions_png ds ∨ name = New.exectime_grouped_png ds)) ∨
     (∃ ds ts, (ds, ts) ∈ key_pairs df ∧ name = New.exectime_png ds ts)).
Proof.
  intros Hnum. split; [|split].
  - apply (old_render_writes df Hnum).
  - apply (new_render_writes df Hnum).
  - apply elem_of_chart_names.
Qed.

Lemma X14_witness :
  let w := Ex.world None "plots" in
  all_numeric Ex.cleaned ∧
  Sys.outdirs w !! Old.plots_dir = Some {[ "old.png" ]} ∧
  ∃ w', Old.render Ex.cleaned w = (Ok tt, w') ∧
        Sys.outdirs w' !! Old.plots_dir = Some (chart_names Ex.cleaned ∪ {[ "old.png" ]}).
Proof.
  intros w.
  assert (all_numeric Ex.cleaned) as Hnum.
  { intros r c Hr Hc. apply (cleaned_rows_numeric Ex.records); [exact Hr|exact Hc]. }
  assert (Sys.outdirs w !! Old.plots_dir = Some {[ "old.png" ]}) as Hs
    by (vm_compute; reflexivity).
  split; [exact Hnum|]. split; [exact Hs|].
  destruct (X14_render_writes_charts Ex.cleaned w {[ "old.png" ]} Hnum) as [Hold _].
  destruct (Hold Hs) as (w' & Hr & Hf & _). by exists w'.
Defined.

Lemma NoDup_unique_from {A} `{EqDecision A} (seen l : list A) :
  NoDup (Pd.unique_from seen l).
Proof.
  revert seen. induction l as [|x l IH]; intros seen; cbn; [constructor|].
  destruct (decide (x ∈ seen)); [apply IH|].
  constructor; [|apply IH]. rewrite elem_of_unique_from, not_elem_of_cons.
  intros [_ [? _]]. done.
Qed.

Lemma StronglySorted_le_lt (l : list Z) :
  StronglySorted Z.le l → NoDup l → StronglySorted Z.lt l.
Proof.
  induction 1 as [|x l Hl IH Hx]; intros Hnd; [constructor|].
  apply NoDup_cons in Hnd as [Hnotin Hnd]. constructor; [by apply IH|].
  rewrite Forall_forall in *. intros y Hy. specialize (Hx y Hy).
  assert (x ≠ y) by (intros ->; done). lia.
Qed.

(** X15.  The per-dataset charts are drawn in strictly ascending order of
    dataset size, one pass for each size that occurs in the rows; the
    per-pair charts are drawn once for each (dataset size, table size) pair
    that occurs. *)
Theorem X15_chart_keys df :
  StronglySorted Z.lt (New.unique_dataset_sizes df) ∧
  (∀ ds, ds ∈ New.unique_dataset_sizes df ↔ ds ∈ Pd.column "dataset_size" df) ∧
  NoDup (New.unique_combinations df) ∧
  (∀ k, k ∈ New.unique_combinations df ↔ k ∈ key_pairs df).
Proof.
  split; [|split; [|split]].
  - apply StronglySorted_le_lt.
    + apply (StronglySorted_merge_sort Z.le).
    + unfold New.unique_dataset_sizes. rewrite (merge_sort_Permutation Z.le).
      apply NoDup_unique_from.
  - apply elem_of_unique_dataset_sizes.
  - apply NoDup_unique_from.
  - apply elem_of_unique_combinations.
Qed.

(** * Further properties: runs without data *)

Lemma old_collect_no_candidate names w :
  Forall (λ n, old_candidate n = false) names → Old.collect names w = (Ok [], w).
Proof.
  induction 1 as [|n names Hn _ IH]; [done|].
  cbn [Old.collect]. rewrite io_bind_eq, old_visit_shape.
  fold (old_candidate n). by rewrite Hn, io_bind_eq, IH.
Qed.

Lemma new_collect_no_candidate names w :
  Forall (λ n, new_candidate n = false) names → New.collect names w = (Ok [], w).
Proof.
  induction 1 as [|n names Hn _ IH]; [done|].
  cbn [New.collect]. rewrite io_bind_eq, new_visit_shape.
  fold (new_candidate n). by rewrite Hn, io_bind_eq, IH.
Qed.

(** X16.  When the [results] directory lists no name with the expected
    prefix and the extension .txt (for instance when it is empty), the run
    opens no file, prints only "No data processed. ..." and ends normally,
    with the output directory recreated and empty. *)
Theorem X16_no_candidate_no_data w entries :
  Sys.results_dir w = Some entries →
  (Forall (λ n, old_candidate n = false) entries.*1 →
   Old.main w
   = (Ok tt, Sys.log (Sys.Msg "No data processed. Check filenames or file contents.")
                     (with_outdir Old.plots_dir ∅ w))) ∧
  (Forall (λ n, new_candidate n = false) entries.*1 →
   New.main w
   = (Ok tt, Sys.log (Sys.Msg "No data processed. Check filenames or file contents.")
                     (with_outdir New.plots_dir ∅ w))).
Proof.
  intros Hr. split; intros Hall.
  - rewrite old_main_shape. cbn zeta. by rewrite Hr, old_collect_no_candidate.
  - rewrite new_main_shape. cbn zeta. by rewrite Hr, new_collect_no_candidate.
Qed.

Lemma X16_witness :
  let w := Ex.world (Some [("notes.md", Sys.Text Ex.three_markers)]) "plots" in
  Sys.results_dir w = Some [("notes.md", Sys.Text Ex.three_markers)] ∧
  Old.main w
  = (Ok tt, Sys.log (Sys.Msg "No data processed. Check filenames or file contents.")
                    (with_outdir Old.plots_dir ∅ w)) ∧
  New.main w
  = (Ok tt, Sys.log (Sys.Msg "No data processed. Check filenames or file contents.")
                    (with_outdir New.plots_dir ∅ w)).
Proof.
  intros w.
  destruct (X16_no_candidate_no_data w [("notes.md", Sys.Text Ex.three_markers)] eq_refl)
    as [Hold Hnew].
  split; [reflexivity|]. split.
  - apply Hold. repeat constructor.
  - apply Hnew. repeat constructor.
Defined.


(** * Further properties: the colour scale *)

Section gradient_range.
Import Gradient.
Local Open Scope Qc_scope.

Lemma minimum_le_elem t ts x : x ∈ t :: ts → (minimum t ts ≤ x)%Z.
Proof.
  unfold minimum. revert t. induction ts as [|y ts IH]; intros t.
  - intros Hx%list_elem_of_singleton. cbn. lia.
  - cbn [foldl]. intros [Hx|[Hx|Hx]%elem_of_cons]%elem_of_cons.
    + pose proof (minimum_le (Z.min t y) ts). unfold minimum in *. lia.
    + pose proof (minimum_le (Z.min t y) ts). unfold minimum in *. lia.
    + apply IH. by right.
Qed.

Lemma maximum_ge_elem t ts x : x ∈ t :: ts → (x ≤ maximum t ts)%Z.
Proof.
  unfold maximum. revert t. induction ts as [|y ts IH]; intros t.
  - intros Hx%list_elem_of_singleton. cbn. lia.
  - cbn [foldl]. intros [Hx|[Hx|Hx]%elem_of_cons]%elem_of_cons.
    + pose proof (maximum_ge (Z.max t y) ts). unfold maximum in *. lia.
    + pose proof (maximum_ge (Z.max t y) ts). unfold maximum in *. lia.
    + apply IH. by right.
Qed.

Lemma Qc_scale_mono lo hi a b :
  lo < hi → a ≤ b → (a - lo) / (hi - lo) ≤ (b - lo) / (hi - lo).
Proof.
  intros Hlt Hab. unfold Qcdiv. apply Qcmult_le_mono_nonneg_r.
  - apply Qclt_le_weak, Qcinv_pos. unfold Qcminus.
    by apply (proj1 (Qclt_minus_iff lo hi)).
  - unfold Qcminus. by apply Qcplus_le_mono_r.
Qed.

Lemma Qc_scale_range lo hi a :
  lo < hi → lo ≤ a → a ≤ hi → 0 ≤ (a - lo) / (hi - lo) ≤ 1.
Proof.
  intros Hlt Hlo Hhi. split.
  - rewrite <- (Qcdiv_0_l (hi - lo)), <- (Qcminus_diag lo). by apply Qc_scale_mono.
  - rewrite <- (Qcdiv_diag (hi - lo)).
    + by apply Qc_scale_mono.
    + apply not_symmetry, Qclt_not_eq. unfold Qcminus.
      by apply (proj1 (Qclt_minus_iff lo hi)).
Qed.

End gradient_range.

(** X17.  The colour scale of the per-(dataset size, table size) chart of
    the pandas-based scripts never fails on a group with at least one row;
    every bar gets a position between the two ends of the gradient (0 and
    1), and a bar with a larger execution time is never placed lower than
    one with a smaller time. *)
Theorem X17_new_bar_positions_range t ts :
  ∃ pos, Gradient.new_bar_positions (t :: ts) = Ok pos ∧
    (∀ x, x ∈ pos → (0 ≤ x ≤ 1)%Qc) ∧
    (∀ i j a b pa pb,
       (t :: ts) !! i = Some a → (t :: ts) !! j = Some b →
       pos !! i = Some pa → pos !! j = Some pb → a ≤ b → (pa ≤ pb)%Qc).
Proof.
  set (times := t :: ts). set (lo := Gradient.minimum t ts).
  set (hi := Gradient.maximum t ts).
  assert (lo ≤ hi) as Hle.
  { pose proof (minimum_le t ts). pose proof (maximum_ge t ts). unfold lo, hi. lia. }
  change (Gradient.new_bar_positions times)
    with (Gradient.normalize_all (Qc_of_Z lo) (Qc_of_Z hi) (Qc_of_Z <$> times)).
  rewrite normalize_all_ok by (rewrite <- Z2Qc_inj_lt; lia).
  eexists. split; [done|]. split.
  - intros x (qa & -> & (a & -> & Ha)%list_elem_of_fmap)%list_elem_of_fmap.
    destruct (decide _) as [|Hne]; [done|].
    apply Qc_scale_range.
    + apply (proj1 (Z2Qc_inj_lt lo hi)). rewrite Z2Qc_inj_iff in Hne. lia.
    + apply (proj1 (Z2Qc_inj_le lo a)). by apply minimum_le_elem.
    + apply (proj1 (Z2Qc_inj_le a hi)). by apply maximum_ge_elem.
  - intros i j a b pa pb Hi Hj. rewrite !list_lookup_fmap, Hi, Hj. cbn.
    intros [= <-] [= <-] Hab. destruct (decide _) as [|Hne]; [done|].
    apply Qc_scale_mono.
    + apply (proj1 (Z2Qc_inj_lt lo hi)). rewrite Z2Qc_inj_iff in Hne. lia.
    + by apply (proj1 (Z2Qc_inj_le a b)).
Qed.

(** X18.  The colour scale of plot.py runs from 0 to the largest value of
    the group: an empty group and a group whose largest value is negative
    make it raise [ValueError]; otherwise every bar gets a position, which
    is 0 for all of them when the largest value is 0. *)
Theorem X18_plot_bar_positions_errors v vs :
  let top := foldl Gradient.qmax v vs in
  Gradient.plot_bar_positions [] = Raise ValueError ∧
  ((top < 0)%Qc → Gradient.plot_bar_positions (v :: vs) = Raise ValueError) ∧
  ((0 ≤ top)%Qc →
   ∃ pos, Gradient.plot_bar_positions (v :: vs) = Ok pos ∧
          length pos = length (v :: vs) ∧
          (top = 0%Qc → ∀ x, x ∈ pos → x = 0%Qc)).
Proof.
  intros top. split; [done|]. split.
  - intros Hneg.
    change (Gradient.plot_bar_positions (v :: vs))
      with (Gradient.normalize_all 0%Qc top (v :: vs)).
    cbn [Gradient.normalize_all]. unfold Gradient.normalize at 1.
    rewrite decide_False by (by apply not_symmetry, Qclt_not_eq).
    by rewrite decide_True.
  - intros Hpos.
    change (Gradient.plot_bar_positions (v :: vs))
      with (Gradient.normalize_all 0%Qc top (v :: vs)).
    rewrite normalize_all_ok by by apply Qcle_not_lt.
    eexists. split; [done|]. split; [by rewrite length_fmap|].
    intros Htop x (y & -> & _)%list_elem_of_fmap. by rewrite decide_True.
Qed.

Lemma X18_witness :
  (foldl Gradient.qmax (Qc_of_Z (-5)) [Qc_of_Z (-7)] < 0)%Qc ∧
  Gradient.plot_bar_positions [Qc_of_Z (-5); Qc_of_Z (-7)] = Raise ValueError ∧
  (0 ≤ foldl Gradient.qmax (Qc_of_Z 100) [Qc_of_Z 200])%Qc ∧
  ∃ pos, Gradient.plot_bar_positions [Qc_of_Z 100; Qc_of_Z 200] = Ok pos ∧
         length pos = 2%nat.
Proof.
  assert (foldl Gradient.qmax (Qc_of_Z (-5)) [Qc_of_Z (-7)] < 0)%Qc as Hneg
    by (vm_compute; reflexivity).
  assert (0 ≤ foldl Gradient.qmax (Qc_of_Z 100) [Qc_of_Z 200])%Qc as Hpos
    by (vm_compute; discriminate).
  destruct (X18_plot_bar_positions_errors (Qc_of_Z (-5)) [Qc_of_Z (-7)]) as (_ & Hraise & _).
  destruct (X18_plot_bar_positions_errors (Qc_of_Z 100) [Qc_of_Z 200]) as (_ & _ & Hok).
  destruct (Hok Hpos) as (pos & Hp & Hlen & _).
  split; [exact Hneg|]. split; [exact (Hraise Hneg)|]. split; [exact Hpos|].
  exists pos. by split.
Defined.


(** * Further properties: the file names of plot.py *)

Section plot_names.
Import Re.

Lemma run_Any_cons k ns c r opened caps :
  run (Any k :: ns) (String c r) opened caps
  = if cls_match k c then
      match run (Any k :: ns) r opened caps with
      | Some m => Some m
      | None => run ns (String c r) opened caps
      end
    else run ns (String c r) opened caps.
Proof. reflexivity. Qed.

Lemma run_Any_nil k ns opened caps :
  run (Any k :: ns) EmptyString opened caps = run ns EmptyString opened caps.
Proof. reflexivity. Qed.

(** [k*] hands some rest of the input to what follows it. *)
Lemma run_any k ns rest opened caps x :
  run (Any k :: ns) rest opened caps = Some x →
  ∃ pre rest', rest = pre +:+ rest' ∧ run ns rest' opened caps = Some x.
Proof.
  induction rest as [|a r IH].
  - rewrite run_Any_nil. intros H. by exists EmptyString, EmptyString.
  - rewrite run_Any_cons.
    destruct (cls_match k a); [|intros H; by exists EmptyString, (String a r)].
    destruct (run (Any k :: ns) r opened caps) as [y|].
    + intros [= ->]. destruct (IH eq_refl) as (pre & rest' & -> & Hrun).
      by exists (String a pre), rest'.
    + intros H. by exists EmptyString, (String a r).
Qed.

Lemma run_lits_forward p ns rest opened caps :
  run (lits p ++ ns) (p +:+ rest) opened caps = run ns rest opened caps.
Proof.
  induction p as [|c p IH]; [by rewrite app_nil|].
  cbn [lits app]. by rewrite app_cons, run_lit_forward.
Qed.

(** The end of the pattern, [.*\.txt$], on a text without a newline that
    ends in the extension. *)
Lemma plot_tail_forward suffix opened caps :
  all_in Dot suffix = true →
  run (Any Dot :: One (Lit ".") :: lits "txt" ++ [Eol]) (suffix +:+ ".txt") opened caps
  = Some (rev caps, EmptyString).
Proof.
  intros Hall. induction suffix as [|c s IH]; [by rewrite app_nil|].
  cbn [all_in] in Hall. apply andb_prop in Hall as [Hc Hs].
  by rewrite app_cons, run_Any_cons, Hc, IH.
Qed.

Lemma plot_pattern_groups s caps rest :
  run Plot.FNAME_RE s EmptyString [] = Some (caps, rest) →
  ∃ p1 p2 p3, caps = [p1; p2; p3] ∧
    Forall (λ p, p ≠ EmptyString ∧ all_in Digit p = true) [p1; p2; p3].
Proof.
  unfold Plot.FNAME_RE. intros H.
  apply run_lits in H as (s0 & _ & H). cbn [app lits] in H.
  apply run_many_chars in H as (id & s1 & _ & _ & _ & H).
  apply run_lit in H as (s2 & _ & H).
  apply run_group in H as (p1 & s3 & _ & Hn1 & Hd1 & H).
  do 2 apply run_lit in H as (? & _ & H).
  apply run_group in H as (p2 & s4 & _ & Hn2 & Hd2 & H).
  apply run_lit in H as (? & _ & H).
  apply run_group in H as (p3 & s5 & _ & Hn3 & Hd3 & H).
  do 2 apply run_lit in H as (? & _ & H).
  apply run_any in H as (? & ? & _ & H).
  do 4 apply run_lit in H as (? & _ & H).
  rewrite run_Eol in H. destruct (at_end _); [|done].
  cbn in H. injection H as <- <-.
  exists p1, p2, p3. split; [done|]. repeat constructor; done.
Qed.

Lemma plot_pattern_forward id p1 p2 p3 suffix :
  id ≠ EmptyString → all_in (NotLit "_") id = true →
  Forall (λ p, p ≠ EmptyString ∧ all_in Digit p = true) [p1; p2; p3] →
  all_in Dot suffix = true →
  match_ Plot.FNAME_RE
    ("Results_HW2_MCC_030402_" +:+ id +:+ String "_" (p1 +:+ String "K" (String "_"
       (p2 +:+ String "_" (p3 +:+ String "K" (String "_" (suffix +:+ ".txt")))))))
  = Some [p1; p2; p3].
Proof.
  intros Hne Hid Hd Hsuf. apply Forall_cons in Hd as [[? ?] Hd].
  apply Forall_cons in Hd as [[? ?] Hd]. apply Forall_cons in Hd as [[? ?] _].
  unfold match_.
  match goal with |- fst <$> ?r = _ =>
    assert (r = Some ([p1; p2; p3], EmptyString)) as ->; [|done] end.
  unfold Plot.FNAME_RE. rewrite run_lits_forward. cbn [app lits].
  apply run_many_greedy; [done..|].
  rewrite run_lit_forward. apply run_group_forward; [done..|].
  rewrite !run_lit_forward. apply run_group_forward; [done..|].
  rewrite run_lit_forward. apply run_group_forward; [done..|].
  rewrite !run_lit_forward. by apply plot_tail_forward.
Qed.

End plot_names.

(** X19.  Reading a file name never makes plot.py fail: a name the pattern
    does not match is skipped, and for a name it matches the three numbers
    are read without an error and none of them is negative. *)
Theorem X19_plot_parse_total fn :
  Plot.parse fn = Ok None ∨
  ∃ ds ts th, Plot.parse fn = Ok (Some (ds, ts, th)) ∧ 0 ≤ ds ∧ 0 ≤ ts ∧ 0 ≤ th.
Proof.
  unfold Plot.parse, Re.match_.
  destruct (Re.run Plot.FNAME_RE fn EmptyString []) as [[caps rest]|] eqn:Hrun; [|by left].
  right. apply plot_pattern_groups in Hrun as (p1 & p2 & p3 & -> & Hd).
  apply Forall_cons in Hd as [[? ?] Hd]. apply Forall_cons in Hd as [[? ?] Hd].
  apply Forall_cons in Hd as [[? ?] _]. cbn [fmap option_fmap option_map fst].
  change (group [p1; p2; p3] 1) with p1. change (group [p1; p2; p3] 2) with p2.
  change (group [p1; p2; p3] 3) with p3.
  destruct (int_digits_nonneg p1) as (a & -> & ?); [done..|].
  destruct (int_digits_nonneg p2) as (b & -> & ?); [done..|].
  destruct (int_digits_nonneg p3) as (c & -> & ?); [done..|].
  by exists a, c, b.
Qed.

(** X20.  Round trip of the naming convention plot.py reads,
    Results_HW2_MCC_030402_<id>_<a>K_<b>_<c>K_<anything>.txt: for an
    identifier without underscore, numbers that are not negative and a rest
    without newline, the name gives dataset size a, table size c and
    thread count b, the sizes as the numbers written before the K (not
    multiplied by 1000). *)
Theorem X20_plot_parse_round_trip id a b c suffix :
  id ≠ EmptyString → all_in (Re.NotLit "_") id = true →
  0 ≤ a → 0 ≤ b → 0 ≤ c → all_in Re.Dot suffix = true →
  Plot.parse ("Results_HW2_MCC_030402_" +:+ id +:+ "_" +:+ Py.str a +:+ "K_" +:+
              Py.str b +:+ "_" +:+ Py.str c +:+ "K_" +:+ suffix +:+ ".txt")
  = Ok (Some (a, c, b)).
Proof.
  intros Hne Hid Ha Hb Hc Hsuf.
  destruct (str_nonneg a Ha) as (? & ? & ?), (str_nonneg b Hb) as (? & ? & ?),
           (str_nonneg c Hc) as (? & ? & ?).
  unfold Plot.parse.
  change ("Results_HW2_MCC_030402_" +:+ id +:+ "_" +:+ Py.str a +:+ "K_" +:+
          Py.str b +:+ "_" +:+ Py.str c +:+ "K_" +:+ suffix +:+ ".txt")
    with ("Results_HW2_MCC_030402_" +:+ id +:+ String "_" (Py.str a +:+ String "K"
            (String "_" (Py.str b +:+ String "_" (Py.str c +:+ String "K"
               (String "_" (suffix +:+ ".txt"))))))).
  rewrite plot_pattern_forward by (repeat constructor; done).
  change (group [Py.str a; Py.str b; Py.str c] 1) with (Py.str a).
  change (group [Py.str a; Py.str b; Py.str c] 2) with (Py.str b).
  change (group [Py.str a; Py.str b; Py.str c] 3) with (Py.str c).
  by rewrite !int_str by done.
Qed.

Lemma X20_witness :
  Plot.parse ("Results_HW2_MCC_030402_" +:+ "401106039" +:+ "_" +:+ Py.str 150 +:+ "K_" +:+
              Py.str 512 +:+ "_" +:+ Py.str 90 +:+ "K_" +:+ "run1" +:+ ".txt")
  = Ok (Some (150, 90, 512)).
Proof.
  apply (X20_plot_parse_round_trip "401106039" 150 512 90 "run1");
    first [lia | reflexivity | discriminate].
Defined.
